(** * Effort prediction and correction pipeline

    A shallow embedding of [catboost_model.py], [model_storage.py] and
    [data_processor.py], and the properties of the constrained predictor,
    the training pipeline, the model registry and the orchestrator.

    Conventions of the embedding.
    - A float64 cell is an [option Q]: [None] is NaN (pandas' missing
      value), [Some q] a finite number.  Comparison, [min] and [clip] are
      exact on finite floats, so they are the same functions over [Q];
      medians and quantiles are taken in exact arithmetic.
    - A frame is the list of its rows in positional order, under the default
      [RangeIndex] that [read_csv] and [read_excel] produce: the index label
      of a row is its position, and [df.at[idx, col] = v] updates position
      [idx].
    - The regressor, the scaler, the splitter and the metrics of CatBoost and
      scikit-learn are the operations of a [Backend]; every statement holds
      for all of them. *)

From Stdlib Require Import QArith Qminmax Qround Sorted Lqa.
From stdpp Require Import gmap strings list fin_maps.

Set Default Proof Using "Type".

(** ** Floats, series and the numpy / pandas primitives the code calls *)

Module Pandas.

(** A float64 cell; [None] is NaN. *)
Abbreviation cell := (option Q).

Definition Qltb (x y : Q) : bool := negb (Qle_bool y x).

Definition Qleb (x y : Q) : bool := Qle_bool x y.

(** [Series.isna()] on one cell. *)
Definition isna (c : cell) : bool :=
  match c with None => true | Some _ => false end.

(** [series > limit] on one cell: a comparison with NaN is False. *)
Definition gt (c : cell) (limit : Q) : bool :=
  match c with Some v => Qltb limit v | None => false end.

(** [series >= bound] and [series <= bound] against a bound that may itself
    be NaN. *)
Definition ge (v : Q) (bound : cell) : bool :=
  match bound with Some b => Qleb b v | None => false end.

Definition le (v : Q) (bound : cell) : bool :=
  match bound with Some b => Qleb v b | None => false end.

(** Python's builtin [min(a, b)]: the first argument unless the second is
    strictly smaller. *)
Definition py_min (a b : Q) : Q := if Qltb b a then b else a.

Definition np_maximum (a b : Q) : Q := if Qltb a b then b else a.
Definition np_minimum (a b : Q) : Q := if Qltb b a then b else a.

(** [np.clip(x, a_min, a_max)] is [minimum(maximum(x, a_min), a_max)]. *)
Definition np_clip (x a_min a_max : Q) : Q :=
  np_minimum (np_maximum x a_min) a_max.

(** [Series.clip(upper=limit)] on one cell: NaN stays NaN. *)
Definition clip_upper (limit : Q) (c : cell) : cell :=
  match c with
  | Some v => Some (if Qltb limit v then limit else v)
  | None => None
  end.

(** [Series.fillna(value)] on one cell; filling with NaN leaves NaN. *)
Definition fillna (value : cell) (c : cell) : cell :=
  match c with Some v => Some v | None => value end.

(** [Series.dropna()]. *)
Definition dropna (s : list cell) : list Q := omap id s.

(** Ascending insertion sort of the finite values of a series. *)
Fixpoint insert_sorted (x : Q) (l : list Q) : list Q :=
  match l with
  | [] => [x]
  | y :: l' => if Qle_bool x y then x :: l else y :: insert_sorted x l'
  end.

Definition sort_values (l : list Q) : list Q := foldr insert_sorted [] l.

(** [Series.quantile(q)] with the default linear interpolation: the value
    at the fractional position [(n - 1) * q] of the sorted finite values;
    NaN for a series without finite values. *)
Definition quantile_values (q : Q) (values : list Q) : cell :=
  let v := sort_values values in
  match v with
  | [] => None
  | x0 :: _ =>
      let h := (inject_Z (Z.of_nat (length v) - 1) * q)%Q in
      let lo := Qfloor h in
      let hi := Qceiling h in
      let vlo := nth (Z.to_nat lo) v x0 in
      let vhi := nth (Z.to_nat hi) v x0 in
      Some (vlo + (h - inject_Z lo) * (vhi - vlo))%Q
  end.

Definition quantile (q : Q) (s : list cell) : cell :=
  quantile_values q (dropna s).

(** [Series.median()]: NaN is skipped; the middle value, or the mean of the
    two middle values. *)
Definition median (s : list cell) : cell := quantile (1 # 2) s.

End Pandas.

Import Pandas.

(** ** Exceptions *)

Inductive Exception :=
| ValueError (msg : string)
| AttributeError (msg : string)
| NotFittedError (msg : string)
| FileNotFoundError (msg : string).

Inductive Result (A : Type) :=
| Ok (a : A)
| Raise (e : Exception).

Arguments Ok {A} a.
Arguments Raise {A} e.

(** ** Frames *)

(** The calendar fields pandas reads off a parsed date. *)
Record Timestamp := mkTimestamp {
  year : Z; month : Z; day : Z; dayofweek : Z; weekofyear : Z }.

(** An observation row: the target, the parsed date ([None] is NaT), and the
    covariates by column name.  [num r c] is the cell of column [c] as
    [pd.to_numeric(errors='coerce')] reads it, [cat r c] the cell of a
    categorical column ([None] is a missing value). *)
Record Row := mkRow {
  effortExpense : cell;
  effortDate : option Timestamp;
  num : string -> cell;
  cat : string -> option string }.

Record DataFrame := mkFrame {
  columns : list string;
  rows : list Row }.

Definition has_column (df : DataFrame) (col : string) : bool :=
  bool_decide (col ∈ columns df).

Definition set_num (col : string) (v : cell) (r : Row) : Row :=
  mkRow (effortExpense r) (effortDate r)
        (fun c => if String.eqb c col then v else num r c) (cat r).

Definition set_cat (col : string) (v : option string) (r : Row) : Row :=
  mkRow (effortExpense r) (effortDate r) (num r)
        (fun c => if String.eqb c col then v else cat r c).

(** [df[col] = f(row)]: assign a column, adding it when it is new. *)
Definition assign_num (col : string) (f : Row -> cell) (df : DataFrame)
  : DataFrame :=
  mkFrame (if has_column df col then columns df else columns df ++ [col])
          (fmap (fun r => set_num col (f r) r) (rows df)).

Definition assign_cat (col : string) (f : Row -> option string)
  (df : DataFrame) : DataFrame :=
  mkFrame (if has_column df col then columns df else columns df ++ [col])
          (fmap (fun r => set_cat col (f r) r) (rows df)).

Definition series (df : DataFrame) (col : string) : list cell :=
  fmap (fun r => num r col) (rows df).

(** The row handed to the regressor: [feature_columns] lists the numerical
    columns first, so it is the numerical block followed by the categorical
    block. *)
Record Features := mkFeatures {
  numerical_block : list cell;
  categorical_block : list (option string) }.

Definition Sample : Type := Features * Q.

(** ** The learning back-end *)

Class Backend := {
  Regressor : Type;
  Scaler : Type;
  Params : Type;
  Scores : Type;
  (** the initial [catboost_params] *)
  catboost_params0 : Params;
  (** [GridSearchCV(...).fit(X_train, y_train).best_params_] merged into the
      parameters *)
  grid_search : Params -> list Sample -> Params;
  (** [train_test_split(X, y, test_size, random_state=42)] *)
  train_test_split : Q -> list Sample -> list Sample * list Sample;
  (** [StandardScaler.fit] on the numerical blocks of the training split *)
  scaler_fit : list (list cell) -> Scaler;
  (** [StandardScaler.transform] on one numerical block *)
  scaler_transform : Scaler -> list cell -> list cell;
  (** [CatBoostRegressor(params).fit(train, eval_set=test)] *)
  catboost_fit : Params -> list Sample -> list Sample -> Regressor;
  (** [CatBoostRegressor.predict] on one row *)
  catboost_predict : Regressor -> Features -> Q;
  (** RMSE, MAE, R2 on both splits and the feature importances *)
  score : Regressor -> list Sample -> list Sample -> list string -> Scores;
  (** [json.dumps] of the metrics dictionary *)
  json_dumps : option (Scores * nat * nat) -> string }.

(** ** [catboost_model.py]: class [CatBoostEffortModel] *)

Module CatBoostEffortModel.
Section WithBackend.
Context {backend : Backend}.

(** The [model_metrics] dictionary: the scores, [training_samples] and
    [test_samples]. *)
Definition Metrics : Type := Scores * nat * nat.

Definition training_samples (m : Metrics) : nat := m.1.2.

(** The object state; [scaler = None] is a [StandardScaler()] that was never
    fitted, [model_metrics = None] the empty dictionary. *)
Record t := mk {
  effort_limit : Q;
  model : option Regressor;
  scaler : option Scaler;
  feature_columns : list string;
  categorical_columns : list string;
  is_trained : bool;
  model_metrics : option Metrics;
  catboost_params : Params }.

Definition init (effort_limit : Q) : t :=
  mk effort_limit None None [] [] false None catboost_params0.

Definition CATEGORICAL : list string :=
  ["msg_JobTitle"; "msg_Community"; "taskType";
   "CountryManagerForProject"; "Email"]%string.

Definition numerical_columns : list string :=
  ["effortTimeCosts"; "billingRate_hourlyRate";
   "year"; "month"; "day"; "dayofweek"; "weekofyear"]%string.

Definition calendar (field : Timestamp -> Z) (r : Row) : cell :=
  (fun d => inject_Z (field d)) <$> effortDate r.

Definition extract_date_features (df : DataFrame) : DataFrame :=
  if has_column df "effortDate" then
    let df := assign_num "year" (calendar year) df in
    let df := assign_num "month" (calendar month) df in
    let df := assign_num "day" (calendar day) df in
    let df := assign_num "dayofweek" (calendar dayofweek) df in
    assign_num "weekofyear" (calendar weekofyear) df
  else df.

(** One turn of the loop over [numerical_columns]: the missing cells of a
    present column are filled with the median of that column in the frame
    being processed. *)
Definition fill_numerical (df : DataFrame) (col : string) : DataFrame :=
  if has_column df col then
    assign_num col (fun r => fillna (median (series df col)) (num r col)) df
  else df.

Definition fill_categorical (df : DataFrame) (col : string) : DataFrame :=
  if has_column df col then
    assign_cat col (fun r => Some (default "Unknown"%string (cat r col))) df
  else df.

Definition prepare_features (self : t) (df : DataFrame) : t * DataFrame :=
  let df_processed := extract_date_features df in
  let self :=
    mk (effort_limit self) (model self) (scaler self)
       (List.filter (has_column df_processed) (numerical_columns ++ CATEGORICAL))
       CATEGORICAL
       (is_trained self) (model_metrics self) (catboost_params self) in
  let df_processed := fold_left fill_numerical numerical_columns df_processed in
  let df_processed := fold_left fill_categorical CATEGORICAL df_processed in
  (self, df_processed).

Definition is_categorical (self : t) (col : string) : bool :=
  bool_decide (col ∈ categorical_columns self).

Definition numerical_features (self : t) : list string :=
  List.filter (fun col => negb (is_categorical self col)) (feature_columns self).

(** [frame[self.feature_columns]] on one row. *)
Definition select_features (self : t) (r : Row) : Features :=
  mkFeatures
    (fmap (num r) (numerical_features self))
    (fmap (cat r) (List.filter (is_categorical self) (feature_columns self))).

Definition scale (sc : Scaler) (x : Features) : Features :=
  mkFeatures (scaler_transform sc (numerical_block x)) (categorical_block x).

(** *** Training *)

Definition dropna_target (l : list Row) : list (Row * Q) :=
  omap (fun r => pair r <$> effortExpense r) l.

Definition cap (limit v : Q) : Q := if Qltb limit v then limit else v.

Definition iqr_bounds (y_capped : list Q) : cell * cell :=
  let Q1 := quantile_values (1 # 4) y_capped in
  let Q3 := quantile_values (3 # 4) y_capped in
  let IQR := q3 ← Q3; q1 ← Q1; Some (q3 - q1)%Q in
  let lower_bound := q1 ← Q1; iqr ← IQR; Some (q1 - (3 # 2) * iqr)%Q in
  let upper_bound := q3 ← Q3; iqr ← IQR; Some (q3 + (3 # 2) * iqr)%Q in
  (lower_bound, upper_bound).

Definition outlier_mask (y_capped : list Q) : list bool :=
  let '(lower_bound, upper_bound) := iqr_bounds y_capped in
  fmap (fun v => ge v lower_bound && le v upper_bound) y_capped.

(** [X[outlier_mask]] and [y_capped[outlier_mask]], row by row. *)
Definition boolean_index {A} (l : list A) (mask : list bool) : list A :=
  fst <$> List.filter snd (zip l mask).

Definition not_enough_data : string :=
  "Not enough training data. Need at least 10 rows with effort expense values.".

(** Lines 108-127: the features and the target of the training rows, the
    target capped at the ceiling, and the rows within the interquartile
    bounds of the capped target. *)
Definition training_set (self : t) (train_data : list (Row * Q)) : list Sample :=
  let X := fmap (fun p => select_features self p.1) train_data in
  let y := fmap snd train_data in
  let y_capped := fmap (cap (effort_limit self)) y in
  let mask := outlier_mask y_capped in
  let X := boolean_index X mask in
  let y_capped := boolean_index y_capped mask in
  zip X y_capped.

(** Lines 132-197: split, scale, tune, fit and score. *)
Definition fit_model (self : t) (samples : list Sample) (test_size : Q)
  (hyperparameter_tuning fast_mode : bool) : Metrics * t :=
  let '(train, test) := train_test_split test_size samples in
  let fitted :=
    match numerical_features self with
    | [] => None
    | _ :: _ => Some (scaler_fit (fmap (fun s : Sample => numerical_block s.1) train))
    end in
  let scaled (s : Sample) : Sample :=
    match fitted with
    | Some sc => (scale sc s.1, s.2)
    | None => s
    end in
  let train_scaled := fmap scaled train in
  let test_scaled := fmap scaled test in
  let params :=
    if hyperparameter_tuning && negb fast_mode
    then grid_search (catboost_params self) train_scaled
    else catboost_params self in
  let regressor := catboost_fit params train_scaled test_scaled in
  let metrics : Metrics :=
    (score regressor train_scaled test_scaled (feature_columns self),
     length train, length test) in
  (metrics,
   mk (effort_limit self) (Some regressor)
      (match fitted with Some sc => Some sc | None => scaler self end)
      (feature_columns self) (categorical_columns self)
      true (Some metrics) params).

Definition train_model (self : t) (df : DataFrame) (test_size : Q)
  (hyperparameter_tuning fast_mode : bool) : Result Metrics * t :=
  let '(self, df_processed) := prepare_features self df in
  let train_data := dropna_target (rows df_processed) in
  if (length train_data <? 10)%nat then
    (Raise (ValueError not_enough_data), self)
  else
    let '(metrics, self) :=
      fit_model self (training_set self train_data) test_size
                hyperparameter_tuning fast_mode in
    (Ok metrics, self).

(** *** Constrained prediction *)

(** A row of the frame [predict] returns: the processed row and the five
    columns [predict] adds. *)
Record PredRow := mkPred {
  row : Row;
  is_missing_effort : bool;
  is_over_limit : bool;
  needs_prediction : bool;
  effortExpense_predicted : cell;
  effortExpense_final : cell }.

Definition set_predicted (v : cell) (r : PredRow) : PredRow :=
  mkPred (row r) (is_missing_effort r) (is_over_limit r) (needs_prediction r)
         v (effortExpense_final r).

Definition set_final (v : cell) (r : PredRow) : PredRow :=
  mkPred (row r) (is_missing_effort r) (is_over_limit r) (needs_prediction r)
         (effortExpense_predicted r) v.

(** [df.at[idx, column] = v] under the positional index. *)
Definition at_set (idx : nat) (setter : cell -> PredRow -> PredRow) (v : cell)
  (df : list PredRow) : list PredRow :=
  alter (setter v) idx df.

(** Lines 248-254: the three flags and the two columns initialised with the
    original target. *)
Definition classify (limit : Q) (r : Row) : PredRow :=
  let missing := isna (effortExpense r) in
  let over := gt (effortExpense r) limit in
  mkPred r missing over (missing || over) (effortExpense r) (effortExpense r).

(** [frame[mask].iterrows()]: the selected rows with their index labels. *)
Definition iterrows (mask : PredRow -> bool) (df : list PredRow)
  : list (nat * PredRow) :=
  List.filter (fun p => mask p.2) (imap pair df).

(** The body of the loop at lines 283-294. *)
Definition apply_prediction (limit : Q) (df : list PredRow)
  (item : nat * PredRow * Q) : list PredRow :=
  let '(idx, r, predicted_value) := item in
  if is_missing_effort r then
    let capped_prediction := py_min predicted_value limit in
    let df := at_set idx set_predicted (Some capped_prediction) df in
    at_set idx set_final (Some capped_prediction) df
  else if is_over_limit r then
    let df := at_set idx set_predicted (Some (py_min predicted_value limit)) df in
    at_set idx set_final (Some limit) df
  else df.

Definition none_has_no_predict : string :=
  "'NoneType' object has no attribute 'predict'".

Definition scaler_not_fitted : string :=
  "This StandardScaler instance is not fitted yet.".

(** Lines 257-294: inference on the rows that need it, the clamp of the raw
    outputs to [[0, effort_limit]] and the per-category policy. *)
Definition predict_rows (self : t) (df : list PredRow)
  : Result (list PredRow) :=
  if existsb needs_prediction df then
    let prediction_rows := iterrows needs_prediction df in
    let X := fmap (fun p => select_features self (row p.2)) prediction_rows in
    let X_scaled :=
      match numerical_features self with
      | [] => Ok X
      | _ :: _ =>
          match scaler self with
          | Some sc => Ok (fmap (scale sc) X)
          | None => Raise (NotFittedError scaler_not_fitted)
          end
      end in
    match X_scaled with
    | Raise e => Raise e
    | Ok X_scaled =>
        match model self with
        | None => Raise (AttributeError none_has_no_predict)
        | Some regressor =>
            let predictions := fmap (catboost_predict regressor) X_scaled in
            let predictions :=
              fmap (fun p => np_clip p 0 (effort_limit self)) predictions in
            Ok (fold_left (apply_prediction (effort_limit self))
                          (zip prediction_rows predictions) df)
        end
    end
  else Ok df.

(** Lines 302-320: the validation sweep over the rows that needed a
    prediction. *)
Definition high_predictions (limit : Q) (df : list PredRow)
  : list (nat * PredRow) :=
  List.filter (fun p => gt (effortExpense_predicted p.2) limit)
              (iterrows needs_prediction df).

Definition force_cap (limit : Q) (df : list PredRow) (idx : nat)
  : list PredRow :=
  let df := at_set idx set_predicted (Some limit) df in
  at_set idx set_final (Some limit) df.

Definition validate_predictions (limit : Q) (df : list PredRow)
  : list PredRow :=
  let high := high_predictions limit df in
  if (0 <? length high)%nat then fold_left (force_cap limit) (fmap fst high) df
  else df.

(** Lines 322-328: the final sweep over the whole [effortExpense_final]
    column. *)
Definition final_high_values (limit : Q) (df : list PredRow) : list PredRow :=
  List.filter (fun r => gt (effortExpense_final r) limit) df.

Definition final_validation (limit : Q) (df : list PredRow) : list PredRow :=
  if (0 <? length (final_high_values limit df))%nat then
    fmap (fun r => set_final (clip_upper limit (effortExpense_final r)) r) df
  else df.

Definition predict (self : t) (df : DataFrame) : Result (list PredRow) * t :=
  let '(self, df_processed) := prepare_features self df in
  let df_processed := fmap (classify (effort_limit self)) (rows df_processed) in
  match predict_rows self df_processed with
  | Raise e => (Raise e, self)
  | Ok df_processed =>
      let df_processed := validate_predictions (effort_limit self) df_processed in
      let df_processed := final_validation (effort_limit self) df_processed in
      (Ok df_processed, self)
  end.

(** *** Persistence of the artifact *)

(** The dictionary [joblib.dump] writes. *)
Record Artifact := mkArtifact {
  a_model : Regressor;
  a_scaler : option Scaler;
  a_feature_columns : list string;
  a_categorical_columns : list string;
  a_effort_limit : Q;
  a_model_metrics : option Metrics;
  a_is_trained : bool }.

Definition no_model_to_save : string := "No trained model to save".

Definition save_model (self : t) (filepath : string) (fs : gmap string Artifact)
  : Result unit * gmap string Artifact :=
  match model self with
  | None => (Raise (ValueError no_model_to_save), fs)
  | Some regressor =>
      let model_data :=
        mkArtifact regressor (scaler self) (feature_columns self)
                   (categorical_columns self) (effort_limit self)
                   (model_metrics self) (is_trained self) in
      (Ok tt, <[filepath := model_data]> fs)
  end.

Definition load_model (self : t) (filepath : string) (fs : gmap string Artifact)
  : Result unit * t :=
  match fs !! filepath with
  | None => (Raise (FileNotFoundError ("Model file not found: " +:+ filepath)), self)
  | Some model_data =>
      (Ok tt,
       mk (a_effort_limit model_data) (Some (a_model model_data))
          (a_scaler model_data) (a_feature_columns model_data)
          (a_categorical_columns model_data) (a_is_trained model_data)
          (a_model_metrics model_data) (catboost_params self))
  end.

End WithBackend.

Arguments prepare_features : simpl never.
Arguments extract_date_features : simpl never.
Arguments train_model : simpl never.
Arguments predict : simpl never.

End CatBoostEffortModel.

(** ** [model_storage.py]: class [ModelStorage] *)

Module ModelStorage.

(** A row of the [models] table.  Timestamps are seconds; [metrics] is the
    serialized dictionary. *)
Record Entry := mkEntry {
  id : Z;
  model_name : string;
  model_type : string;
  file_path : string;
  created_at : Z;
  updated_at : Z;
  metrics : string;
  feature_count : nat;
  training_samples : nat;
  effort_limit : Q;
  is_active : bool }.

(** The database file: the [models] table in rowid order and the
    AUTOINCREMENT counter that SQLite keeps in [sqlite_sequence]. *)
Record t := mk {
  models : list Entry;
  sqlite_sequence : Z }.

(** [CREATE TABLE IF NOT EXISTS]: a fresh file gets empty tables, an
    existing file keeps its rows. *)
Definition init_database (on_disk : option t) : t :=
  default (mk [] 0) on_disk.

Definition deactivate (e : Entry) : Entry :=
  mkEntry (id e) (model_name e) (model_type e) (file_path e) (created_at e)
          (updated_at e) (metrics e) (feature_count e) (training_samples e)
          (effort_limit e) false.

Definition max_rowid (l : list Entry) : Z :=
  fold_right (fun e acc => Z.max (id e) acc) 0%Z l.

(** [UPDATE models SET is_active = 0], then [INSERT OR REPLACE]: a row with
    the same unique [model_name] is deleted, and the new row takes the next
    AUTOINCREMENT rowid with both timestamps at [now]. *)
Definition save_model (self : t) (now : Z) (model_name_ model_type_ file_path_ : string)
  (metrics_ : string) (feature_count_ training_samples_ : nat) (effort_limit_ : Q)
  : Z * t :=
  let deactivated := fmap deactivate (models self) in
  let model_id := (Z.max (sqlite_sequence self) (max_rowid deactivated) + 1)%Z in
  let kept :=
    List.filter (fun e => negb (String.eqb (model_name e) model_name_)) deactivated in
  let inserted :=
    mkEntry model_id model_name_ model_type_ file_path_ now now metrics_
            feature_count_ training_samples_ effort_limit_ true in
  (model_id, mk (kept ++ [inserted]) model_id).

(** [ORDER BY updated_at DESC], rows with equal timestamps in rowid order. *)
Fixpoint insert_desc (e : Entry) (l : list Entry) : list Entry :=
  match l with
  | [] => [e]
  | x :: l' =>
      if (updated_at e <? updated_at x)%Z then x :: insert_desc e l'
      else e :: l
  end.

Definition order_by_updated_at_desc (l : list Entry) : list Entry :=
  fold_right insert_desc [] l.

(** [SELECT * FROM models WHERE is_active = 1 ORDER BY updated_at DESC
    LIMIT 1]. *)
Definition get_active_model (self : t) : option Entry :=
  head (order_by_updated_at_desc (List.filter is_active (models self))).

Definition get_all_models (self : t) : list Entry :=
  order_by_updated_at_desc (models self).

(** [DELETE FROM models WHERE id = ?] and [os.remove] of the artifact when
    the row exists; no other row is written. *)
Definition delete_model {A} (self : t) (model_id : Z) (fs : gmap string A)
  : bool * t * gmap string A :=
  match List.find (fun e => (id e =? model_id)%Z) (models self) with
  | Some e =>
      (true,
       mk (List.filter (fun e => negb (id e =? model_id)%Z) (models self))
          (sqlite_sequence self),
       delete (file_path e) fs)
  | None => (false, self, fs)
  end.

Record Stats := mkStats {
  total_models : nat;
  active_models : nat;
  latest_model_type : option string;
  latest_update : option Z }.

Definition get_model_stats (self : t) : Stats :=
  let latest := head (order_by_updated_at_desc (models self)) in
  mkStats (length (models self))
          (length (List.filter is_active (models self)))
          (model_type <$> latest) (updated_at <$> latest).

End ModelStorage.

(** ** Sequences of registry saves *)

Module Registry.
Import ModelStorage.

(** The arguments of one [save_model] call and the clock reading it sees. *)
Record SaveCall := mkSave {
  s_now : Z;
  s_name : string;
  s_type : string;
  s_path : string;
  s_metrics : string;
  s_features : nat;
  s_samples : nat;
  s_limit : Q }.

Definition save (db : t) (c : SaveCall) : t :=
  (save_model db (s_now c) (s_name c) (s_type c) (s_path c) (s_metrics c)
              (s_features c) (s_samples c) (s_limit c)).2.

Definition saves (db : t) (calls : list SaveCall) : t :=
  fold_left save calls db.

(** The row a call inserts under the rowid [model_id]. *)
Definition inserted_by (model_id : Z) (c : SaveCall) : Entry :=
  mkEntry model_id (s_name c) (s_type c) (s_path c) (s_now c) (s_now c)
          (s_metrics c) (s_features c) (s_samples c) (s_limit c) true.

(** The head of a list carries the latest [updated_at] of the list. *)
Definition head_latest (l : list Entry) : Prop :=
  forall h, head l = Some h ->
  forall x, x ∈ l -> (updated_at x <= updated_at h)%Z.

End Registry.

(** ** Histories of the registry *)

Module History.
Import ModelStorage Registry.

(** A write to the registry: a save or the delete of a row. *)
Inductive Op :=
| Save (c : SaveCall)
| Delete (model_id : Z).

Definition step (db : t) (op : Op) : t :=
  match op with
  | Save c => save db c
  | Delete model_id => (delete_model db model_id (∅ : gmap string unit)).1.2
  end.

Definition run (db : t) (ops : list Op) : t := fold_left step ops db.

(** Most recently updated first. *)
Definition latest_first (a b : Entry) : Prop :=
  (updated_at b <= updated_at a)%Z.

End History.

(** ** [data_processor.py]: class [DataProcessor] *)

Module DataProcessor.
Section WithBackend.
Context {backend : Backend}.

Record t := mk {
  effort_limit : Q;
  missing_threshold : Q;
  ml_model : CatBoostEffortModel.t;
  is_model_trained : bool;
  model_storage : ModelStorage.t }.

Definition init (effort_limit missing_threshold : Q)
  (on_disk : option ModelStorage.t) : t :=
  mk effort_limit missing_threshold (CatBoostEffortModel.init effort_limit)
     false (ModelStorage.init_database on_disk).

Definition with_ml_model (self : t) (ml : CatBoostEffortModel.t)
  (trained : bool) : t :=
  mk (effort_limit self) (missing_threshold self) ml trained
     (model_storage self).

Definition train_model (self : t) (df : DataFrame)
  (hyperparameter_tuning fast_mode : bool)
  : Result CatBoostEffortModel.Metrics * t :=
  match CatBoostEffortModel.train_model (ml_model self) df (1 # 5)
          hyperparameter_tuning fast_mode with
  | (Ok metrics, ml) => (Ok metrics, with_ml_model self ml true)
  | (Raise e, ml) => (Raise e, with_ml_model self ml (is_model_trained self))
  end.

(** A row of the corrected table: the predictor's row and the
    [effortExpense_original] column. *)
Record CorrectedRow := mkCorrected {
  predicted_row : CatBoostEffortModel.PredRow;
  effortExpense_original : cell }.

Definition must_be_trained : string :=
  "Model must be trained before making predictions. Call train_model() first.".

Definition predict_effort_expenses (self : t) (df : DataFrame)
  : Result (list CorrectedRow) * t :=
  if negb (is_model_trained self) then
    (Raise (ValueError must_be_trained), self)
  else
    match CatBoostEffortModel.predict (ml_model self) df with
    | (Ok df_predicted, ml) =>
        (Ok (zip_with mkCorrected df_predicted (fmap effortExpense (rows df))),
         with_ml_model self ml (is_model_trained self))
    | (Raise e, ml) => (Raise e, with_ml_model self ml (is_model_trained self))
    end.

Definition no_trained_model : string := "No trained model to save".

(** [timestamp] and [name_timestamp] are the two readings of
    [datetime.now()] as formatted, [now] is SQLite's [CURRENT_TIMESTAMP]. *)
Definition save_model (self : t) (filepath : option string)
  (timestamp name_timestamp : string) (now : Z)
  (fs : gmap string CatBoostEffortModel.Artifact)
  : Result string * t * gmap string CatBoostEffortModel.Artifact :=
  if negb (is_model_trained self) then
    (Raise (ValueError no_trained_model), self, fs)
  else
    let filepath :=
      default ("effort_expense_model_catboost_" +:+ timestamp +:+ ".pkl")
              filepath in
    match CatBoostEffortModel.save_model (ml_model self) filepath fs with
    | (Raise e, fs) => (Raise e, self, fs)
    | (Ok _, fs) =>
        let ml := ml_model self in
        let '(model_id, storage) :=
          ModelStorage.save_model (model_storage self) now
            ("CatBoost_Model_" +:+ name_timestamp) "CatBoost" filepath
            (json_dumps (CatBoostEffortModel.model_metrics ml))
            (length (CatBoostEffortModel.feature_columns ml))
            (from_option CatBoostEffortModel.training_samples 0%nat
               (CatBoostEffortModel.model_metrics ml))
            (effort_limit self) in
        (Ok filepath,
         mk (effort_limit self) (missing_threshold self) ml
            (is_model_trained self) storage,
         fs)
    end.

Definition no_active_model : string := "No active model found in database".

Definition load_model (self : t) (filepath : option string)
  (fs : gmap string CatBoostEffortModel.Artifact) : Result unit * t :=
  let located :=
    match filepath with
    | Some filepath => Ok filepath
    | None =>
        match ModelStorage.get_active_model (model_storage self) with
        | Some active_model => Ok (ModelStorage.file_path active_model)
        | None => Raise (ValueError no_active_model)
        end
    end in
  match located with
  | Raise e => (Raise e, self)
  | Ok filepath =>
      match CatBoostEffortModel.load_model (ml_model self) filepath fs with
      | (Ok _, ml) => (Ok tt, with_ml_model self ml true)
      | (Raise e, ml) => (Raise e, with_ml_model self ml (is_model_trained self))
      end
  end.

End WithBackend.
End DataProcessor.


(** ** The per-row reading of the predictor

    What the three passes of [predict] amount to on one row, stated without
    the index loop; the lemmas below relate the loop to it. *)

Section PredictorReading.
Context {backend : Backend}.
Import CatBoostEffortModel.

(** The row handed to the regressor at line 276. *)
Definition scaled_features (self : t) (r : Row) : Features :=
  match numerical_features self, scaler self with
  | _ :: _, Some sc => scale sc (select_features self r)
  | _, _ => select_features self r
  end.

(** The raw output of the regressor after the clamp of line 280. *)
Definition clamped_prediction (self : t) (regressor : Regressor) (r : Row) : Q :=
  np_clip (catboost_predict regressor (scaled_features self r)) 0 (effort_limit self).

(** The two assignments the loop body makes for an item [(idx, r, p)]. *)
Definition policy_update (limit : Q) (r : PredRow) (p : Q) : PredRow -> PredRow :=
  if is_missing_effort r then
    set_final (Some (py_min p limit)) ∘ set_predicted (Some (py_min p limit))
  else if is_over_limit r then
    set_final (Some limit) ∘ set_predicted (Some (py_min p limit))
  else id.

Definition policy (limit : Q) (p : Q) (r : PredRow) : PredRow :=
  policy_update limit r p r.

(** A row as [classify] leaves it: the flags computed from the target, both
    new columns equal to the target. *)
Definition well_classified (limit : Q) (r : PredRow) : Prop :=
  r = classify limit (row r).

(** A final value that is a number and at most the ceiling. *)
Definition within_limit (limit : Q) (c : cell) : Prop :=
  match c with Some v => (v <= limit)%Q | None => False end.

End PredictorReading.

(** ** The two readings of numeric imputation *)

Section ImputationReading.
Context {backend : Backend}.
Import CatBoostEffortModel.

(** The cell of column [c] after the loop over the columns [cols] has run on
    the frame [df]. *)
Definition imputed (df : DataFrame) (cols : list string) (r : Row) (c : string)
  : cell :=
  if bool_decide (c ∈ cols) && has_column df c
  then fillna (median (series df c)) (num r c)
  else num r c.

(** Equality of cells as numbers. *)
Definition cell_eq (a b : cell) : Prop :=
  match a, b with
  | Some x, Some y => (x == y)%Q
  | None, None => True
  | _, _ => False
  end.

End ImputationReading.

(** The requirement as the specification words it: in a prediction made
    with a model trained on [train_df], a missing numeric cell is filled with
    the median its column had in [train_df]. *)
Definition imputes_training_median : Prop :=
  forall (backend : Backend) (train_df df : DataFrame)
    (self trained self' : CatBoostEffortModel.t)
    (metrics : CatBoostEffortModel.Metrics)
    (out : list CatBoostEffortModel.PredRow) (col : string) (j : nat)
    (r : Row) (pr : CatBoostEffortModel.PredRow),
    CatBoostEffortModel.train_model self train_df (1 # 5) false true
      = (Ok metrics, trained) ->
    CatBoostEffortModel.predict trained df = (Ok out, self') ->
    col ∈ CatBoostEffortModel.numerical_columns ->
    has_column df col = true ->
    rows df !! j = Some r ->
    num r col = None ->
    out !! j = Some pr ->
    cell_eq (num (CatBoostEffortModel.row pr) col) (median (series train_df col)).

(** ** [data_processor.py]: the issue manifest, the summary and the
    notification rows *)

Module Reports.
Section WithBackend.
Context {backend : Backend}.
Import CatBoostEffortModel.

(** An entry of [issues['predicted_values']]. *)
Record PredictedValue := mkPredictedValue {
  index : nat;
  original : cell;
  predicted : cell;
  final : cell;
  reason : string }.

(** The dictionary [identify_issues] returns. *)
Record Issues := mkIssues {
  missing_effort : list nat;
  over_limit : list nat;
  predicted_values : list PredictedValue;
  needs_notification : list nat }.

(** The body of the loop over [df.iterrows()]: three independent tests, each
    appending to its lists. *)
Definition note_row (issues : Issues) (item : nat * DataProcessor.CorrectedRow)
  : Issues :=
  let '(idx, c) := item in
  let row := DataProcessor.predicted_row c in
  let issues :=
    if is_missing_effort row then
      mkIssues (missing_effort issues ++ [idx]) (over_limit issues)
               (predicted_values issues) (needs_notification issues ++ [idx])
    else issues in
  let issues :=
    if is_over_limit row then
      mkIssues (missing_effort issues) (over_limit issues ++ [idx])
               (predicted_values issues) (needs_notification issues ++ [idx])
    else issues in
  if needs_prediction row then
    mkIssues (missing_effort issues) (over_limit issues)
             (predicted_values issues ++
                [mkPredictedValue idx
                   (DataProcessor.effortExpense_original c)
                   (effortExpense_predicted row) (effortExpense_final row)
                   (if is_missing_effort row then "missing" else "over_limit")])
             (needs_notification issues)
  else issues.

Definition identify_issues (df : list DataProcessor.CorrectedRow) : Issues :=
  fold_left note_row (imap pair df) (mkIssues [] [] [] []).

(** [(count / total_rows) * 100 if total_rows > 0 else 0]. *)
Definition percentage (count total_rows : nat) : Q :=
  if (0 <? total_rows)%nat
  then (inject_Z (Z.of_nat count) / inject_Z (Z.of_nat total_rows) * 100)%Q
  else 0%Q.

Record Summary := mkSummary {
  total_rows : nat;
  missing_effort_count : nat;
  over_limit_count : nat;
  predicted_count : nat;
  notification_count : nat;
  missing_percentage : Q;
  over_limit_percentage : Q;
  prediction_accuracy : Q }.

(** The placeholder accuracy of [_calculate_prediction_accuracy]. *)
Definition calculate_prediction_accuracy (df : list DataProcessor.CorrectedRow) : Q :=
  85%Q.

Definition generate_summary_report (df : list DataProcessor.CorrectedRow)
  (issues : Issues) : Summary :=
  let total_rows := length df in
  let missing_count := length (missing_effort issues) in
  let over_limit_count := length (over_limit issues) in
  let predicted_count := length (predicted_values issues) in
  mkSummary total_rows missing_count over_limit_count predicted_count
            (length (needs_notification issues))
            (percentage missing_count total_rows)
            (percentage over_limit_count total_rows)
            (calculate_prediction_accuracy df).

(** [row.get('effortDate', '')]: the cell, or the default when the frame has
    no such column. *)
Inductive DateCell :=
| DateValue (d : option Timestamp)
| DateDefault.

(** A notification row.  A text field is the cell of the column ([None] is
    a missing cell), or the empty string when the frame has no such column;
    [billing_rate] and [effort_costs] are [None] when the frame has no such
    column. *)
Record Notification := mkNotification {
  user_email : option string;
  user_name : option string;
  userid : option string;
  project_name : option string;
  task_name : option string;
  effort_date : DateCell;
  original_effort : cell;
  predicted_effort : cell;
  final_effort : cell;
  issue_type : string;
  billing_rate : option cell;
  effort_costs : option cell;
  job_title : option string;
  community : option string }.

Definition get_text (cols : list string) (r : Row) (col : string) : option string :=
  if bool_decide (col ∈ cols) then cat r col else Some ""%string.

Definition get_number (cols : list string) (r : Row) (col : string) : option cell :=
  if bool_decide (col ∈ cols) then Some (num r col) else None.

Definition notification (cols : list string) (c : DataProcessor.CorrectedRow)
  : Notification :=
  let pr := DataProcessor.predicted_row c in
  let r := row pr in
  mkNotification
    (get_text cols r "Email") (get_text cols r "keyEffortUser")
    (get_text cols r "updUserOid") (get_text cols r "name_P")
    (get_text cols r "Task Name")
    (if bool_decide ("effortDate"%string ∈ cols)
     then DateValue (effortDate r) else DateDefault)
    (DataProcessor.effortExpense_original c)
    (effortExpense_predicted pr) (effortExpense_final pr)
    (if is_missing_effort pr then "missing" else "over_limit")
    (get_number cols r "billingRate_hourlyRate")
    (get_number cols r "effortTimeCosts")
    (get_text cols r "msg_JobTitle") (get_text cols r "msg_Community").

(** The result of [prepare_notification_data]: the rows, or the [IndexError]
    of [df.iloc[idx]]. *)
Inductive Outcome :=
| Done (rows : list Notification)
| IndexError (msg : string).

Definition out_of_bounds : string := "single positional indexer is out-of-bounds".

(** One turn of the loop over [issues['needs_notification']]. *)
Definition notify (cols : list string) (df : list DataProcessor.CorrectedRow)
  (acc : Outcome) (idx : nat) : Outcome :=
  match acc with
  | IndexError msg => IndexError msg
  | Done notification_data =>
      match df !! idx with
      | Some c => Done (notification_data ++ [notification cols c])
      | None => IndexError out_of_bounds
      end
  end.

Definition prepare_notification_data (cols : list string)
  (df : list DataProcessor.CorrectedRow) (issues : Issues) : Outcome :=
  fold_left (notify cols df) (needs_notification issues) (Done []).

(** [get_model_info] of the orchestrator: the status record of an untrained
    orchestrator, else the description of the model. *)
Record ModelInfo := mkModelInfo {
  model_type : string;
  info_is_trained : bool;
  info_effort_limit : Q;
  info_feature_count : nat;
  info_categorical_features : nat;
  info_metrics : option Metrics }.

Definition get_model_info (self : DataProcessor.t) : option ModelInfo :=
  if negb (DataProcessor.is_model_trained self) then None
  else
    let ml := DataProcessor.ml_model self in
    Some (mkModelInfo "CatBoost" (is_trained ml) (effort_limit ml)
                      (length (feature_columns ml))
                      (length (categorical_columns ml)) (model_metrics ml)).

End WithBackend.
End Reports.

(** ** The loop of [identify_issues], row by row *)

Section IssuesReading.
Context {backend : Backend}.
Import CatBoostEffortModel Reports.

(** The indices one row adds to [needs_notification]. *)
Definition noted (item : nat * DataProcessor.CorrectedRow) : list nat :=
  (if is_missing_effort (DataProcessor.predicted_row item.2) then [item.1] else [])
  ++ (if is_over_limit (DataProcessor.predicted_row item.2) then [item.1] else []).

(** The entry one row adds to [predicted_values]. *)
Definition predicted_value (item : nat * DataProcessor.CorrectedRow)
  : PredictedValue :=
  let row := DataProcessor.predicted_row item.2 in
  mkPredictedValue item.1 (DataProcessor.effortExpense_original item.2)
    (effortExpense_predicted row) (effortExpense_final row)
    (if is_missing_effort row then "missing" else "over_limit").

End IssuesReading.

(** ** The corrected table against the input table *)

(** What a row of the corrected table is to the input row it comes from,
    under the ceiling [limit]. *)
Definition corrected_from {backend : Backend} (limit : Q) (r : Row)
  (c : DataProcessor.CorrectedRow) : Prop :=
  let pr := DataProcessor.predicted_row c in
  DataProcessor.effortExpense_original c = effortExpense r /\
  CatBoostEffortModel.is_missing_effort pr = isna (effortExpense r) /\
  CatBoostEffortModel.is_over_limit pr = gt (effortExpense r) limit /\
  CatBoostEffortModel.needs_prediction pr
  = isna (effortExpense r) || gt (effortExpense r) limit /\
  within_limit limit (CatBoostEffortModel.effortExpense_final pr) /\
  (isna (effortExpense r) || gt (effortExpense r) limit = false ->
   CatBoostEffortModel.effortExpense_final pr = effortExpense r).

(** ** The orchestrator's flag and its model *)

(** The trained flag is backed by a regressor. *)
Definition consistent {backend : Backend} (self : DataProcessor.t) : Prop :=
  DataProcessor.is_model_trained self = true ->
  is_Some (CatBoostEffortModel.model (DataProcessor.ml_model self)).

(** The orchestrator over another registry. *)
Definition with_storage {backend : Backend} (self : DataProcessor.t)
  (storage : ModelStorage.t) : DataProcessor.t :=
  DataProcessor.mk (DataProcessor.effort_limit self)
                   (DataProcessor.missing_threshold self)
                   (DataProcessor.ml_model self)
                   (DataProcessor.is_model_trained self) storage.

(** ** Frames derived from a frame *)

(** The frame with its target column replaced, row by row, as
    [df['effortExpense'] = values] does. *)
Definition with_targets (targets : list cell) (df : DataFrame) : DataFrame :=
  mkFrame (columns df)
          (zip_with (fun r t => mkRow t (effortDate r) (num r) (cat r))
                    (rows df) targets).

(** A row whose target [predict] will replace: null or above the ceiling. *)
Definition needs_correction (limit : Q) (r : Row) : bool :=
  isna (effortExpense r) || gt (effortExpense r) limit.

(** ** A small back-end and the scenario of the specification

    A deterministic stand-in for CatBoost, used to run the embedding on
    concrete tables: the regressor is the mean of the training targets and
    predicts the first numerical feature of a row when it has one (so a
    table chooses the raw outputs), the mean otherwise. *)

Module Example.
Local Open Scope Q_scope.

Definition mean (l : list Q) : Q :=
  match l with
  | [] => 0
  | _ :: _ => (fold_right Qplus 0 l / inject_Z (Z.of_nat (length l)))%Q
  end.

Definition toy_backend : Backend := {|
  Regressor := Q;
  Scaler := unit;
  Params := unit;
  Scores := unit;
  catboost_params0 := tt;
  grid_search := fun p _ => p;
  train_test_split := fun test_size l =>
    let n_test := Z.to_nat (Qceiling (test_size * inject_Z (Z.of_nat (length l)))) in
    (drop n_test l, take n_test l);
  scaler_fit := fun _ => tt;
  scaler_transform := fun _ x => x;
  catboost_fit := fun _ train _ => mean (snd <$> train);
  catboost_predict := fun regressor x =>
    match numerical_block x with
    | Some v :: _ => v
    | _ => regressor
    end;
  score := fun _ _ _ _ => tt;
  json_dumps := fun _ => "{}"%string |}.

(** A row with a target and an [effortTimeCosts] cell. *)
Definition observation (target costs : cell) : Row :=
  mkRow target None
        (fun c => if String.eqb c "effortTimeCosts" then costs else None)
        (fun _ => None).

Definition frame (l : list Row) : DataFrame :=
  mkFrame ["effortExpense"; "effortTimeCosts"]%string l.

(** Twelve rows, ceiling 30: two null targets, one target of 45, nine
    targets within the ceiling.  The costs make the raw outputs 50, -5
    and 10 on the three rows that need a prediction. *)
Definition scenario : DataFrame :=
  frame [ observation (Some 8) (Some 4);
          observation None (Some 50);
          observation (Some 12) (Some 6);
          observation (Some 45) (Some 10);
          observation (Some 30) (Some 15);
          observation None (Some (-5));
          observation (Some 7) None;
          observation (Some (1 # 2)) (Some 1);
          observation (Some 0) (Some 2);
          observation (Some 21) (Some 9);
          observation (Some 16) (Some 8);
          observation (Some 3) (Some 3) ].

(** A training table: twelve rows, every cost 100. *)
Definition training_table : DataFrame :=
  frame ((fun t => observation (Some (inject_Z t)) (Some 100))
           <$> [1; 2; 3; 4; 5; 6; 7; 8; 9; 10; 11; 12]%Z).

Definition training_result :=
  CatBoostEffortModel.train_model (backend := toy_backend)
    (CatBoostEffortModel.init 30) training_table (1 # 5) false true.

(** The first ten and the first nine rows of the training table. *)
Definition ten_rows : DataFrame := frame (take 10 (rows training_table)).
Definition nine_rows : DataFrame := frame (take 9 (rows training_table)).

Definition training_metrics : CatBoostEffortModel.Metrics (backend := toy_backend) :=
  (tt, 9%nat, 3%nat).

(** The scenario corrected by the model trained on [training_table]. *)
Definition retrained_result :=
  CatBoostEffortModel.predict training_result.2 scenario.

Definition retrained_out : list (CatBoostEffortModel.PredRow) :=
  match retrained_result.1 with Ok out => out | Raise _ => [] end.

(** Two saves, the second with the earlier clock reading. *)
Definition first_save : Registry.SaveCall :=
  Registry.mkSave 200 "CatBoost_Model_A" "CatBoost" "a.pkl" "{}" 7 9 30.

Definition second_save : Registry.SaveCall :=
  Registry.mkSave 100 "CatBoost_Model_B" "CatBoost" "b.pkl" "{}" 7 9 30.

Definition two_saves : ModelStorage.t :=
  Registry.saves (ModelStorage.init_database None) [first_save; second_save].

(** An orchestrator over the registry of the two saves, with the artifact
    of the second save on disk, and one over the same registry after the
    second entry was deleted. *)
Definition artifact_b : CatBoostEffortModel.Artifact (backend := toy_backend) :=
  CatBoostEffortModel.mkArtifact (backend := toy_backend)
    (10 : Q) (Some tt) ["effortTimeCosts"]%string [] 30 None true.

Definition disk : gmap string (CatBoostEffortModel.Artifact (backend := toy_backend)) :=
  {[ "b.pkl"%string := artifact_b ]}.

Definition fresh_processor : DataProcessor.t (backend := toy_backend) :=
  DataProcessor.init 30 (1 # 10) (Some two_saves).

Definition orphaned_processor : DataProcessor.t (backend := toy_backend) :=
  DataProcessor.init 30 (1 # 10)
    (Some (ModelStorage.delete_model two_saves 2 disk).1.2).

(** Train, save, and restart: a new orchestrator over the registry and the
    disk the save left behind. *)
Definition trained_processor : DataProcessor.t (backend := toy_backend) :=
  (DataProcessor.train_model (DataProcessor.init 30 (1 # 10) None)
     training_table false true).2.

Definition after_save :=
  DataProcessor.save_model trained_processor None
    "20240101_120000" "20240101_120000" 1704110400 ∅.

Definition restarted_processor : DataProcessor.t (backend := toy_backend) :=
  DataProcessor.init 30 (1 # 10)
    (Some (DataProcessor.model_storage after_save.1.2)).

(** A model as [load_model] leaves it. *)
Definition loaded_model : CatBoostEffortModel.t (backend := toy_backend) :=
  CatBoostEffortModel.mk (backend := toy_backend)
    30 (Some (10 : Q)) (Some tt) [] [] true None tt.

Definition scenario_result :=
  CatBoostEffortModel.predict loaded_model scenario.

Definition scenario_out : list (CatBoostEffortModel.PredRow) :=
  match scenario_result.1 with Ok out => out | Raise _ => [] end.

(** The frame after pass 1 of that run. *)
Definition scenario_pass1 : list (CatBoostEffortModel.PredRow) :=
  let prepared := CatBoostEffortModel.prepare_features loaded_model scenario in
  match CatBoostEffortModel.predict_rows prepared.1
          (CatBoostEffortModel.classify 30 <$> rows prepared.2) with
  | Ok mid => mid
  | Raise _ => []
  end.

(** The orchestrator after loading the active model of [two_saves], and the
    scenario corrected by it. *)
Definition loaded_processor : DataProcessor.t (backend := toy_backend) :=
  (DataProcessor.load_model fresh_processor None disk).2.

Definition corrected_result :=
  DataProcessor.predict_effort_expenses loaded_processor scenario.

Definition corrected_out : list (DataProcessor.CorrectedRow) :=
  match corrected_result.1 with Ok out => out | Raise _ => [] end.

End Example.
(** * Properties *)

(** ** Order facts about the float primitives *)

Section QltbFacts.

Lemma Qltb_lt x y : Qltb x y = true <-> (x < y)%Q.
Proof.
  unfold Qltb. rewrite negb_true_iff, <- not_true_iff_false, Qle_bool_iff.
  split; [apply Qnot_le_lt | apply Qlt_not_le].
Qed.

Lemma Qltb_ge x y : Qltb x y = false <-> (y <= x)%Q.
Proof.
  unfold Qltb. rewrite negb_false_iff. apply Qle_bool_iff.
Qed.

Lemma py_min_le_r a b : (py_min a b <= b)%Q.
Proof.
  unfold py_min. destruct (Qltb b a) eqn:E.
  - apply Qle_refl.
  - now apply Qltb_ge.
Qed.

Lemma py_min_id a b : (a <= b)%Q -> py_min a b = a.
Proof.
  intros H. unfold py_min. apply Qltb_ge in H. now rewrite H.
Qed.

Lemma np_clip_le x lo hi : (np_clip x lo hi <= hi)%Q.
Proof. apply py_min_le_r. Qed.

Lemma np_clip_ge x lo hi : (lo <= hi)%Q -> (lo <= np_clip x lo hi)%Q.
Proof.
  intros H. unfold np_clip, np_minimum, np_maximum.
  destruct (Qltb x lo) eqn:E1.
  - destruct (Qltb hi lo) eqn:E2; [exact H | apply Qle_refl].
  - destruct (Qltb hi x) eqn:E2; [exact H | now apply Qltb_ge].
Qed.

Lemma gt_false_le v limit : gt (Some v) limit = false -> (v <= limit)%Q.
Proof. simpl. apply Qltb_ge. Qed.

Lemma gt_true_lt v limit : gt (Some v) limit = true -> (limit < v)%Q.
Proof. simpl. apply Qltb_lt. Qed.

Lemma gt_le_false v limit : (v <= limit)%Q -> gt (Some v) limit = false.
Proof. simpl. apply Qltb_ge. Qed.

End QltbFacts.

(** ** The sort behind quantiles and medians *)

Section SortValues.

Lemma insert_sorted_Permutation x l : insert_sorted x l ≡ₚ x :: l.
Proof.
  induction l as [|y l IH]; simpl; [reflexivity|].
  destruct (Qle_bool x y); [reflexivity|].
  rewrite IH. apply Permutation_swap.
Qed.

Lemma sort_values_Permutation l : sort_values l ≡ₚ l.
Proof.
  induction l as [|x l IH]; simpl; [reflexivity|].
  now rewrite insert_sorted_Permutation, IH.
Qed.

Lemma insert_sorted_sorted x l :
  StronglySorted Qle l -> StronglySorted Qle (insert_sorted x l).
Proof.
  induction 1 as [|y l Hs IH Hall]; simpl.
  - repeat constructor.
  - destruct (Qle_bool x y) eqn:E.
    + apply Qle_bool_iff in E. constructor; [now constructor|].
      constructor; [exact E|].
      eapply Forall_impl; [exact Hall|]. intros z Hz. simpl in Hz.
      eapply Qle_trans; eassumption.
    + assert (Hyx : (y <= x)%Q).
      { apply Qlt_le_weak, Qnot_le_lt. intros Hle.
        apply Qle_bool_iff in Hle. congruence. }
      constructor; [exact IH|].
      rewrite insert_sorted_Permutation. now constructor.
Qed.

Lemma sort_values_sorted l : StronglySorted Qle (sort_values l).
Proof.
  induction l as [|x l IH]; simpl; [constructor|].
  now apply insert_sorted_sorted.
Qed.

Example median_of_four :
  from_option (fun m => m == 5 # 2)%Q False
              (median [Some 4; None; Some 1; Some 3; Some 2]%Q).
Proof. vm_compute. reflexivity. Qed.

Example quartiles_of_twelve :
  let y := (fun n => inject_Z n) <$> [12; 1; 11; 2; 10; 3; 9; 4; 8; 5; 7; 6]%Z in
  from_option (fun q1 => q1 == 15 # 4)%Q False (quantile_values (1 # 4) y) /\
  from_option (fun q3 => q3 == 37 # 4)%Q False (quantile_values (3 # 4) y).
Proof. vm_compute. auto. Qed.

End SortValues.

(** ** Lists under the positional index *)

Lemma List_filter_stdpp {A} (f : A -> bool) (l : list A) :
  List.filter f l = filter (fun x => f x) l.
Proof.
  induction l as [|a l IH]; [reflexivity|].
  simpl. rewrite filter_cons, <- IH.
  destruct (decide (f a)) as [Hf|Hf]; destruct (f a); simpl in Hf;
    try reflexivity; contradiction.
Qed.

Lemma elem_of_List_filter {A} (f : A -> bool) (l : list A) (x : A) :
  x ∈ List.filter f l <-> x ∈ l /\ f x = true.
Proof. rewrite !list_elem_of_In. apply filter_In. Qed.

Section Positional.
Context {A : Type}.

Lemma imap_index {B} (g : nat -> B) (l : list A) :
  imap (fun n _ => g n) l = g <$> seq 0 (length l).
Proof.
  revert g. induction l as [|a l IH]; intros g; [reflexivity|].
  simpl. f_equal. change ((fun n (_ : A) => g n) ∘ S) with (fun n (_ : A) => g (S n)).
  rewrite (IH (fun n => g (S n))). rewrite <- fmap_S_seq, <- list_fmap_compose.
  reflexivity.
Qed.

Lemma NoDup_filter_imap_fst (mask : nat * A -> bool) (l : list A) :
  NoDup (List.filter mask (imap pair l)).*1.
Proof.
  rewrite List_filter_stdpp.
  apply (sublist_NoDup _ (imap pair l).*1).
  - rewrite fmap_imap.
    change (fun n => fst ∘ pair n) with (fun (n : nat) (_ : A) => id n).
    rewrite imap_index, list_fmap_id. apply NoDup_seq.
  - apply fmap_sublist, sublist_filter.
Qed.

Lemma elem_of_filter_imap (mask : nat * A -> bool) (l : list A) i x :
  (i, x) ∈ List.filter mask (imap pair l) <-> l !! i = Some x /\ mask (i, x) = true.
Proof.
  rewrite list_elem_of_In, filter_In, <- list_elem_of_In, elem_of_lookup_imap.
  split.
  - intros [(j & y & Heq & Hl) Hm]. inversion Heq; subst. auto.
  - intros [Hl Hm]. split; [exists i, x; auto | exact Hm].
Qed.

Lemma zip_fmap_same {B} (g : A -> B) (l : list A) :
  zip l (g <$> l) = (fun x => (x, g x)) <$> l.
Proof. induction l as [|a l IH]; [reflexivity|]. cbn. f_equal. exact IH. Qed.

Lemma fst_pair_fmap {B} (g : A -> B) (l : list A) :
  ((fun x => (x, g x)) <$> l).*1 = l.
Proof.
  rewrite <- list_fmap_compose. induction l as [|a l IH]; [reflexivity|].
  cbn. f_equal. exact IH.
Qed.

Lemma filter_none (f : A -> bool) (l : list A) :
  (forall x, x ∈ l -> f x = false) -> List.filter f l = [].
Proof.
  induction l as [|a l IH]; intros H; [reflexivity|].
  simpl. rewrite (H a) by apply list_elem_of_here.
  apply IH. intros x Hx. apply H. now apply list_elem_of_further.
Qed.

Lemma existsb_false_elem (f : A -> bool) (l : list A) x :
  existsb f l = false -> x ∈ l -> f x = false.
Proof.
  intros He Hx. apply not_true_is_false. intros Hf.
  assert (existsb f l = true); [|congruence].
  apply existsb_exists. exists x. split; [now apply list_elem_of_In|exact Hf].
Qed.

Lemma alter_twice (f g : A -> A) (i : nat) (l : list A) :
  alter f i (alter g i l) = alter (f ∘ g) i l.
Proof.
  revert i. induction l as [|a l IH]; intros [|i]; try reflexivity.
  cbn. f_equal. apply IH.
Qed.

End Positional.

(** ** The constrained predictor *)

Section Predictor.
Context {backend : Backend}.
Import CatBoostEffortModel.

Lemma apply_prediction_alter limit d i r p :
  apply_prediction limit d (i, r, p) = alter (policy_update limit r p) i d.
Proof.
  unfold apply_prediction, policy_update, at_set.
  destruct (is_missing_effort r); [apply alter_twice|].
  destruct (is_over_limit r); [apply alter_twice|].
  symmetry. now apply list_alter_id.
Qed.

Lemma fold_untouched limit (items : list (nat * PredRow * Q)) d j :
  j ∉ items.*1.*1 ->
  fold_left (apply_prediction limit) items d !! j = d !! j.
Proof.
  revert d. induction items as [|[[i r] p] items IH]; intros d Hj; [reflexivity|].
  rewrite !fmap_cons in Hj. cbn [fst fold_left] in *.
  apply not_elem_of_cons in Hj as [Hne Hj].
  rewrite IH by exact Hj. rewrite apply_prediction_alter.
  apply list_lookup_alter_ne. congruence.
Qed.

Lemma fold_touched limit (items : list (nat * PredRow * Q)) d j r p :
  NoDup items.*1.*1 -> (j, r, p) ∈ items ->
  fold_left (apply_prediction limit) items d !! j
  = policy_update limit r p <$> d !! j.
Proof.
  revert d. induction items as [|[[i r'] p'] items IH]; intros d Hnd Hin.
  - inversion Hin.
  - rewrite !fmap_cons in Hnd. cbn [fst fold_left] in *.
    apply NoDup_cons in Hnd as [Hfresh Hnd].
    apply elem_of_cons in Hin as [Heq|Hin].
    + inversion Heq; subst. rewrite fold_untouched by exact Hfresh.
      rewrite apply_prediction_alter. apply list_lookup_alter_eq.
    + rewrite IH by assumption. rewrite apply_prediction_alter.
      rewrite list_lookup_alter_ne; [reflexivity|].
      intros ->. apply Hfresh.
      apply (list_elem_of_fmap_2 fst) in Hin.
      apply (list_elem_of_fmap_2 fst) in Hin. exact Hin.
Qed.

Lemma policy_not_needed limit p r :
  well_classified limit r -> needs_prediction r = false -> policy limit p r = r.
Proof.
  intros Hwf Hf. rewrite Hwf in Hf. simpl in Hf.
  apply orb_false_elim in Hf as [Hm Ho].
  unfold policy, policy_update. rewrite Hwf. simpl. now rewrite Hm, Ho.
Qed.

(** The index loop of pass 1 computes [policy] on every row. *)
Lemma pass1_lookup limit (f : PredRow -> Q) (df : list PredRow) j :
  Forall (well_classified limit) df ->
  fold_left (apply_prediction limit)
            (zip (iterrows needs_prediction df)
                 ((fun p => f p.2) <$> iterrows needs_prediction df)) df !! j
  = (fun r => policy limit (f r) r) <$> df !! j.
Proof.
  intros Hwf. rewrite zip_fmap_same.
  set (prs := iterrows needs_prediction df).
  assert (Hidx : forall i, i ∈ prs.*1 -> exists r, df !! i = Some r /\ needs_prediction r = true).
  { intros i Hin. apply list_elem_of_fmap in Hin as ([i' r] & Heq & Hin).
    simpl in Heq. subst i'. apply elem_of_filter_imap in Hin. eauto. }
  destruct (df !! j) as [r|] eqn:Hj; simpl.
  - destruct (needs_prediction r) eqn:Hn.
    + rewrite (fold_touched limit _ df j r (f r)).
      * now rewrite Hj.
      * rewrite fst_pair_fmap. apply NoDup_filter_imap_fst.
      * apply (list_elem_of_fmap_2' _ _ (j, r)); [|reflexivity].
        apply elem_of_filter_imap. auto.
    + rewrite fold_untouched.
      * rewrite Hj. simpl. f_equal. symmetry. apply policy_not_needed; [|exact Hn].
        eapply Forall_lookup_1; eassumption.
      * rewrite fst_pair_fmap. intros Hin.
        apply Hidx in Hin as (r' & Hl & Hm). congruence.
  - rewrite fold_untouched; [now rewrite Hj|].
    rewrite fst_pair_fmap. intros Hin.
    apply Hidx in Hin as (r' & Hl & Hm). congruence.
Qed.

(** *** What [prepare_features] leaves alone *)

Lemma assign_num_target col f df :
  effortExpense <$> rows (assign_num col f df) = effortExpense <$> rows df.
Proof.
  unfold assign_num. simpl. rewrite <- list_fmap_compose.
  now apply list_fmap_ext.
Qed.

Lemma assign_cat_target col f df :
  effortExpense <$> rows (assign_cat col f df) = effortExpense <$> rows df.
Proof.
  unfold assign_cat. simpl. rewrite <- list_fmap_compose.
  now apply list_fmap_ext.
Qed.

Lemma fill_numerical_target cols df :
  effortExpense <$> rows (fold_left fill_numerical cols df)
  = effortExpense <$> rows df.
Proof.
  revert df. induction cols as [|c cols IH]; intros df; [reflexivity|].
  cbn [fold_left]. rewrite IH. unfold fill_numerical.
  destruct (has_column df c); [apply assign_num_target | reflexivity].
Qed.

Lemma fill_categorical_target cols df :
  effortExpense <$> rows (fold_left fill_categorical cols df)
  = effortExpense <$> rows df.
Proof.
  revert df. induction cols as [|c cols IH]; intros df; [reflexivity|].
  cbn [fold_left]. rewrite IH. unfold fill_categorical.
  destruct (has_column df c); [apply assign_cat_target | reflexivity].
Qed.

Lemma extract_date_features_target df :
  effortExpense <$> rows (extract_date_features df) = effortExpense <$> rows df.
Proof.
  unfold extract_date_features. destruct (has_column df "effortDate"); [|reflexivity].
  now rewrite !assign_num_target.
Qed.

Lemma prepare_features_effort_limit self df :
  effort_limit (prepare_features self df).1 = effort_limit self.
Proof. reflexivity. Qed.

Lemma prepare_features_model self df :
  model (prepare_features self df).1 = model self.
Proof. reflexivity. Qed.

(** The target column goes through [prepare_features] untouched. *)
Lemma prepare_features_target self df :
  effortExpense <$> rows (prepare_features self df).2 = effortExpense <$> rows df.
Proof.
  unfold prepare_features. cbn [snd].
  now rewrite fill_categorical_target, fill_numerical_target,
    extract_date_features_target.
Qed.

Lemma classify_well_classified limit (l : list Row) :
  Forall (well_classified limit) (classify limit <$> l).
Proof.
  apply Forall_fmap, Forall_forall. intros r _. reflexivity.
Qed.

(** *** Pass 1 on the whole frame *)

Lemma predict_rows_reading (self : t) (df out : list PredRow) :
  Forall (well_classified (effort_limit self)) df ->
  predict_rows self df = Ok out ->
  exists f : PredRow -> Q,
    (forall r, (f r <= effort_limit self)%Q) /\
    (forall r, r ∈ df -> needs_prediction r = true ->
       exists regressor, model self = Some regressor /\
         f r = clamped_prediction self regressor (row r)) /\
    (forall j, out !! j = (fun r => policy (effort_limit self) (f r) r) <$> df !! j).
Proof.
  intros Hwf. unfold predict_rows.
  destruct (existsb needs_prediction df) eqn:Hex.
  - set (prs := iterrows needs_prediction df).
    assert (Hgo : forall (prep : Features -> Features) regressor,
      (forall r, prep (select_features self r) = scaled_features self r) ->
      model self = Some regressor ->
      Ok (fold_left (apply_prediction (effort_limit self))
           (zip prs
              ((fun p => np_clip p 0 (effort_limit self)) <$>
               (catboost_predict regressor <$>
                (prep <$> ((fun p => select_features self (row p.2)) <$> prs)))))
           df) = Ok out ->
      exists f : PredRow -> Q,
        (forall r, (f r <= effort_limit self)%Q) /\
        (forall r, r ∈ df -> needs_prediction r = true ->
           exists regressor, model self = Some regressor /\
             f r = clamped_prediction self regressor (row r)) /\
        (forall j, out !! j = (fun r => policy (effort_limit self) (f r) r) <$> df !! j)).
    { intros prep regressor Hprep Hm Hout.
      exists (fun r => clamped_prediction self regressor (row r)).
      split; [intros r; apply np_clip_le|].
      split; [intros r _ _; eauto|].
      intros j. inversion Hout as [Hout']. clear Hout.
      rewrite <- !list_fmap_compose.
      erewrite (list_fmap_ext _ (fun p => clamped_prediction self regressor (row p.2))).
      - exact (pass1_lookup _ (fun r => clamped_prediction self regressor (row r)) df j Hwf).
      - intros ? [i r] _. unfold clamped_prediction. simpl. now rewrite Hprep. }
    destruct (numerical_features self) as [|c nf] eqn:Hnf.
    + destruct (model self) as [regressor|] eqn:Hm; [|discriminate].
      intros Hout. apply (Hgo id regressor); [| reflexivity |].
      * intros r. unfold scaled_features. now rewrite Hnf.
      * now rewrite list_fmap_id.
    + destruct (scaler self) as [sc|] eqn:Hsc; [|discriminate].
      destruct (model self) as [regressor|] eqn:Hm; [|discriminate].
      intros Hout. apply (Hgo (scale sc) regressor); [| reflexivity | exact Hout].
      intros r. unfold scaled_features. now rewrite Hnf, Hsc.
  - intros Hout. inversion Hout; subst out. clear Hout.
    exists (fun _ => effort_limit self).
    split; [intros; apply Qle_refl|].
    split.
    + intros r Hr Hn. rewrite (existsb_false_elem _ _ _ Hex Hr) in Hn. discriminate.
    + intros j. destruct (df !! j) as [r|] eqn:Hj; [|reflexivity].
      simpl. f_equal. symmetry. apply policy_not_needed.
      * eapply Forall_lookup_1; eassumption.
      * eapply existsb_false_elem; [exact Hex|]. eapply list_elem_of_lookup_2, Hj.
Qed.

(** *** The policy on a freshly classified row *)

Lemma policy_classify limit p r :
  policy limit p (classify limit r) =
  match effortExpense r with
  | None => mkPred r true false true (Some (py_min p limit)) (Some (py_min p limit))
  | Some v =>
      if Qltb limit v
      then mkPred r false true true (Some (py_min p limit)) (Some limit)
      else mkPred r false false false (Some v) (Some v)
  end.
Proof.
  unfold policy, policy_update, classify.
  destruct (effortExpense r) as [v|] eqn:E; simpl; [|reflexivity].
  destruct (Qltb limit v); reflexivity.
Qed.

Lemma policy_classify_bounded limit p r :
  let pr := policy limit p (classify limit r) in
  gt (effortExpense_predicted pr) limit = false /\
  gt (effortExpense_final pr) limit = false /\
  within_limit limit (effortExpense_final pr).
Proof.
  simpl. rewrite policy_classify.
  destruct (effortExpense r) as [v|]; [destruct (Qltb limit v) eqn:E|]; simpl.
  - rewrite !Qltb_ge. auto using py_min_le_r, Qle_refl.
  - rewrite E. apply Qltb_ge in E. auto.
  - rewrite !Qltb_ge. auto using py_min_le_r.
Qed.

(** *** The three passes together *)

Lemma predict_reading (self : t) df out self' :
  predict self df = (Ok out, self') ->
  let limit := effort_limit self in
  let processed := rows (prepare_features self df).2 in
  self' = (prepare_features self df).1 /\
  exists f : PredRow -> Q,
    (forall r, r ∈ processed -> needs_prediction (classify limit r) = true ->
       exists regressor, model self = Some regressor /\
         f (classify limit r) = clamped_prediction self' regressor r) /\
    out = (fun r => policy limit (f (classify limit r)) (classify limit r))
            <$> processed.
Proof.
  unfold predict.
  pose proof (prepare_features_effort_limit self df) as Hlim.
  pose proof (prepare_features_model self df) as Hmod.
  destruct (prepare_features self df) as [self1 dfp].
  cbn [fst snd] in *. rewrite Hlim.
  destruct (predict_rows self1 _) as [mid|e] eqn:Hp1; [|discriminate].
  apply predict_rows_reading in Hp1;
    [|rewrite Hlim; apply classify_well_classified].
  destruct Hp1 as (f & Hle & Hf & Hmid). rewrite Hlim in *.
  assert (Hmid' : mid = (fun r => policy (effort_limit self)
                           (f (classify (effort_limit self) r))
                           (classify (effort_limit self) r)) <$> rows dfp).
  { apply list_eq. intros j. rewrite Hmid, !list_lookup_fmap.
    now destruct (rows dfp !! j). }
  assert (Hrow : forall pr, pr ∈ mid ->
            gt (effortExpense_predicted pr) (effort_limit self) = false /\
            gt (effortExpense_final pr) (effort_limit self) = false).
  { intros pr Hin. rewrite Hmid' in Hin.
    apply list_elem_of_fmap in Hin as (r & -> & _).
    destruct (policy_classify_bounded (effort_limit self)
                (f (classify (effort_limit self) r)) r) as (? & ? & _). auto. }
  assert (Hv : validate_predictions (effort_limit self) mid = mid).
  { unfold validate_predictions, high_predictions.
    rewrite filter_none; [reflexivity|].
    intros [i pr] Hin. apply elem_of_filter_imap in Hin as [Hl _].
    apply list_elem_of_lookup_2 in Hl. now apply Hrow. }
  assert (Hfv : final_validation (effort_limit self) mid = mid).
  { unfold final_validation, final_high_values.
    rewrite filter_none; [reflexivity|]. intros pr Hin. now apply Hrow. }
  rewrite Hv, Hfv. intros Heq. inversion Heq; subst. clear Heq.
  split; [reflexivity|]. exists f. split; [|reflexivity].
  intros r Hr Hn.
  destruct (Hf (classify (effort_limit self) r)) as (regressor & Hm & Hfr);
    [now apply list_elem_of_fmap_2 | exact Hn |].
  exists regressor. rewrite <- Hmod. split; [exact Hm|].
  rewrite Hfr. unfold clamped_prediction. now rewrite Hlim.
Qed.

Lemma predict_lookup (self : t) df out self' j r :
  predict self df = (Ok out, self') ->
  rows df !! j = Some r ->
  exists r', rows (prepare_features self df).2 !! j = Some r' /\
             effortExpense r' = effortExpense r.
Proof.
  intros _ Hj.
  pose proof (prepare_features_target self df) as Ht.
  apply (f_equal (fun l => l !! j)) in Ht.
  rewrite !list_lookup_fmap, Hj in Ht.
  destruct (rows (prepare_features self df).2 !! j) as [r'|];
    cbn [fmap option_fmap option_map] in Ht; [|discriminate].
  exists r'. split; [reflexivity|]. congruence.
Qed.

(** C1. For every input table and every row of the table that [predict]
    returns, the final corrected value [effortExpense_final] is a number at
    most the configured ceiling [effort_limit], whatever the mix of missing,
    over-limit and normal rows; the returned table has one row per input
    row and the ceiling of the model is unchanged. *)
Theorem predict_final_within_limit (self : t) (df : DataFrame)
  (out : list PredRow) (self' : t) :
  predict self df = (Ok out, self') ->
  Forall (fun pr => within_limit (effort_limit self') (effortExpense_final pr)) out
  /\ length out = length (rows df)
  /\ effort_limit self' = effort_limit self.
Proof.
  intros Hp. pose proof (predict_reading _ _ _ _ Hp) as (Hself & f & _ & Hout).
  assert (Hlim : effort_limit self' = effort_limit self) by now subst self'.
  rewrite Hlim. split; [|split; [|reflexivity]].
  - rewrite Hout. apply Forall_fmap, Forall_forall. intros r _.
    apply policy_classify_bounded.
  - rewrite Hout, length_fmap.
    rewrite <- (length_fmap effortExpense), prepare_features_target.
    apply length_fmap.
Qed.

(** C2. For every row whose original target exceeds the ceiling, [predict]
    sets the final value to exactly the ceiling, whatever the regressor
    returns, and the predicted column of that row holds the regressor's raw
    output after the clamp, a value at most the ceiling. *)
Theorem predict_over_limit_truncated (self : t) (df : DataFrame)
  (out : list PredRow) (self' : t) (j : nat) (r : Row) :
  predict self df = (Ok out, self') ->
  rows df !! j = Some r ->
  gt (effortExpense r) (effort_limit self) = true ->
  exists regressor pr,
    model self = Some regressor /\
    out !! j = Some pr /\
    effortExpense (row pr) = effortExpense r /\
    is_over_limit pr = true /\
    effortExpense_final pr = Some (effort_limit self) /\
    effortExpense_predicted pr
      = Some (np_clip (catboost_predict regressor (scaled_features self' (row pr)))
                      0 (effort_limit self)) /\
    within_limit (effort_limit self) (effortExpense_predicted pr).
Proof.
  intros Hp Hj Hgt.
  destruct (predict_lookup _ _ _ _ _ _ Hp Hj) as (r' & Hj' & Ht).
  pose proof (predict_reading _ _ _ _ Hp) as (Hself & f & Hf & Hout).
  assert (Hlim : effort_limit self' = effort_limit self) by now subst self'.
  destruct (effortExpense r) as [v|] eqn:Hv; [|discriminate].
  simpl in Hgt.
  destruct (Hf r') as (regressor & Hm & Hfr).
  { eapply list_elem_of_lookup_2, Hj'. }
  { unfold classify. simpl. rewrite Ht. simpl. rewrite Hgt. reflexivity. }
  exists regressor, (policy (effort_limit self)
                       (f (classify (effort_limit self) r'))
                       (classify (effort_limit self) r')).
  split; [exact Hm|].
  split; [now rewrite Hout, list_lookup_fmap, Hj'|].
  rewrite policy_classify, Ht, Hgt. simpl.
  assert (Hle : (f (classify (effort_limit self) r') <= effort_limit self)%Q).
  { rewrite Hfr. unfold clamped_prediction. rewrite Hlim. apply np_clip_le. }
  rewrite (py_min_id _ _ Hle).
  repeat split; try assumption.
  rewrite Hfr. unfold clamped_prediction. now rewrite Hlim.
Qed.

(** C3. For every row whose target is neither null nor above the ceiling
    ([needs_prediction] is false), [predict] leaves the final value, and the
    predicted column too, exactly equal to the original target: no pass
    modifies such a row. *)
Theorem predict_passthrough (self : t) (df : DataFrame)
  (out : list PredRow) (self' : t) (j : nat) (r : Row) :
  predict self df = (Ok out, self') ->
  rows df !! j = Some r ->
  isna (effortExpense r) = false ->
  gt (effortExpense r) (effort_limit self) = false ->
  exists pr,
    out !! j = Some pr /\
    needs_prediction pr = false /\
    effortExpense_final pr = effortExpense r /\
    effortExpense_predicted pr = effortExpense r.
Proof.
  intros Hp Hj Hna Hgt.
  destruct (predict_lookup _ _ _ _ _ _ Hp Hj) as (r' & Hj' & Ht).
  pose proof (predict_reading _ _ _ _ Hp) as (_ & f & _ & Hout).
  destruct (effortExpense r) as [v|] eqn:Hv; [|discriminate].
  simpl in Hgt.
  eexists. split; [now rewrite Hout, list_lookup_fmap, Hj'|].
  rewrite policy_classify, Ht, Hgt. simpl. auto.
Qed.

(** C8. The force-clamp branch of the validation sweep (pass 2) is
    unreachable: on the frame pass 1 produces, no row that needed a
    prediction holds a predicted value above the ceiling, so
    [high_predictions] is empty and the sweep returns the frame as it
    is. *)
Theorem validation_sweep_unreachable (self : t) (df : DataFrame)
  (mid : list PredRow) :
  let prepared := prepare_features self df in
  let limit := effort_limit prepared.1 in
  predict_rows prepared.1 (classify limit <$> rows prepared.2) = Ok mid ->
  high_predictions limit mid = [] /\
  validate_predictions limit mid = mid /\
  Forall (fun pr => needs_prediction pr = true ->
                    within_limit limit (effortExpense_predicted pr)) mid.
Proof.
  intros prepared limit Hp1.
  apply predict_rows_reading in Hp1; [|apply classify_well_classified].
  destruct Hp1 as (f & _ & _ & Hmid). fold limit in Hmid.
  assert (Hmid' : mid = (fun r => policy limit (f (classify limit r))
                                    (classify limit r)) <$> rows prepared.2).
  { apply list_eq. intros j. rewrite Hmid, !list_lookup_fmap.
    now destruct (rows prepared.2 !! j). }
  assert (Hhigh : high_predictions limit mid = []).
  { unfold high_predictions. apply filter_none.
    intros [i pr] Hin. apply elem_of_filter_imap in Hin as [Hl _].
    apply list_elem_of_lookup_2 in Hl. rewrite Hmid' in Hl.
    apply list_elem_of_fmap in Hl as (r & -> & _).
    apply policy_classify_bounded. }
  split; [exact Hhigh|]. split.
  - unfold validate_predictions. now rewrite Hhigh.
  - rewrite Hmid'. apply Forall_fmap, Forall_forall. intros r _.
    simpl. rewrite policy_classify.
    destruct (effortExpense r) as [v|]; [destruct (Qltb limit v)|]; simpl;
      intros; try discriminate; apply py_min_le_r.
Qed.

End Predictor.

(** ** Numeric imputation *)

Section Imputation.
Context {backend : Backend}.
Import CatBoostEffortModel.

Lemma rows_fill_numerical df c0 :
  rows (fill_numerical df c0)
  = (fun r => if has_column df c0
              then set_num c0 (fillna (median (series df c0)) (num r c0)) r
              else r) <$> rows df.
Proof.
  unfold fill_numerical. destruct (has_column df c0); [reflexivity|].
  symmetry. apply list_fmap_id.
Qed.

Lemma columns_fill_numerical df c0 :
  columns (fill_numerical df c0) = columns df.
Proof.
  unfold fill_numerical, assign_num.
  destruct (has_column df c0); reflexivity.
Qed.

Lemma series_fill_numerical df c0 c :
  c <> c0 -> series (fill_numerical df c0) c = series df c.
Proof.
  intros Hne. unfold series. rewrite rows_fill_numerical, <- list_fmap_compose.
  apply list_fmap_ext. intros _ r _. simpl.
  destruct (has_column df c0); [|reflexivity].
  simpl. now apply String.eqb_neq in Hne as ->.
Qed.

Lemma fold_fill_numerical_num cols df j r :
  NoDup cols -> rows df !! j = Some r ->
  exists r', rows (fold_left fill_numerical cols df) !! j = Some r' /\
             forall c, num r' c = imputed df cols r c.
Proof.
  revert df r. induction cols as [|c0 cols IH]; intros df r Hnd Hj.
  - exists r. split; [exact Hj|]. intros c. unfold imputed.
    rewrite bool_decide_eq_false_2; [reflexivity | apply not_elem_of_nil].
  - apply NoDup_cons in Hnd as [Hfresh Hnd]. cbn [fold_left].
    destruct (IH (fill_numerical df c0)
                 (if has_column df c0
                  then set_num c0 (fillna (median (series df c0)) (num r c0)) r
                  else r) Hnd) as (r' & Hr' & Hnum).
    { now rewrite rows_fill_numerical, list_lookup_fmap, Hj. }
    exists r'. split; [exact Hr'|]. intros c. rewrite Hnum. unfold imputed.
    unfold has_column at 1. rewrite columns_fill_numerical.
    fold (has_column df c).
    destruct (decide (c = c0)) as [->|Hne].
    + rewrite (bool_decide_eq_false_2 (c0 ∈ cols)) by exact Hfresh.
      rewrite (bool_decide_eq_true_2 (c0 ∈ c0 :: cols)) by apply list_elem_of_here.
      simpl. destruct (has_column df c0); [|reflexivity].
      simpl. now rewrite String.eqb_refl.
    + rewrite series_fill_numerical by exact Hne.
      assert (Hmem : bool_decide (c ∈ c0 :: cols) = bool_decide (c ∈ cols)).
      { apply bool_decide_ext. rewrite elem_of_cons. tauto. }
      rewrite Hmem.
      assert (Hsame : num (if has_column df c0
                  then set_num c0 (fillna (median (series df c0)) (num r c0)) r
                  else r) c = num r c).
      { destruct (has_column df c0); [|reflexivity].
        simpl. now apply String.eqb_neq in Hne as ->. }
      now rewrite Hsame.
Qed.

Lemma fold_fill_categorical_num cols df j r :
  rows df !! j = Some r ->
  exists r', rows (fold_left fill_categorical cols df) !! j = Some r' /\
             forall c, num r' c = num r c.
Proof.
  revert df r. induction cols as [|c0 cols IH]; intros df r Hj.
  - exists r. auto.
  - cbn [fold_left]. unfold fill_categorical at 2.
    destruct (has_column df c0); [|now apply IH].
    destruct (IH (assign_cat c0
                    (fun r => Some (default "Unknown"%string (cat r c0))) df)
                 (set_cat c0 (Some (default "Unknown"%string (cat r c0))) r))
      as (r' & Hr' & Hnum).
    { unfold assign_cat. simpl. now rewrite list_lookup_fmap, Hj. }
    exists r'. split; [exact Hr'|]. intros c. now rewrite Hnum.
Qed.

Lemma numerical_columns_NoDup : NoDup numerical_columns.
Proof. apply (bool_decide_unpack (NoDup numerical_columns)). vm_compute. exact I. Qed.

(** Every numerical cell of the frame [prepare_features] returns is the cell
    of the frame after date extraction, filled with the median of its own
    column in that frame. *)
Lemma prepare_features_num self df j r1 :
  rows (extract_date_features df) !! j = Some r1 ->
  exists r', rows (prepare_features self df).2 !! j = Some r' /\
    forall c, num r' c = imputed (extract_date_features df) numerical_columns r1 c.
Proof.
  intros Hj. unfold prepare_features. cbn [snd].
  destruct (fold_fill_numerical_num numerical_columns _ j r1
              numerical_columns_NoDup Hj) as (r2 & Hr2 & Hnum2).
  destruct (fold_fill_categorical_num CATEGORICAL _ j r2 Hr2) as (r3 & Hr3 & Hnum3).
  exists r3. split; [exact Hr3|]. intros c. now rewrite Hnum3, Hnum2.
Qed.

Lemma row_policy_classify limit p r : row (policy limit p (classify limit r)) = r.
Proof.
  rewrite policy_classify.
  destruct (effortExpense r) as [v|]; [destruct (Qltb limit v)|]; reflexivity.
Qed.


End Imputation.

(** ** The training pipeline *)

Lemma boolean_index_zip {A B} (m : B -> bool) (xs : list A) (ys : list B) :
  length xs = length ys ->
  zip (CatBoostEffortModel.boolean_index xs (m <$> ys))
      (CatBoostEffortModel.boolean_index ys (m <$> ys))
  = List.filter (fun s => m s.2) (zip xs ys).
Proof.
  unfold CatBoostEffortModel.boolean_index.
  revert ys. induction xs as [|a xs IH]; intros [|b ys] Hlen;
    try discriminate; [reflexivity|].
  injection Hlen as Hlen. cbn. destruct (m b); cbn; rewrite IH by exact Hlen;
    reflexivity.
Qed.

Lemma insert_sorted_not_nil x l : insert_sorted x l <> [].
Proof. destruct l as [|y l]; simpl; [|destruct (Qle_bool x y)]; discriminate. Qed.

Lemma quantile_values_Some q (l : list Q) :
  l <> [] -> is_Some (quantile_values q l).
Proof.
  intros Hne. unfold quantile_values.
  destruct l as [|a l]; [contradiction|].
  simpl sort_values.
  destruct (insert_sorted a (sort_values l)) eqn:E; [|eauto].
  now apply insert_sorted_not_nil in E.
Qed.

Section Training.
Context {backend : Backend}.
Import CatBoostEffortModel.

Lemma length_dropna_target (l : list Row) :
  length (dropna_target l) = length (dropna (effortExpense <$> l)).
Proof.
  unfold dropna_target, dropna.
  induction l as [|r l IH]; [reflexivity|].
  cbn. destruct (effortExpense r); cbn; now rewrite IH.
Qed.

Lemma cap_Qmin limit v : cap limit v = Qmin v limit.
Proof.
  unfold cap, Qmin, GenericMinMax.gmin, Qltb.
  destruct (v ?= limit)%Q eqn:E.
  - apply Qeq_alt in E. rewrite (proj2 (Qle_bool_iff v limit)); [reflexivity|].
    rewrite E. apply Qle_refl.
  - apply Qlt_alt in E. rewrite (proj2 (Qle_bool_iff v limit)); [reflexivity|].
    now apply Qlt_le_weak.
  - apply Qgt_alt in E. destruct (Qle_bool v limit) eqn:Hb; [|reflexivity].
    apply Qle_bool_iff in Hb. exfalso. eapply Qlt_not_le; eassumption.
Qed.

Lemma fit_model_trained (self : t) samples test_size ht fm :
  let fitted := fit_model self samples test_size ht fm in
  is_Some (model fitted.2) /\ is_trained fitted.2 = true /\
  effort_limit fitted.2 = effort_limit self.
Proof.
  unfold fit_model. destruct (train_test_split test_size samples) as [train test].
  simpl. eauto.
Qed.

Lemma prepare_features_kept self df :
  let self1 := (prepare_features self df).1 in
  model self1 = model self /\ scaler self1 = scaler self /\
  is_trained self1 = is_trained self /\
  model_metrics self1 = model_metrics self /\
  catboost_params self1 = catboost_params self.
Proof. repeat split. Qed.


Lemma train_model_unfold (self : t) df test_size ht fm :
  train_model self df test_size ht fm =
  if (length (dropna_target (rows (prepare_features self df).2)) <? 10)%nat
  then (Raise (ValueError not_enough_data), (prepare_features self df).1)
  else
    (Ok (fit_model (prepare_features self df).1
           (training_set (prepare_features self df).1
              (dropna_target (rows (prepare_features self df).2)))
           test_size ht fm).1,
     (fit_model (prepare_features self df).1
           (training_set (prepare_features self df).1
              (dropna_target (rows (prepare_features self df).2)))
           test_size ht fm).2).
Proof.
  unfold train_model. destruct (prepare_features self df) as [self1 dfp].
  cbn [fst snd]. destruct (_ <? 10)%nat; [reflexivity|].
  now destruct (fit_model self1 _ test_size ht fm).
Qed.

(** Lines 108-127 on a non-empty set of training rows. *)
Lemma training_set_reading (self1 : t) (train_data : list (Row * Q)) :
  train_data <> [] ->
  let X := (fun p => select_features self1 p.1) <$> train_data in
  let y_capped := (fun p => Qmin p.2 (effort_limit self1)) <$> train_data in
  exists q1 q3,
    quantile_values (1 # 4) y_capped = Some q1 /\
    quantile_values (3 # 4) y_capped = Some q3 /\
    training_set self1 train_data
    = List.filter (fun s : Sample =>
                     Qle_bool (q1 - (3 # 2) * (q3 - q1)) s.2
                     && Qle_bool s.2 (q3 + (3 # 2) * (q3 - q1)))
                  (zip X y_capped).
Proof.
  intros Hne X y_capped.
  assert (Hy : cap (effort_limit self1) <$> (snd <$> train_data) = y_capped).
  { subst y_capped. rewrite <- list_fmap_compose. apply list_fmap_ext.
    intros _ p _. apply cap_Qmin. }
  assert (Hne' : y_capped <> []).
  { subst y_capped. destruct train_data; [contradiction | discriminate]. }
  destruct (quantile_values_Some (1 # 4) _ Hne') as [q1 Hq1].
  destruct (quantile_values_Some (3 # 4) _ Hne') as [q3 Hq3].
  exists q1, q3. split; [exact Hq1|]. split; [exact Hq3|].
  unfold training_set, outlier_mask, iqr_bounds.
  rewrite Hy, Hq1, Hq3. cbn [mbind option_bind].
  apply (boolean_index_zip
           (fun v : Q => ge v (Some (q1 - (3 # 2) * (q3 - q1))%Q)
                         && le v (Some (q3 + (3 # 2) * (q3 - q1))%Q))).
  subst X y_capped. now rewrite !length_fmap.
Qed.


End Training.

(** ** The model registry *)

Section RegistryProofs.
Import ModelStorage Registry.

Lemma elem_of_insert_desc e l x :
  x ∈ insert_desc e l <-> x = e \/ x ∈ l.
Proof.
  induction l as [|y l IH]; simpl.
  - rewrite elem_of_cons. tauto.
  - destruct (updated_at e <? updated_at y)%Z.
    + rewrite !elem_of_cons, IH. tauto.
    + rewrite !elem_of_cons. tauto.
Qed.

Lemma elem_of_order_by l x : x ∈ order_by_updated_at_desc l <-> x ∈ l.
Proof.
  induction l as [|y l IH]; simpl; [reflexivity|].
  rewrite elem_of_insert_desc, elem_of_cons, IH. tauto.
Qed.

Lemma insert_desc_head_latest e l :
  head_latest l -> head_latest (insert_desc e l).
Proof.
  intros Hl. destruct l as [|y l]; simpl.
  - intros h Hh x Hx. injection Hh as <-.
    apply list_elem_of_singleton in Hx as ->. lia.
  - destruct (updated_at e <? updated_at y)%Z eqn:E.
    + intros h Hh x Hx. injection Hh as <-.
      apply elem_of_cons in Hx as [->|Hx]; [lia|].
      apply elem_of_insert_desc in Hx as [->|Hx].
      * apply Z.ltb_lt in E. lia.
      * apply (Hl y eq_refl). now apply list_elem_of_further.
    + intros h Hh x Hx. injection Hh as <-.
      apply Z.ltb_ge in E.
      apply elem_of_cons in Hx as [->|Hx]; [lia|].
      specialize (Hl y eq_refl x Hx). lia.
Qed.

Lemma order_by_head_latest l : head_latest (order_by_updated_at_desc l).
Proof.
  induction l as [|y l IH]; simpl.
  - intros h Hh. discriminate.
  - now apply insert_desc_head_latest.
Qed.

Lemma insert_desc_not_nil e l : insert_desc e l <> [].
Proof.
  destruct l as [|y l]; simpl; [discriminate|].
  destruct (updated_at e <? updated_at y)%Z; discriminate.
Qed.

(** What [get_active_model] returns: an active row of the table with the
    latest [updated_at] among the active rows, or nothing when no row is
    active. *)
Lemma get_active_model_spec (db : t) :
  match get_active_model db with
  | Some a =>
      a ∈ models db /\ is_active a = true /\
      forall e, e ∈ models db -> is_active e = true ->
                (updated_at e <= updated_at a)%Z
  | None => forall e, e ∈ models db -> is_active e = false
  end.
Proof.
  unfold get_active_model.
  destruct (head _) as [a|] eqn:Hh.
  - assert (Ha : a ∈ order_by_updated_at_desc (List.filter is_active (models db))).
    { destruct (order_by_updated_at_desc _); [discriminate|].
      injection Hh as ->. apply list_elem_of_here. }
    apply elem_of_order_by, elem_of_List_filter in Ha as [Ha1 Ha2].
    repeat split; try assumption.
    intros e He Hact. apply (order_by_head_latest _ a Hh).
    apply elem_of_order_by, elem_of_List_filter. auto.
  - intros e He. apply not_true_is_false. intros Hact.
    assert (Hin : e ∈ order_by_updated_at_desc (List.filter is_active (models db))).
    { apply elem_of_order_by, elem_of_List_filter. auto. }
    destruct (order_by_updated_at_desc _); [inversion Hin | discriminate].
Qed.

Lemma deactivated_none_active name (l : list Entry) :
  List.filter is_active
    (List.filter (fun e => negb (String.eqb (model_name e) name)) (deactivate <$> l))
  = [].
Proof.
  apply filter_none. intros x Hx.
  apply elem_of_List_filter in Hx as [Hx _].
  apply list_elem_of_fmap in Hx as (y & -> & _). reflexivity.
Qed.

(** After one save the only active row is the row just inserted. *)
Lemma save_active_rows (db : t) (c : SaveCall) :
  List.filter is_active (models (save db c))
  = [inserted_by (sqlite_sequence (save db c)) c].
Proof.
  unfold save, save_model. cbn [snd models sqlite_sequence].
  rewrite List.filter_app, deactivated_none_active. reflexivity.
Qed.

Lemma saves_snoc db calls c : saves db (calls ++ [c]) = save (saves db calls) c.
Proof. unfold saves. now rewrite fold_left_app. Qed.

Lemma delete_model_rows {A} (db : t) (model_id : Z) (fs : gmap string A) :
  models (delete_model db model_id fs).1.2
  = List.filter (fun e => negb (id e =? model_id)%Z) (models db).
Proof.
  unfold delete_model.
  destruct (List.find _ (models db)) as [e|] eqn:Hf; [reflexivity|].
  cbn [fst snd]. symmetry.
  induction (models db) as [|x l IH]; [reflexivity|].
  simpl in Hf |- *. destruct (id x =? model_id)%Z; [discriminate|].
  simpl. f_equal. now apply IH.
Qed.

(** C5. After any non-empty sequence of saves, from any state of the
    registry, exactly one entry is active and it is the entry of the last
    save; the empty registry has no active entry.  A delete removes the row
    with the given id and leaves every other row, its active flag included,
    as it was, so no other entry becomes active; some sequence of saves
    followed by a delete reaches a registry that still has an entry and has
    none active. *)
Theorem single_active_model (start : t) (calls : list SaveCall) :
  let db := saves start calls in
  match last calls with
  | Some c =>
      let saved := inserted_by (sqlite_sequence db) c in
      active_models (get_model_stats db) = 1 /\
      get_active_model db = Some saved /\
      (forall e, e ∈ models db -> is_active e = true -> e = saved)
  | None => db = start
  end
  /\ (active_models (get_model_stats (init_database None)) = 0
      /\ get_active_model (init_database None) = None)
  /\ (forall (model_id : Z) (fs : gmap string unit),
        let after := (delete_model db model_id fs).1.2 in
        models after
        = List.filter (fun e => negb (id e =? model_id)%Z) (models db)
        /\ (forall e, e ∈ models after -> e ∈ models db)
        /\ active_models (get_model_stats after)
           <= active_models (get_model_stats db))
  /\ (exists (earlier : list SaveCall) (model_id : Z),
        let after :=
          (delete_model (saves (init_database None) earlier) model_id
                        (∅ : gmap string unit)).1.2 in
        total_models (get_model_stats after) = 1 /\
        active_models (get_model_stats after) = 0 /\
        get_active_model after = None).
Proof.
  intros db. split; [|split; [|split]].
  - subst db. induction calls as [|c calls0 _] using rev_ind; [reflexivity|].
    rewrite last_snoc, saves_snoc. cbv zeta.
    pose proof (save_active_rows (saves start calls0) c) as Hact.
    split; [|split].
    + unfold get_model_stats. cbn [active_models]. now rewrite Hact.
    + unfold get_active_model. now rewrite Hact.
    + intros e He Ha.
      assert (Hin : e ∈ List.filter is_active (models (save (saves start calls0) c)))
        by (apply elem_of_List_filter; auto).
      rewrite Hact in Hin. now apply list_elem_of_singleton in Hin.
  - split; reflexivity.
  - intros model_id fs after. subst after.
    split; [apply delete_model_rows|]. split.
    + intros e. rewrite delete_model_rows, elem_of_List_filter. tauto.
    + unfold get_model_stats. cbn [active_models]. rewrite delete_model_rows.
      generalize (models db). intros l.
      induction l as [|x l IH]; simpl; [lia|].
      destruct (id x =? model_id)%Z; simpl; destruct (is_active x); simpl; lia.
  - exists [Example.first_save; Example.second_save], 2%Z. vm_compute. auto.
Qed.

End RegistryProofs.

(** ** The orchestrator *)

Section Orchestrator.
Context {backend : Backend}.

Lemma predict_rows_raises (m : CatBoostEffortModel.t) df e :
  CatBoostEffortModel.predict_rows m df = Raise e ->
  e = NotFittedError CatBoostEffortModel.scaler_not_fitted \/
  e = AttributeError CatBoostEffortModel.none_has_no_predict.
Proof.
  unfold CatBoostEffortModel.predict_rows.
  destruct (existsb _ df); [|discriminate].
  destruct (CatBoostEffortModel.numerical_features m);
    [|destruct (CatBoostEffortModel.scaler m)];
    destruct (CatBoostEffortModel.model m); intros H; inversion H; auto.
Qed.

Lemma predict_raises (m : CatBoostEffortModel.t) df e :
  (CatBoostEffortModel.predict m df).1 = Raise e ->
  e = NotFittedError CatBoostEffortModel.scaler_not_fitted \/
  e = AttributeError CatBoostEffortModel.none_has_no_predict.
Proof.
  unfold CatBoostEffortModel.predict.
  destruct (CatBoostEffortModel.prepare_features m df) as [m1 dfp].
  destruct (CatBoostEffortModel.predict_rows m1 _) as [mid|e'] eqn:Hp.
  - discriminate.
  - cbn [fst]. intros H. injection H as H. subst e'.
    eapply predict_rows_raises, Hp.
Qed.

(** C9. [load_model] without a file reference, on a registry with no active
    entry, raises the no-active-model error and leaves the orchestrator as
    it was; with an active entry in the registry it takes the active entry
    with the latest update timestamp and, the artifact that entry
    references being on disk, loads that artifact and marks the model
    trained. *)
Theorem load_model_without_reference (self : DataProcessor.t)
  (fs : gmap string CatBoostEffortModel.Artifact) :
  ((forall e, e ∈ ModelStorage.models (DataProcessor.model_storage self) ->
              ModelStorage.is_active e = false) ->
   DataProcessor.load_model self None fs
   = (Raise (ValueError DataProcessor.no_active_model), self))
  /\
  (forall e, e ∈ ModelStorage.models (DataProcessor.model_storage self) ->
             ModelStorage.is_active e = true ->
   exists active,
     ModelStorage.get_active_model (DataProcessor.model_storage self) = Some active /\
     active ∈ ModelStorage.models (DataProcessor.model_storage self) /\
     ModelStorage.is_active active = true /\
     (forall e', e' ∈ ModelStorage.models (DataProcessor.model_storage self) ->
                 ModelStorage.is_active e' = true ->
                 (ModelStorage.updated_at e' <= ModelStorage.updated_at active)%Z) /\
     forall artifact, fs !! ModelStorage.file_path active = Some artifact ->
       DataProcessor.load_model self None fs
       = (Ok tt,
          DataProcessor.mk
            (DataProcessor.effort_limit self)
            (DataProcessor.missing_threshold self)
            (CatBoostEffortModel.mk
               (CatBoostEffortModel.a_effort_limit artifact)
               (Some (CatBoostEffortModel.a_model artifact))
               (CatBoostEffortModel.a_scaler artifact)
               (CatBoostEffortModel.a_feature_columns artifact)
               (CatBoostEffortModel.a_categorical_columns artifact)
               (CatBoostEffortModel.a_is_trained artifact)
               (CatBoostEffortModel.a_model_metrics artifact)
               (CatBoostEffortModel.catboost_params (DataProcessor.ml_model self)))
            true
            (DataProcessor.model_storage self))).
Proof.
  pose proof (get_active_model_spec (DataProcessor.model_storage self)) as Hspec.
  split.
  - intros Hnone. unfold DataProcessor.load_model.
    destruct (ModelStorage.get_active_model _) as [a|]; [|reflexivity].
    destruct Hspec as (Hin & Hact & _). rewrite (Hnone a Hin) in Hact.
    discriminate.
  - intros e He Hact.
    destruct (ModelStorage.get_active_model _) as [a|] eqn:Hget.
    + destruct Hspec as (Hin & Ha & Hmax). exists a.
      repeat split; try assumption.
      intros artifact Hfile. unfold DataProcessor.load_model. rewrite Hget.
      unfold CatBoostEffortModel.load_model. rewrite Hfile. reflexivity.
    + rewrite (Hspec e He) in Hact. discriminate.
Qed.

(** C10. The orchestrator's predict operation, called while
    [is_model_trained] is false, raises the must-be-trained error, returns
    no table and leaves the orchestrator as it was; a successful train or
    load sets the flag, and with the flag set the operation never raises
    that error. *)
Theorem predict_requires_trained_model (self : DataProcessor.t) (df : DataFrame) :
  (DataProcessor.is_model_trained self = false ->
   DataProcessor.predict_effort_expenses self df
   = (Raise (ValueError DataProcessor.must_be_trained), self))
  /\
  (DataProcessor.is_model_trained self = true ->
   (DataProcessor.predict_effort_expenses self df).1
   <> Raise (ValueError DataProcessor.must_be_trained))
  /\
  (forall train_df hyperparameter_tuning fast_mode metrics self',
     DataProcessor.train_model self train_df hyperparameter_tuning fast_mode
     = (Ok metrics, self') ->
     DataProcessor.is_model_trained self' = true)
  /\
  (forall filepath fs self',
     DataProcessor.load_model self filepath fs = (Ok tt, self') ->
     DataProcessor.is_model_trained self' = true).
Proof.
  split; [|split; [|split]].
  - intros Hf. unfold DataProcessor.predict_effort_expenses. now rewrite Hf.
  - intros Ht. unfold DataProcessor.predict_effort_expenses. rewrite Ht.
    cbn [negb].
    pose proof (predict_raises (DataProcessor.ml_model self) df) as Hr.
    destruct (CatBoostEffortModel.predict (DataProcessor.ml_model self) df)
      as [[out|e] ml]; cbn [fst] in *; [discriminate|].
    intros Heq. injection Heq as Heq. subst e.
    destruct (Hr _ eq_refl); discriminate.
  - intros train_df ht fm metrics self'. unfold DataProcessor.train_model.
    destruct (CatBoostEffortModel.train_model _ _ _ _ _) as [[m|e] ml];
      intros H; inversion H. reflexivity.
  - intros filepath fs self'. unfold DataProcessor.load_model.
    destruct filepath as [p|];
      [|destruct (ModelStorage.get_active_model _); [|discriminate]];
      (destruct (CatBoostEffortModel.load_model _ _ _) as [[u|err] ml];
       intros H; inversion H; reflexivity).
Qed.

End Orchestrator.

(** ** The scenario of the specification, run *)

Section Scenario.
Import CatBoostEffortModel Example.
Local Open Scope Q_scope.

Example scenario_finals :
  effortExpense_final <$> scenario_out
  = [Some 8; Some 30; Some 12; Some 30; Some 30; Some 0; Some 7;
     Some (1 # 2); Some 0; Some 21; Some 16; Some 3]%Q.
Proof. vm_compute. reflexivity. Qed.

Example scenario_predicted :
  effortExpense_predicted <$> scenario_out
  = [Some 8; Some 30; Some 12; Some 10; Some 30; Some 0; Some 7;
     Some (1 # 2); Some 0; Some 21; Some 16; Some 3]%Q.
Proof. vm_compute. reflexivity. Qed.

Lemma predict_final_within_limit_witness :
  predict loaded_model scenario = (Ok scenario_out, scenario_result.2) /\
  (Forall (fun pr => within_limit (effort_limit scenario_result.2)
                       (effortExpense_final pr)) scenario_out
   /\ length scenario_out = length (rows scenario)
   /\ effort_limit scenario_result.2 = effort_limit loaded_model).
Proof.
  split; [vm_compute; reflexivity|].
  apply (predict_final_within_limit loaded_model scenario).
  vm_compute; reflexivity.
Defined.

Lemma predict_over_limit_truncated_witness :
  exists regressor pr,
    model loaded_model = Some regressor /\
    scenario_out !! 3%nat = Some pr /\
    effortExpense (row pr) = Some 45 /\
    is_over_limit pr = true /\
    effortExpense_final pr = Some 30 /\
    effortExpense_predicted pr
      = Some (np_clip (catboost_predict regressor
                         (scaled_features scenario_result.2 (row pr))) 0 30) /\
    within_limit 30 (effortExpense_predicted pr).
Proof.
  apply (predict_over_limit_truncated loaded_model scenario scenario_out
           scenario_result.2 3 (observation (Some 45) (Some 10))).
  - vm_compute; reflexivity.
  - reflexivity.
  - vm_compute; reflexivity.
Defined.

Lemma predict_passthrough_witness :
  exists pr,
    scenario_out !! 4%nat = Some pr /\
    needs_prediction pr = false /\
    effortExpense_final pr = Some 30 /\
    effortExpense_predicted pr = Some 30.
Proof.
  apply (predict_passthrough loaded_model scenario scenario_out
           scenario_result.2 4 (observation (Some 30) (Some 15))).
  - vm_compute; reflexivity.
  - reflexivity.
  - reflexivity.
  - vm_compute; reflexivity.
Defined.

Lemma validation_sweep_unreachable_witness :
  high_predictions 30 scenario_pass1 = [] /\
  validate_predictions 30 scenario_pass1 = scenario_pass1 /\
  Forall (fun pr => needs_prediction pr = true ->
                    within_limit 30 (effortExpense_predicted pr)) scenario_pass1.
Proof.
  apply (validation_sweep_unreachable loaded_model scenario scenario_pass1).
  vm_compute; reflexivity.
Defined.

Example scenario_imputed_cost :
  from_option (fun pr => cell_eq (num (row pr) "effortTimeCosts") (Some 6))
              False (scenario_out !! 6%nat).
Proof. vm_compute. reflexivity. Qed.



(** The boundary of C6 on the toy back-end: ten rows train, nine raise. *)
Example ten_rows_train :
  (train_model (backend := toy_backend) (init 30) ten_rows (1 # 5) false true).1
  = Ok (tt, 8%nat, 2%nat).
Proof. vm_compute. reflexivity. Qed.

Example nine_rows_raise :
  (train_model (backend := toy_backend) (init 30) nine_rows (1 # 5) false true).1
  = Raise (ValueError not_enough_data).
Proof. vm_compute. reflexivity. Qed.


(** Train, save, restart, load the active model: the restarted
    orchestrator corrects the scenario as the one that trained does. *)
Example save_then_load_active :
  after_save.1.1 = Ok "effort_expense_model_catboost_20240101_120000.pkl"%string /\
  (DataProcessor.load_model restarted_processor None after_save.2).1 = Ok tt /\
  (fun res => match res with
              | Ok out =>
                  Some ((fun c => effortExpense_final (DataProcessor.predicted_row c))
                          <$> out)
              | Raise _ => None
              end)
    (DataProcessor.predict_effort_expenses
       (DataProcessor.load_model restarted_processor None after_save.2).2
       scenario).1
  = Some (effortExpense_final <$> retrained_out).
Proof. vm_compute. auto. Qed.

Lemma single_active_model_witness :
  ModelStorage.active_models (ModelStorage.get_model_stats two_saves) = 1%nat /\
  ModelStorage.get_active_model two_saves
  = Some (Registry.inserted_by 2 second_save).
Proof.
  pose proof (single_active_model (ModelStorage.init_database None)
                [first_save; second_save]) as (H & _).
  cbv zeta in H. change (last [first_save; second_save]) with (Some second_save) in H.
  destruct H as (H1 & H2 & _). split; [exact H1 | exact H2].
Defined.

Lemma load_model_without_reference_witness :
  DataProcessor.load_model orphaned_processor None disk
  = (Raise (ValueError DataProcessor.no_active_model), orphaned_processor)
  /\
  exists active,
    ModelStorage.get_active_model (DataProcessor.model_storage fresh_processor)
    = Some active /\
    ModelStorage.file_path active = "b.pkl"%string /\
    (DataProcessor.load_model fresh_processor None disk).1 = Ok tt /\
    DataProcessor.is_model_trained
      (DataProcessor.load_model fresh_processor None disk).2 = true.
Proof.
  split.
  - apply (proj1 (load_model_without_reference orphaned_processor disk)).
    apply Forall_forall. vm_compute. repeat constructor.
  - destruct (proj2 (load_model_without_reference fresh_processor disk)
                (Registry.inserted_by 2 second_save))
      as (active & Hget & _ & _ & _ & Hload).
    + vm_compute. apply list_elem_of_further, list_elem_of_here.
    + reflexivity.
    + exists active. split; [exact Hget|].
      vm_compute in Hget. injection Hget as <-.
      specialize (Hload artifact_b eq_refl).
      split; [reflexivity|]. now rewrite Hload.
Defined.

Lemma predict_requires_trained_model_witness :
  DataProcessor.predict_effort_expenses fresh_processor scenario
  = (Raise (ValueError DataProcessor.must_be_trained), fresh_processor)
  /\
  (let loaded := (DataProcessor.load_model fresh_processor None disk).2 in
   DataProcessor.is_model_trained loaded = true /\
   (DataProcessor.predict_effort_expenses loaded scenario).1
   <> Raise (ValueError DataProcessor.must_be_trained))
  /\
  (let trained :=
     (DataProcessor.train_model fresh_processor training_table false true).2 in
   DataProcessor.is_model_trained trained = true /\
   (DataProcessor.predict_effort_expenses trained scenario).1
   <> Raise (ValueError DataProcessor.must_be_trained)).
Proof.
  split; [|split].
  - apply (proj1 (predict_requires_trained_model fresh_processor scenario)).
    reflexivity.
  - cbv zeta.
    assert (Hl : DataProcessor.is_model_trained
                   (DataProcessor.load_model fresh_processor None disk).2 = true).
    { apply (proj2 (proj2 (proj2
               (predict_requires_trained_model fresh_processor scenario)))
               None disk).
      vm_compute; reflexivity. }
    split; [exact Hl|].
    apply (proj1 (proj2 (predict_requires_trained_model _ scenario)) Hl).
  - cbv zeta.
    assert (Ht : DataProcessor.is_model_trained
                   (DataProcessor.train_model fresh_processor training_table
                      false true).2 = true).
    { apply (proj1 (proj2 (proj2
               (predict_requires_trained_model fresh_processor scenario)))
               training_table false true training_metrics).
      vm_compute; reflexivity. }
    split; [exact Ht|].
    apply (proj1 (proj2 (predict_requires_trained_model _ scenario)) Ht).
Defined.

End Scenario.

(** * Further properties of the code *)

(** ** The registry: listing, deleting, identifiers *)

Section RegistryMore.
Import ModelStorage Registry History.

Lemma insert_desc_Permutation e l : insert_desc e l ≡ₚ e :: l.
Proof.
  induction l as [|y l IH]; simpl; [reflexivity|].
  destruct (updated_at e <? updated_at y)%Z; [|reflexivity].
  rewrite IH. apply Permutation_swap.
Qed.

Lemma order_by_Permutation l : order_by_updated_at_desc l ≡ₚ l.
Proof.
  induction l as [|x l IH]; simpl; [reflexivity|].
  now rewrite insert_desc_Permutation, IH.
Qed.

Lemma insert_desc_sorted e l :
  StronglySorted latest_first l -> StronglySorted latest_first (insert_desc e l).
Proof.
  induction 1 as [|y l Hs IH Hall]; simpl.
  - repeat constructor.
  - destruct (updated_at e <? updated_at y)%Z eqn:E.
    + apply Z.ltb_lt in E. constructor; [exact IH|].
      rewrite insert_desc_Permutation. constructor; [|exact Hall].
      unfold latest_first. lia.
    + apply Z.ltb_ge in E. constructor; [now constructor|].
      constructor; [exact E|].
      eapply Forall_impl; [exact Hall|]. unfold latest_first. intros z Hz. lia.
Qed.

(** X1. [get_all_models] lists every row of the table exactly once, most
    recently updated first. *)
Theorem get_all_models_sorted (db : t) :
  get_all_models db ≡ₚ models db /\
  StronglySorted latest_first (get_all_models db).
Proof.
  unfold get_all_models. split; [apply order_by_Permutation|].
  induction (models db) as [|x l IH]; simpl; [constructor|].
  now apply insert_desc_sorted.
Qed.

Lemma find_none_iff (model_id : Z) (l : list Entry) :
  List.find (fun e => (id e =? model_id)%Z) l = None <->
  forall e, e ∈ l -> id e <> model_id.
Proof.
  induction l as [|x l IH]; simpl.
  - split; [intros _ e He; inversion He | reflexivity].
  - destruct (id x =? model_id)%Z eqn:E.
    + apply Z.eqb_eq in E. split; [discriminate|].
      intros H. exfalso. apply (H x); [apply list_elem_of_here | exact E].
    + apply Z.eqb_neq in E. rewrite IH. split.
      * intros H e He. apply elem_of_cons in He as [->|He]; auto.
      * intros H e He. apply H. now apply list_elem_of_further.
Qed.

Lemma find_some_elem (model_id : Z) (l : list Entry) e :
  List.find (fun e => (id e =? model_id)%Z) l = Some e ->
  e ∈ l /\ id e = model_id.
Proof.
  intros H. apply find_some in H as [Hin Heq].
  split; [now apply list_elem_of_In | now apply Z.eqb_eq].
Qed.

(** X2. [delete_model] returns False, and changes neither the table nor the
    disk, exactly when no row has the id.  Otherwise it returns True, no row
    with the id is left, the artifact file of the deleted row is gone and
    every other file is as before; in both cases a second delete of the same
    id returns False. *)
Theorem delete_model_outcome {A} (db : t) (model_id : Z) (fs : gmap string A) :
  let outcome := delete_model db model_id fs in
  ((forall e, e ∈ models db -> id e <> model_id) /\
     outcome = (false, db, fs)
   \/
   exists e, e ∈ models db /\ id e = model_id /\
     outcome.1.1 = true /\
     outcome.2 !! file_path e = None /\
     (forall path, path <> file_path e -> outcome.2 !! path = fs !! path))
  /\ (forall e, e ∈ models outcome.1.2 -> id e <> model_id)
  /\ sqlite_sequence outcome.1.2 = sqlite_sequence db
  /\ (delete_model outcome.1.2 model_id outcome.2).1.1 = false.
Proof.
  intros outcome.
  assert (Hgone : forall e, e ∈ models outcome.1.2 -> id e <> model_id).
  { intros e He. subst outcome. rewrite delete_model_rows in He.
    apply elem_of_List_filter in He as [_ He].
    apply negb_true_iff, Z.eqb_neq in He. exact He. }
  split; [|split; [exact Hgone|split]].
  - subst outcome. unfold delete_model.
    destruct (List.find _ (models db)) as [e|] eqn:Hf.
    + right. apply find_some_elem in Hf as [Hin Hid]. exists e.
      cbn [fst snd]. repeat split; try assumption.
      * apply lookup_delete_eq.
      * intros path Hne. apply lookup_delete_ne. congruence.
    + left. split; [now apply find_none_iff | reflexivity].
  - subst outcome. unfold delete_model.
    now destruct (List.find _ (models db)).
  - apply find_none_iff in Hgone. unfold delete_model at 1. now rewrite Hgone.
Qed.

Lemma max_rowid_ge (l : list Entry) e : e ∈ l -> (id e <= max_rowid l)%Z.
Proof.
  induction l as [|x l IH]; intros He; [inversion He|].
  simpl. apply elem_of_cons in He as [->|He]; [lia|].
  specialize (IH He). lia.
Qed.

Lemma kept_elem name (l : list Entry) e :
  e ∈ List.filter (fun e => negb (String.eqb (model_name e) name)) (deactivate <$> l) ->
  exists e0, e0 ∈ l /\ e = deactivate e0 /\ model_name e0 <> name.
Proof.
  intros He. apply elem_of_List_filter in He as [He Hn].
  apply list_elem_of_fmap in He as (e0 & -> & He0).
  exists e0. repeat split; [exact He0|].
  apply negb_true_iff, String.eqb_neq in Hn. exact Hn.
Qed.

Lemma NoDup_fmap_filter {B} `{EqDecision B} (f : Entry -> B) (g : Entry -> bool)
  (l : list Entry) :
  NoDup (f <$> l) -> NoDup (f <$> List.filter g l).
Proof.
  intros H. rewrite List_filter_stdpp.
  eapply sublist_NoDup; [exact H|]. apply fmap_sublist, sublist_filter.
Qed.

(** The invariant every history of the registry keeps. *)
Lemma step_invariant (db : t) (op : Op) :
  NoDup (id <$> models db) ->
  NoDup (model_name <$> models db) ->
  (forall e, e ∈ models db -> (0 < id e <= sqlite_sequence db)%Z) ->
  (0 <= sqlite_sequence db)%Z ->
  length (List.filter is_active (models db)) <= 1 ->
  let db' := step db op in
  NoDup (id <$> models db') /\
  NoDup (model_name <$> models db') /\
  (forall e, e ∈ models db' -> (0 < id e <= sqlite_sequence db')%Z) /\
  (sqlite_sequence db <= sqlite_sequence db')%Z /\
  length (List.filter is_active (models db')) <= 1.
Proof.
  intros Hid Hname Hbound Hseq Hact db'. subst db'.
  destruct op as [c|model_id]; cbn [step].
  - pose proof (save_active_rows db c) as Hrows.
    unfold save, save_model in *. cbn [snd models sqlite_sequence] in *.
    set (fresh := (Z.max (sqlite_sequence db) (max_rowid (deactivate <$> models db)) + 1)%Z) in *.
    assert (Hfresh : forall e, e ∈ deactivate <$> models db -> (id e < fresh)%Z).
    { intros e He. apply max_rowid_ge in He. subst fresh. lia. }
    assert (Hids : id <$> (deactivate <$> models db) = id <$> models db).
    { rewrite <- list_fmap_compose. now apply list_fmap_ext. }
    assert (Hnames : model_name <$> (deactivate <$> models db) = model_name <$> models db).
    { rewrite <- list_fmap_compose. now apply list_fmap_ext. }
    split; [|split; [|split; [|split]]].
    + rewrite fmap_app. apply NoDup_app. split; [|split].
      * apply NoDup_fmap_filter. now rewrite Hids.
      * intros x Hx Hx'. apply list_elem_of_singleton in Hx'. simpl in Hx'.
        apply list_elem_of_fmap in Hx as (e & -> & He).
        apply elem_of_List_filter in He as [He _].
        apply Hfresh in He. lia.
      * apply NoDup_singleton.
    + rewrite fmap_app. apply NoDup_app. split; [|split].
      * apply NoDup_fmap_filter. now rewrite Hnames.
      * intros x Hx Hx'. apply list_elem_of_singleton in Hx'. simpl in Hx'.
        apply list_elem_of_fmap in Hx as (e & -> & He).
        apply kept_elem in He as (e0 & _ & -> & Hne). now apply Hne.
      * apply NoDup_singleton.
    + intros e He. apply elem_of_app in He as [He|He].
      * apply elem_of_List_filter in He as [He _].
        pose proof (Hfresh e He).
        apply list_elem_of_fmap in He as (e0 & -> & He0).
        specialize (Hbound e0 He0). simpl. lia.
      * apply list_elem_of_singleton in He as ->. simpl. subst fresh. lia.
    + subst fresh. lia.
    + now rewrite Hrows.
  - rewrite delete_model_rows.
    assert (Hs : sqlite_sequence (delete_model db model_id (∅ : gmap string unit)).1.2
                 = sqlite_sequence db).
    { unfold delete_model. now destruct (List.find _ (models db)). }
    rewrite Hs. split; [|split; [|split; [|split]]].
    + now apply NoDup_fmap_filter.
    + now apply NoDup_fmap_filter.
    + intros e He. apply elem_of_List_filter in He as [He _]. now apply Hbound.
    + lia.
    + etransitivity; [|exact Hact]. clear.
      induction (models db) as [|x l IH]; simpl; [lia|].
      destruct (id x =? model_id)%Z; simpl; destruct (is_active x); simpl; lia.
Qed.

Lemma run_snoc db ops op : run db (ops ++ [op]) = step (run db ops) op.
Proof. unfold run. now rewrite fold_left_app. Qed.

Lemma run_invariant (ops : list Op) :
  let db := run (init_database None) ops in
  NoDup (id <$> models db) /\
  NoDup (model_name <$> models db) /\
  (forall e, e ∈ models db -> (0 < id e <= sqlite_sequence db)%Z) /\
  (0 <= sqlite_sequence db)%Z /\
  active_models (get_model_stats db) <= 1.
Proof.
  induction ops as [|op ops IH] using rev_ind.
  - cbn. split; [constructor|]. split; [constructor|].
    split; [intros e He; inversion He|]. split; lia.
  - rewrite run_snoc. cbv zeta in *.
    destruct IH as (H1 & H2 & H3 & H4 & H5).
    destruct (step_invariant _ op H1 H2 H3 H4 H5) as (G1 & G2 & G3 & G4 & G5).
    split; [exact G1|]. split; [exact G2|]. split; [exact G3|].
    split; [lia | exact G5].
Qed.

(** X3. In every history of saves and deletes from the empty registry the
    row ids are pairwise different, the model names are pairwise different,
    every id lies between 1 and the AUTOINCREMENT counter, and at most one
    row is active. *)
Theorem registry_invariant (ops : list Op) :
  let db := run (init_database None) ops in
  NoDup (id <$> models db) /\
  NoDup (model_name <$> models db) /\
  (forall e, e ∈ models db -> (0 < id e <= sqlite_sequence db)%Z) /\
  (0 <= sqlite_sequence db)%Z /\
  active_models (get_model_stats db) <= 1.
Proof. exact (run_invariant ops). Qed.

Lemma run_sequence_mono db ops :
  (sqlite_sequence db <= sqlite_sequence (run db ops))%Z.
Proof.
  induction ops as [|op ops IH] using rev_ind; [cbn; lia|].
  rewrite run_snoc. etransitivity; [exact IH|].
  destruct op as [c|model_id]; cbn [step].
  - unfold save, save_model. cbn [snd sqlite_sequence]. lia.
  - unfold delete_model. destruct (List.find _ _); cbn; lia.
Qed.

(** X4. Row ids are never reused: the id a save returns is larger than the
    id of every row that existed at any earlier point of the history, rows
    deleted since then included. *)
Theorem save_model_fresh_id (earlier later : list Op) (c : SaveCall) (e : Entry) :
  e ∈ models (run (init_database None) earlier) ->
  (id e < (save_model (run (init_database None) (earlier ++ later))
             (s_now c) (s_name c) (s_type c) (s_path c) (s_metrics c)
             (s_features c) (s_samples c) (s_limit c)).1)%Z.
Proof.
  intros He.
  destruct (run_invariant earlier) as (_ & _ & Hb & _).
  specialize (Hb e He).
  pose proof (run_sequence_mono (run (init_database None) earlier) later) as Hm.
  assert (Hrun : run (init_database None) (earlier ++ later)
                 = run (run (init_database None) earlier) later)
    by (unfold run; apply fold_left_app).
  rewrite Hrun. unfold save_model. cbn [fst]. lia.
Qed.

(** X5. The statistics agree with the queries: the total is the length of
    the listing, the active count is 0 exactly when [get_active_model] finds
    nothing, and the latest update reported is that of the first row of the
    listing, which no row exceeds. *)
Theorem get_model_stats_consistent (db : t) :
  let stats := get_model_stats db in
  total_models stats = length (get_all_models db) /\
  active_models stats <= total_models stats /\
  (active_models stats = 0 <-> get_active_model db = None) /\
  latest_update stats = updated_at <$> head (get_all_models db) /\
  latest_model_type stats = model_type <$> head (get_all_models db) /\
  (forall e, e ∈ models db ->
     exists latest, latest_update stats = Some latest /\ (updated_at e <= latest)%Z).
Proof.
  cbv zeta. unfold get_model_stats, get_all_models.
  cbn [total_models active_models latest_update latest_model_type].
  split; [now rewrite (order_by_Permutation (models db))|].
  split; [apply filter_length_le|].
  split; [|split; [reflexivity|split; [reflexivity|]]].
  - unfold get_active_model. split.
    + intros H. apply nil_length_inv in H. now rewrite H.
    + intros H. destruct (List.filter is_active (models db)) as [|x l]; [reflexivity|].
      simpl in H. destruct (insert_desc x _) eqn:E; [|discriminate].
      now apply insert_desc_not_nil in E.
  - intros e He.
    destruct (head (order_by_updated_at_desc (models db))) as [h|] eqn:Hh.
    + exists (updated_at h). split; [reflexivity|].
      apply (order_by_head_latest _ h Hh). now apply elem_of_order_by.
    + apply elem_of_order_by in He.
      destruct (order_by_updated_at_desc (models db)); [inversion He|discriminate].
Qed.

Lemma length_kept name (l : list Entry) :
  length (List.filter (fun e => negb (String.eqb (model_name e) name))
                      (deactivate <$> l))
  = length (List.filter (fun e => negb (String.eqb (model_name e) name)) l).
Proof.
  induction l as [|x l IH]; [reflexivity|].
  rewrite fmap_cons. cbn [List.filter deactivate model_name].
  destruct (negb (String.eqb (model_name x) name)); cbn [length]; now rewrite IH.
Qed.

(** X6. Saving under a name that is already in the table replaces that row:
    afterwards exactly the new row carries the name, the rows under other
    names are all still there, deactivated and otherwise unchanged, and
    nothing else is in the table. *)
Theorem save_model_replaces_name (db : t) (c : SaveCall) :
  let saved := inserted_by (sqlite_sequence (save db c)) c in
  (forall e, e ∈ models (save db c) <->
     e = saved \/
     exists e0, e0 ∈ models db /\ model_name e0 <> s_name c /\ e = deactivate e0)
  /\ (forall e, e ∈ models (save db c) -> model_name e = s_name c -> e = saved)
  /\ length (models (save db c))
     = S (length (List.filter (fun e => negb (String.eqb (model_name e) (s_name c)))
                              (models db))).
Proof.
  cbv zeta. unfold save, save_model. cbn [snd models sqlite_sequence].
  set (saved := inserted_by _ c).
  assert (Hmem : forall e,
    e ∈ List.filter (fun e => negb (String.eqb (model_name e) (s_name c)))
                    (deactivate <$> models db) ++ [saved] <->
    e = saved \/
    exists e0, e0 ∈ models db /\ model_name e0 <> s_name c /\ e = deactivate e0).
  { intros e. rewrite elem_of_app, list_elem_of_singleton. split.
    - intros [He|He]; [right|left; exact He].
      apply kept_elem in He as (e0 & ? & ? & ?). eauto.
    - intros [He|(e0 & He0 & Hne & ->)]; [right; exact He|left].
      apply elem_of_List_filter. split.
      + now apply list_elem_of_fmap_2.
      + apply negb_true_iff, String.eqb_neq. exact Hne. }
  split; [exact Hmem|split].
  - intros e He Hn. apply Hmem in He as [He|(e0 & _ & Hne & ->)]; [exact He|].
    now destruct Hne.
  - rewrite length_app. simpl. rewrite Nat.add_1_r. f_equal.
    apply length_kept.
Qed.

End RegistryMore.

(** ** The predictor: what its result depends on, and its edges *)

Section PredictorMore.
Context {backend : Backend}.
Import CatBoostEffortModel.

Lemma predict_unfold (self : t) df :
  predict self df =
  match predict_rows (prepare_features self df).1
          (classify (effort_limit self) <$> rows (prepare_features self df).2) with
  | Raise e => (Raise e, (prepare_features self df).1)
  | Ok mid =>
      (Ok (final_validation (effort_limit self)
             (validate_predictions (effort_limit self) mid)),
       (prepare_features self df).1)
  end.
Proof.
  unfold predict.
  pose proof (prepare_features_effort_limit self df) as Hlim.
  destruct (prepare_features self df) as [self1 dfp]. cbn [fst snd] in *.
  now rewrite Hlim.
Qed.

Lemma prepare_features_frame (self : t) df :
  (prepare_features self df).2
  = fold_left fill_categorical CATEGORICAL
      (fold_left fill_numerical numerical_columns (extract_date_features df)).
Proof. unfold prepare_features. cbn [snd]. reflexivity. Qed.

Lemma prepare_features_self (self : t) df :
  (prepare_features self df).1
  = mk (effort_limit self) (model self) (scaler self)
       (List.filter (has_column (extract_date_features df))
                    (numerical_columns ++ CATEGORICAL))
       CATEGORICAL (is_trained self) (model_metrics self) (catboost_params self).
Proof. unfold prepare_features. cbn [fst]. reflexivity. Qed.

Lemma predict_rows_fields limit m sc fc cc t1 mm1 p1 t2 mm2 p2 df :
  predict_rows (mk limit m sc fc cc t1 mm1 p1) df
  = predict_rows (mk limit m sc fc cc t2 mm2 p2) df.
Proof. reflexivity. Qed.

Lemma predict_same_result (self1 self2 : t) (df : DataFrame) :
  effort_limit self1 = effort_limit self2 ->
  model self1 = model self2 ->
  scaler self1 = scaler self2 ->
  (predict self1 df).1 = (predict self2 df).1.
Proof.
  intros Hl Hm Hs. rewrite !predict_unfold, !prepare_features_frame.
  rewrite !prepare_features_self, Hl, Hm, Hs.
  set (df' := fold_left fill_categorical CATEGORICAL _).
  set (fc := List.filter _ _).
  rewrite (predict_rows_fields _ _ _ fc CATEGORICAL (is_trained self1)
             (model_metrics self1) (catboost_params self1) (is_trained self2)
             (model_metrics self2) (catboost_params self2)).
  now destruct (predict_rows _ _).
Qed.

(** X7. The table [predict] returns depends on the model object only
    through its ceiling, its regressor and its scaler: the stored feature
    columns, categorical columns, trained flag, metrics and parameters play
    no part. [predict] itself, whether it returns or raises, overwrites the
    feature columns with those present in the table in hand, and leaves the
    ceiling, the regressor, the scaler, the flag, the metrics and the
    parameters as they were. *)
Theorem predict_depends_on (self1 self2 : t) (df : DataFrame) :
  (effort_limit self1 = effort_limit self2 ->
   model self1 = model self2 ->
   scaler self1 = scaler self2 ->
   (predict self1 df).1 = (predict self2 df).1) /\
  (predict self1 df).2
  = mk (effort_limit self1) (model self1) (scaler self1)
       (List.filter (has_column (extract_date_features df))
                    (numerical_columns ++ CATEGORICAL))
       CATEGORICAL (is_trained self1) (model_metrics self1)
       (catboost_params self1).
Proof.
  split; [apply predict_same_result|].
  rewrite predict_unfold, <- prepare_features_self.
  now destruct (predict_rows _ _).
Qed.

Lemma needs_correction_within limit (r : Row) :
  needs_correction limit r = false <-> within_limit limit (effortExpense r).
Proof.
  unfold needs_correction, within_limit.
  destruct (effortExpense r) as [v|]; simpl.
  - apply Qltb_ge.
  - split; [discriminate | contradiction].
Qed.

Lemma needs_prediction_classify limit r :
  needs_prediction (classify limit r) = needs_correction limit r.
Proof. reflexivity. Qed.

Lemma prepare_features_needs self df limit :
  existsb (needs_correction limit) (rows (prepare_features self df).2)
  = existsb (needs_correction limit) (rows df).
Proof.
  pose proof (prepare_features_target self df) as Ht.
  assert (Hgen : forall l1 l2 : list Row,
            effortExpense <$> l1 = effortExpense <$> l2 ->
            existsb (needs_correction limit) l1 = existsb (needs_correction limit) l2).
  { induction l1 as [|a l1 IH]; intros [|b l2] Heq; try discriminate; [reflexivity|].
    rewrite !fmap_cons in Heq. injection Heq as Hab Heq.
    simpl. unfold needs_correction at 1 3. rewrite Hab. f_equal. now apply IH. }
  now apply Hgen.
Qed.

Lemma existsb_needs_classify limit (l : list Row) :
  existsb needs_prediction (classify limit <$> l)
  = existsb (needs_correction limit) l.
Proof.
  induction l as [|a l IH]; [reflexivity|].
  rewrite fmap_cons. cbn [existsb]. now rewrite IH, needs_prediction_classify.
Qed.

(** A table in which no row needs correction goes through [predict] on any
    model object, fitted or not. *)
Lemma predict_nothing_to_correct (self : t) df :
  existsb (needs_correction (effort_limit self)) (rows df) = false ->
  exists out,
    (predict self df).1 = Ok out /\
    effortExpense_final <$> out = effortExpense <$> rows df /\
    effortExpense_predicted <$> out = effortExpense <$> rows df /\
    Forall (fun pr => needs_prediction pr = false) out.
Proof.
  intros Hno.
  assert (Hrows : predict_rows (prepare_features self df).1
            (classify (effort_limit self) <$> rows (prepare_features self df).2)
          = Ok (classify (effort_limit self) <$> rows (prepare_features self df).2)).
  { unfold predict_rows.
    now rewrite existsb_needs_classify, prepare_features_needs, Hno. }
  pose proof (predict_unfold self df) as Hu. rewrite Hrows in Hu.
  pose proof (predict_reading self df _ _ Hu) as (_ & f & _ & Hout).
  eexists. split; [now rewrite Hu|]. rewrite Hout.
  rewrite <- (prepare_features_needs self df) in Hno.
  assert (Hall : forall r, r ∈ rows (prepare_features self df).2 ->
            policy (effort_limit self) (f (classify (effort_limit self) r))
                   (classify (effort_limit self) r)
            = classify (effort_limit self) r).
  { intros r Hr. apply policy_not_needed; [reflexivity|].
    rewrite needs_prediction_classify.
    eapply existsb_false_elem; eassumption. }
  rewrite <- (prepare_features_target self df).
  split; [|split].
  - rewrite <- list_fmap_compose. apply list_fmap_ext.
    intros i r Hi. simpl. rewrite Hall; [reflexivity|].
    eapply list_elem_of_lookup_2, Hi.
  - rewrite <- list_fmap_compose. apply list_fmap_ext.
    intros i r Hi. simpl. rewrite Hall; [reflexivity|].
    eapply list_elem_of_lookup_2, Hi.
  - apply Forall_fmap, Forall_forall. intros r Hr. simpl.
    rewrite Hall by exact Hr. rewrite needs_prediction_classify.
    eapply existsb_false_elem; eassumption.
Qed.


(** X9. With a ceiling that is not negative, every row that needed a
    prediction holds a predicted value between 0 and the ceiling, and a row
    whose target was null holds that same value as its final value. *)
Theorem predict_clamped_from_below (self : t) (df : DataFrame)
  (out : list PredRow) (self' : t) :
  (0 <= effort_limit self)%Q ->
  predict self df = (Ok out, self') ->
  Forall (fun pr =>
            needs_prediction pr = true ->
            exists v, effortExpense_predicted pr = Some v /\
                      (0 <= v)%Q /\ (v <= effort_limit self)%Q /\
                      (is_missing_effort pr = true ->
                       effortExpense_final pr = Some v)) out.
Proof.
  intros Hpos Hp.
  pose proof (predict_reading _ _ _ _ Hp) as (Hself & f & Hf & Hout).
  rewrite Hout. apply Forall_fmap, Forall_forall. intros r Hr. simpl.
  intros Hn.
  assert (Hneeds : needs_prediction (classify (effort_limit self) r) = true).
  { rewrite policy_classify in Hn.
    destruct (effortExpense r) as [v|] eqn:E; unfold classify; rewrite E; simpl.
    - destruct (Qltb (effort_limit self) v); [reflexivity | discriminate].
    - reflexivity. }
  destruct (Hf r Hr Hneeds) as (regressor & Hm & Hfr).
  assert (Hlim : effort_limit self' = effort_limit self) by now subst self'.
  assert (Hle : (f (classify (effort_limit self) r) <= effort_limit self)%Q).
  { rewrite Hfr. unfold clamped_prediction. rewrite Hlim. apply np_clip_le. }
  assert (Hge : (0 <= f (classify (effort_limit self) r))%Q).
  { rewrite Hfr. unfold clamped_prediction. rewrite Hlim. now apply np_clip_ge. }
  exists (f (classify (effort_limit self) r)).
  clear Hp Hout Hf Hself Hr Hneeds Hfr.
  rewrite policy_classify in *.
  destruct (effortExpense r) as [v|]; [destruct (Qltb (effort_limit self) v)|];
    cbn [effortExpense_predicted effortExpense_final is_missing_effort
         needs_prediction] in *;
    try discriminate; rewrite (py_min_id _ _ Hle);
    (split; [reflexivity|]); (split; [exact Hge|]); (split; [exact Hle|]);
    intros Hmiss; try discriminate; reflexivity.
Qed.

Lemma predict_out_within (self : t) df out self' :
  predict self df = (Ok out, self') ->
  Forall (fun pr => within_limit (effort_limit self) (effortExpense_final pr)) out /\
  length out = length (rows df).
Proof.
  intros Hp. pose proof (predict_reading _ _ _ _ Hp) as (_ & f & _ & Hout).
  rewrite Hout. split.
  - apply Forall_fmap, Forall_forall. intros r _. apply policy_classify_bounded.
  - rewrite length_fmap, <- (length_fmap effortExpense), prepare_features_target.
    apply length_fmap.
Qed.

Lemma with_targets_target (targets : list cell) df :
  length targets = length (rows df) ->
  effortExpense <$> rows (with_targets targets df) = targets.
Proof.
  unfold with_targets. cbn [rows]. generalize (rows df). intros l.
  revert l. induction targets as [|t targets IH]; intros [|r l] Hlen;
    try discriminate; [reflexivity|].
  cbn. f_equal. apply IH. now injection Hlen.
Qed.

(** X10. A corrected table is a fixed point: when the final column of a
    table [predict] returned is written back as the target, [predict] with
    the same ceiling, on any model object, finds no row to correct and
    returns the same final column. *)
Theorem predict_final_is_fixed_point (self : t) (df : DataFrame)
  (out : list PredRow) (self' other : t) :
  predict self df = (Ok out, self') ->
  effort_limit other = effort_limit self ->
  exists again,
    (predict other (with_targets (effortExpense_final <$> out) df)).1 = Ok again /\
    effortExpense_final <$> again = effortExpense_final <$> out /\
    Forall (fun pr => needs_prediction pr = false) again.
Proof.
  intros Hp Hother.
  destruct (predict_out_within _ _ _ _ Hp) as (Hall & Hlen).
  assert (Ht : effortExpense <$> rows (with_targets (effortExpense_final <$> out) df)
               = effortExpense_final <$> out).
  { apply with_targets_target. now rewrite length_fmap. }
  destruct (predict_nothing_to_correct other
              (with_targets (effortExpense_final <$> out) df))
    as (again & Hagain & Hf & _ & Hno).
  { rewrite Hother. apply not_true_is_false. intros Hex.
    apply existsb_exists in Hex as (r & Hr & Hn).
    apply list_elem_of_In in Hr.
    assert (Hin : effortExpense r ∈ effortExpense_final <$> out).
    { rewrite <- Ht. now apply list_elem_of_fmap_2. }
    apply list_elem_of_fmap in Hin as (pr & Heq & Hpr).
    rewrite Forall_forall in Hall. specialize (Hall pr Hpr).
    rewrite <- Heq in Hall. apply needs_correction_within in Hall. congruence. }
  exists again. split; [exact Hagain|]. split; [now rewrite Hf, Ht | exact Hno].
Qed.

End PredictorMore.

(** ** The artifact on disk *)

Section ArtifactMore.
Context {backend : Backend}.
Import CatBoostEffortModel.

(** X11. Persistence round trip: saving a model object that holds a
    regressor succeeds and writes only the given path; loading that path
    into any other model object succeeds and restores the ceiling, the
    regressor, the scaler, the feature and categorical columns, the trained
    flag and the metrics (the CatBoost parameters stay those of the loading
    object), and the loaded object predicts every table as the saved one
    does. *)
Theorem artifact_round_trip (self other : t) (filepath : string)
  (fs : gmap string Artifact) (regressor : Regressor) :
  model self = Some regressor ->
  let saved := save_model self filepath fs in
  let loaded := load_model other filepath saved.2 in
  saved.1 = Ok tt /\
  (forall path, path <> filepath -> saved.2 !! path = fs !! path) /\
  loaded.1 = Ok tt /\
  effort_limit loaded.2 = effort_limit self /\
  model loaded.2 = model self /\
  scaler loaded.2 = scaler self /\
  feature_columns loaded.2 = feature_columns self /\
  categorical_columns loaded.2 = categorical_columns self /\
  is_trained loaded.2 = is_trained self /\
  model_metrics loaded.2 = model_metrics self /\
  catboost_params loaded.2 = catboost_params other /\
  forall df, (predict loaded.2 df).1 = (predict self df).1.
Proof.
  intros Hm saved loaded. subst loaded saved.
  unfold save_model. rewrite Hm. cbn [fst snd].
  unfold load_model. rewrite lookup_insert_eq. cbn [fst snd].
  cbn [effort_limit model scaler feature_columns categorical_columns is_trained
       model_metrics catboost_params a_effort_limit a_model a_scaler
       a_feature_columns a_categorical_columns a_is_trained a_model_metrics].
  repeat split; try reflexivity; try (symmetry; exact Hm).
  - intros path Hne. apply lookup_insert_ne. congruence.
  - intros df. apply predict_same_result; cbn [effort_limit model scaler];
      try reflexivity. symmetry; exact Hm.
Qed.

End ArtifactMore.

(** ** Feature preparation: what is left missing *)

Section PrepareMore.
Context {backend : Backend}.
Import CatBoostEffortModel.

Lemma dropna_nil_iff (s : list cell) : dropna s = [] <-> forall c, c ∈ s -> c = None.
Proof.
  unfold dropna. induction s as [|a s IH]; cbn.
  - split; [intros _ c Hc; inversion Hc | reflexivity].
  - destruct a as [v|]; cbn.
    + split; [discriminate|]. intros H.
      specialize (H (Some v) (list_elem_of_here _ _)). discriminate.
    + rewrite IH. split.
      * intros H c Hc. apply elem_of_cons in Hc as [->|Hc]; auto.
      * intros H c Hc. apply H. now apply list_elem_of_further.
Qed.

Lemma median_None_iff (s : list cell) :
  median s = None <-> forall c, c ∈ s -> c = None.
Proof.
  rewrite <- dropna_nil_iff. unfold median, quantile. split.
  - intros H. destruct (dropna s) as [|a l] eqn:E; [reflexivity|].
    destruct (quantile_values_Some (1 # 2) (a :: l)) as [q Hq]; [discriminate|].
    congruence.
  - intros ->. reflexivity.
Qed.

Lemma rows_fill_categorical df c0 :
  rows (fill_categorical df c0)
  = (fun r => if has_column df c0
              then set_cat c0 (Some (default "Unknown"%string (cat r c0))) r
              else r) <$> rows df.
Proof.
  unfold fill_categorical. destruct (has_column df c0); [reflexivity|].
  symmetry. apply list_fmap_id.
Qed.

Lemma columns_fill_categorical df c0 :
  columns (fill_categorical df c0) = columns df.
Proof.
  unfold fill_categorical, assign_cat.
  destruct (has_column df c0); reflexivity.
Qed.

Lemma fold_fill_categorical_cat cols df j r :
  NoDup cols -> rows df !! j = Some r ->
  exists r', rows (fold_left fill_categorical cols df) !! j = Some r' /\
    forall c, cat r' c
              = if bool_decide (c ∈ cols) && has_column df c
                then Some (default "Unknown"%string (cat r c))
                else cat r c.
Proof.
  revert df r. induction cols as [|c0 cols IH]; intros df r Hnd Hj.
  - exists r. split; [exact Hj|]. intros c.
    rewrite bool_decide_eq_false_2; [reflexivity | apply not_elem_of_nil].
  - apply NoDup_cons in Hnd as [Hfresh Hnd]. cbn [fold_left].
    destruct (IH (fill_categorical df c0)
                 (if has_column df c0
                  then set_cat c0 (Some (default "Unknown"%string (cat r c0))) r
                  else r) Hnd) as (r' & Hr' & Hcat).
    { now rewrite rows_fill_categorical, list_lookup_fmap, Hj. }
    exists r'. split; [exact Hr'|]. intros c. rewrite Hcat.
    unfold has_column at 1. rewrite columns_fill_categorical.
    fold (has_column df c).
    destruct (decide (c = c0)) as [->|Hne].
    + rewrite (bool_decide_eq_false_2 (c0 ∈ cols)) by exact Hfresh.
      rewrite (bool_decide_eq_true_2 (c0 ∈ c0 :: cols)) by apply list_elem_of_here.
      cbn [andb]. destruct (has_column df c0); [|reflexivity].
      cbn [cat set_cat]. now rewrite String.eqb_refl.
    + assert (Hmem : bool_decide (c ∈ c0 :: cols) = bool_decide (c ∈ cols)).
      { apply bool_decide_ext. rewrite elem_of_cons. tauto. }
      rewrite Hmem.
      assert (Hsame : cat (if has_column df c0
                  then set_cat c0 (Some (default "Unknown"%string (cat r c0))) r
                  else r) c = cat r c).
      { destruct (has_column df c0); [|reflexivity].
        cbn [cat set_cat]. now apply String.eqb_neq in Hne as ->. }
      now rewrite Hsame.
Qed.

Lemma fold_fill_numerical_cat cols df j r :
  rows df !! j = Some r ->
  exists r', rows (fold_left fill_numerical cols df) !! j = Some r' /\
             forall c, cat r' c = cat r c.
Proof.
  revert df r. induction cols as [|c0 cols IH]; intros df r Hj.
  - exists r. auto.
  - cbn [fold_left].
    destruct (IH (fill_numerical df c0)
                 (if has_column df c0
                  then set_num c0 (fillna (median (series df c0)) (num r c0)) r
                  else r)) as (r' & Hr' & Hcat).
    { now rewrite rows_fill_numerical, list_lookup_fmap, Hj. }
    exists r'. split; [exact Hr'|]. intros c. rewrite Hcat.
    now destruct (has_column df c0).
Qed.

Lemma columns_fold_fill_numerical cols df :
  columns (fold_left fill_numerical cols df) = columns df.
Proof.
  revert df. induction cols as [|c0 cols IH]; intros df; [reflexivity|].
  cbn [fold_left]. now rewrite IH, columns_fill_numerical.
Qed.

Lemma CATEGORICAL_NoDup : NoDup CATEGORICAL.
Proof. apply (bool_decide_unpack (NoDup CATEGORICAL)). vm_compute. exact I. Qed.

(** X12. After [prepare_features], in the frame it returns, every cell of a
    categorical column that is present holds a string, "Unknown" where the
    cell was missing; and a cell of a numerical column that is present is
    still missing exactly when the whole column was missing (there is no
    median to fill it with). *)
Theorem prepare_features_missing_cells (self : t) (df : DataFrame)
  (j : nat) (r1 r' : Row) (col : string) :
  rows (extract_date_features df) !! j = Some r1 ->
  rows (prepare_features self df).2 !! j = Some r' ->
  has_column (extract_date_features df) col = true ->
  (col ∈ CATEGORICAL ->
   cat r' col = Some (default "Unknown"%string (cat r1 col))) /\
  (col ∈ numerical_columns ->
   (num r' col = None <->
    forall r, r ∈ rows (extract_date_features df) -> num r col = None)).
Proof.
  intros Hj Hj' Hhas. split.
  - intros Hcol. rewrite prepare_features_frame in Hj'.
    destruct (fold_fill_numerical_cat numerical_columns _ j r1 Hj)
      as (r2 & Hr2 & Hcat2).
    destruct (fold_fill_categorical_cat CATEGORICAL _ j r2 CATEGORICAL_NoDup Hr2)
      as (r3 & Hr3 & Hcat3).
    rewrite Hr3 in Hj'. injection Hj' as <-.
    rewrite Hcat3, (bool_decide_eq_true_2 _ Hcol).
    unfold has_column at 1. rewrite columns_fold_fill_numerical.
    fold (has_column (extract_date_features df) col).
    now rewrite Hhas, Hcat2.
  - intros Hcol.
    destruct (prepare_features_num self df j r1 Hj) as (r3 & Hr3 & Hnum).
    rewrite Hr3 in Hj'. injection Hj' as <-.
    rewrite Hnum. unfold imputed.
    rewrite (bool_decide_eq_true_2 _ Hcol), Hhas. cbn [andb].
    destruct (num r1 col) as [v|] eqn:Hv; cbn [fillna].
    + split; [discriminate|]. intros H.
      rewrite H in Hv; [discriminate|]. eapply list_elem_of_lookup_2, Hj.
    + rewrite median_None_iff. unfold series. split.
      * intros H r Hr. apply H. now apply (list_elem_of_fmap_2 (fun r => num r col)).
      * intros H c Hc. apply list_elem_of_fmap in Hc as (r & -> & Hr). now apply H.
Qed.

End PrepareMore.

(** ** Training: the samples the regressor is fitted on *)

Section QuantileBounds.
Local Open Scope Q_scope.

Lemma nth_sorted (v : list Q) (d : Q) (i j : nat) :
  StronglySorted Qle v -> (i <= j)%nat -> (j < length v)%nat ->
  nth i v d <= nth j v d.
Proof.
  intros Hs. revert i j. induction Hs as [|x l Hs IH Hall]; intros i j Hij Hj.
  - simpl in Hj. lia.
  - destruct j as [|j]; [replace i with 0%nat by lia; apply Qle_refl|].
    simpl in Hj. destruct i as [|i].
    + simpl. rewrite List.Forall_forall in Hall. apply Hall.
      apply nth_In. lia.
    + simpl. apply IH; lia.
Qed.

Lemma lerp_between (a b t : Q) :
  a <= b -> 0 <= t -> t <= 1 -> a <= a + t * (b - a) /\ a + t * (b - a) <= b.
Proof.
  intros Hab Ht0 Ht1.
  assert (H1 : 0 <= t * (b - a)) by (apply Qmult_le_0_compat; lra).
  assert (H2 : 0 <= (1 - t) * (b - a)) by (apply Qmult_le_0_compat; lra).
  split; lra.
Qed.

Lemma floor_ceiling_range (h : Q) (n : Z) :
  0 <= h -> h <= inject_Z n ->
  (0 <= Qfloor h)%Z /\ (Qfloor h <= Qceiling h)%Z /\ (Qceiling h <= n)%Z /\
  0 <= h - inject_Z (Qfloor h) /\ h - inject_Z (Qfloor h) <= 1.
Proof.
  intros H0 Hn.
  pose proof (Qfloor_le h) as Hfl. pose proof (Qle_ceiling h) as Hce.
  pose proof (Qlt_floor h) as Hlt. rewrite inject_Z_plus in Hlt.
  split; [|split; [|split; [|split]]].
  - rewrite <- (Qfloor_Z 0). now apply Qfloor_resp_le.
  - rewrite Zle_Qle. lra.
  - rewrite <- (Qceiling_Z n). now apply Qceiling_resp_le.
  - lra.
  - change (inject_Z 1) with 1 in Hlt. lra.
Qed.

(** A quantile lies between the two order statistics it interpolates. *)
Lemma quantile_values_between (q : Q) (l : list Q) :
  l <> [] -> 0 <= q -> q <= 1 ->
  let v := sort_values l in
  let h := inject_Z (Z.of_nat (length v) - 1) * q in
  exists x d,
    quantile_values q l = Some x /\
    (0 <= Qfloor h)%Z /\ (Qfloor h <= Qceiling h)%Z /\
    (Qceiling h < Z.of_nat (length v))%Z /\
    nth (Z.to_nat (Qfloor h)) v d <= x /\
    x <= nth (Z.to_nat (Qceiling h)) v d.
Proof.
  intros Hne Hq0 Hq1. cbv zeta. unfold quantile_values.
  pose proof (sort_values_sorted l) as Hsorted.
  assert (Hlen : length (sort_values l) = length l)
    by now rewrite (sort_values_Permutation l).
  remember (sort_values l) as v eqn:Ev. clear Ev.
  assert (Hpos : (0 < length v)%nat)
    by (rewrite Hlen; destruct l; [contradiction | simpl; lia]).
  set (h := inject_Z (Z.of_nat (length v) - 1) * q).
  assert (Ha : 0 <= inject_Z (Z.of_nat (length v) - 1))
    by (change 0 with (inject_Z 0); rewrite <- Zle_Qle; lia).
  assert (Hh0 : 0 <= h) by (subst h; now apply Qmult_le_0_compat).
  assert (Hhn : h <= inject_Z (Z.of_nat (length v) - 1)).
  { subst h.
    assert (Hprod : 0 <= inject_Z (Z.of_nat (length v) - 1) * (1 - q))
      by (apply Qmult_le_0_compat; lra).
    lra. }
  destruct (floor_ceiling_range h _ Hh0 Hhn) as (Hf0 & Hfc & Hcn & Ht0 & Ht1).
  destruct v as [|x0 rest]; [simpl in Hpos; lia|].
  fold h. eexists. exists x0. split; [reflexivity|].
  split; [exact Hf0|]. split; [exact Hfc|]. split; [lia|].
  apply lerp_between; try assumption.
  apply nth_sorted; [exact Hsorted | lia | lia].
Qed.

End QuantileBounds.

Section QuartileWitness.
Local Open Scope Q_scope.

(** With at least three values, some value lies between the two quartiles. *)
Lemma iqr_keeps_one (l : list Q) :
  (3 <= length l)%nat ->
  exists q1 q3 m,
    quantile_values (1 # 4) l = Some q1 /\
    quantile_values (3 # 4) l = Some q3 /\
    m ∈ l /\ q1 <= m /\ m <= q3.
Proof.
  intros Hlen.
  assert (Hne : l <> []) by (destruct l; [simpl in Hlen; lia | discriminate]).
  destruct (quantile_values_between (1 # 4) l Hne) as
    (q1 & d1 & Hq1 & Hf1 & Hfc1 & Hc1 & Hlo1 & Hhi1); [lra | lra |].
  destruct (quantile_values_between (3 # 4) l Hne) as
    (q3 & d3 & Hq3 & Hf3 & Hfc3 & Hc3 & Hlo3 & Hhi3); [lra | lra |].
  pose proof (sort_values_sorted l) as Hsorted.
  pose proof (sort_values_Permutation l) as Hperm.
  assert (Hn : length (sort_values l) = length l) by now rewrite Hperm.
  remember (sort_values l) as v eqn:Ev. clear Ev.
  set (N := (Z.of_nat (length v) - 1)%Z) in *.
  assert (HN : (2 <= N)%Z) by (subst N; lia).
  assert (Hidx : (Qceiling (inject_Z N * (1 # 4)) <= Qfloor (inject_Z N * (3 # 4)))%Z).
  { unfold Qceiling, Qfloor, Qmult, Qopp, inject_Z. cbn.
    Z.div_mod_to_equations. lia. }
  exists q1, q3, (nth (Z.to_nat (Qceiling (inject_Z N * (1 # 4)))) v d1).
  split; [exact Hq1|]. split; [exact Hq3|]. split; [|split].
  - rewrite <- Hperm. apply list_elem_of_In, nth_In. lia.
  - exact Hhi1.
  - eapply Qle_trans; [|exact Hlo3].
    rewrite (nth_indep v d1 d3) by lia.
    apply nth_sorted; [exact Hsorted | lia | lia].
Qed.

End QuartileWitness.

Section TrainingMore.
Context {backend : Backend}.
Import CatBoostEffortModel.

Lemma elem_of_zip_fmap {A B C} (f : A -> B) (g : A -> C) (l : list A) (s : B * C) :
  s ∈ zip (f <$> l) (g <$> l) <-> exists p, p ∈ l /\ s = (f p, g p).
Proof.
  assert (Hz : zip (f <$> l) (g <$> l) = (fun p => (f p, g p)) <$> l).
  { induction l as [|a l IH]; [reflexivity|]. cbn. f_equal. exact IH. }
  rewrite Hz, list_elem_of_fmap. split; intros (p & ? & ?); eauto.
Qed.

Lemma training_set_nil (self1 : t) : training_set self1 [] = [].
Proof. reflexivity. Qed.


End TrainingMore.

(** ** The orchestrator: state, persistence, failures *)

Section OrchestratorMore.
Context {backend : Backend}.

Lemma predict_state (m : CatBoostEffortModel.t) df :
  (CatBoostEffortModel.predict m df).2 = (CatBoostEffortModel.prepare_features m df).1.
Proof.
  rewrite predict_unfold. now destruct (CatBoostEffortModel.predict_rows _ _).
Qed.

Lemma train_model_state (m : CatBoostEffortModel.t) df test_size ht fm :
  match (CatBoostEffortModel.train_model m df test_size ht fm).1 with
  | Ok _ =>
      is_Some (CatBoostEffortModel.model
                 (CatBoostEffortModel.train_model m df test_size ht fm).2)
  | Raise e =>
      e = ValueError CatBoostEffortModel.not_enough_data /\
      (CatBoostEffortModel.train_model m df test_size ht fm).2
      = (CatBoostEffortModel.prepare_features m df).1
  end.
Proof.
  rewrite train_model_unfold.
  destruct (_ <? 10)%nat; cbn [fst snd]; [auto|].
  apply fit_model_trained.
Qed.

Lemma with_ml_model_same (self : DataProcessor.t) :
  DataProcessor.with_ml_model self (DataProcessor.ml_model self)
    (DataProcessor.is_model_trained self) = self.
Proof. now destruct self. Qed.

(** X14. The trained flag of the orchestrator is always backed by a
    regressor: a new orchestrator has the property, and training, loading,
    saving and predicting keep it, whether they succeed or raise. *)
Theorem orchestrator_flag_backed (self : DataProcessor.t) :
  consistent self ->
  (forall df ht fm, consistent (DataProcessor.train_model self df ht fm).2) /\
  (forall filepath fs, consistent (DataProcessor.load_model self filepath fs).2) /\
  (forall filepath ts nts now fs,
     consistent (DataProcessor.save_model self filepath ts nts now fs).1.2) /\
  (forall df, consistent (DataProcessor.predict_effort_expenses self df).2) /\
  (forall effort_limit missing_threshold on_disk,
     consistent (DataProcessor.init effort_limit missing_threshold on_disk)).
Proof.
  intros Hc. unfold consistent in *. split; [|split; [|split; [|split]]].
  - intros df ht fm. unfold DataProcessor.train_model.
    pose proof (train_model_state (DataProcessor.ml_model self) df (1 # 5) ht fm) as Hs.
    destruct (CatBoostEffortModel.train_model _ _ _ _ _) as [[metrics|e] ml];
      cbn [fst snd] in *.
    + intros _. exact Hs.
    + destruct Hs as [_ ->]. exact Hc.
  - intros filepath fs. unfold DataProcessor.load_model.
    assert (Hload : forall path,
      consistent (match CatBoostEffortModel.load_model
                          (DataProcessor.ml_model self) path fs with
                  | (Ok _, ml) => (Ok tt, DataProcessor.with_ml_model self ml true)
                  | (Raise e, ml) =>
                      (Raise e, DataProcessor.with_ml_model self ml
                                  (DataProcessor.is_model_trained self))
                  end).2).
    { intros path. unfold CatBoostEffortModel.load_model, consistent.
      destruct (fs !! path); cbn; eauto. }
    destruct filepath as [path|]; [apply Hload|].
    destruct (ModelStorage.get_active_model _); [apply Hload | exact Hc].
  - intros filepath ts nts now fs. unfold DataProcessor.save_model.
    destruct (negb _); [exact Hc|].
    destruct (CatBoostEffortModel.save_model _ _ _) as [[u|e] fs']; exact Hc.
  - intros df. unfold DataProcessor.predict_effort_expenses.
    destruct (negb _); [exact Hc|].
    pose proof (predict_state (DataProcessor.ml_model self) df) as Hs.
    destruct (CatBoostEffortModel.predict _ _) as [[out|e] ml];
      cbn [fst snd] in *; subst ml; exact Hc.
  - intros. unfold consistent. discriminate.
Qed.

Lemma save_model_as_call (db : ModelStorage.t) now name type path metrics fc ts limit :
  (ModelStorage.save_model db now name type path metrics fc ts limit).2
  = Registry.save db (Registry.mkSave now name type path metrics fc ts limit).
Proof. reflexivity. Qed.

Lemma get_active_model_after_save (db : ModelStorage.t) (c : Registry.SaveCall) :
  ModelStorage.get_active_model (Registry.save db c)
  = Some (Registry.inserted_by (ModelStorage.sqlite_sequence (Registry.save db c)) c).
Proof.
  unfold ModelStorage.get_active_model. now rewrite save_active_rows.
Qed.

(** X15. Save, then load the active model: on an orchestrator whose flag is
    set, [save_model] returns the file path, leaves the model and the flag
    as they are, and makes the new registry entry, which references that
    path, the active one; any orchestrator over that registry and that disk
    then loads it with [load_model()] and predicts every table as the saving
    orchestrator does. *)
Theorem save_then_load_active_model (self other : DataProcessor.t)
  (filepath : option string) (ts nts : string) (now : Z)
  (fs : gmap string CatBoostEffortModel.Artifact) :
  consistent self ->
  DataProcessor.is_model_trained self = true ->
  let saved := DataProcessor.save_model self filepath ts nts now fs in
  let path := default ("effort_expense_model_catboost_" +:+ ts +:+ ".pkl") filepath in
  saved.1.1 = Ok path /\
  DataProcessor.ml_model saved.1.2 = DataProcessor.ml_model self /\
  DataProcessor.is_model_trained saved.1.2 = true /\
  (exists active,
     ModelStorage.get_active_model (DataProcessor.model_storage saved.1.2)
     = Some active /\
     ModelStorage.file_path active = path /\
     ModelStorage.model_name active = ("CatBoost_Model_" +:+ nts)%string /\
     ModelStorage.is_active active = true) /\
  let loaded :=
    DataProcessor.load_model
      (with_storage other (DataProcessor.model_storage saved.1.2)) None saved.2 in
  loaded.1 = Ok tt /\
  DataProcessor.is_model_trained loaded.2 = true /\
  forall df,
    (DataProcessor.predict_effort_expenses loaded.2 df).1
    = (DataProcessor.predict_effort_expenses self df).1.
Proof.
  intros Hc Ht. cbv zeta.
  destruct (Hc Ht) as [regressor Hreg].
  unfold DataProcessor.save_model. rewrite Ht. cbn [negb].
  set (path := default _ filepath).
  unfold CatBoostEffortModel.save_model. rewrite Hreg.
  rewrite (surjective_pairing (ModelStorage.save_model _ _ _ _ _ _ _ _ _)).
  rewrite save_model_as_call. cbn [fst snd].
  cbn [DataProcessor.ml_model DataProcessor.is_model_trained
       DataProcessor.model_storage].
  split; [reflexivity|]. split; [reflexivity|]. split; [reflexivity|].
  rewrite get_active_model_after_save.
  split; [eexists; split; [reflexivity|]; cbn; auto|].
  unfold DataProcessor.load_model, with_storage.
  cbn [DataProcessor.model_storage DataProcessor.ml_model].
  rewrite get_active_model_after_save.
  cbn [Registry.inserted_by ModelStorage.file_path Registry.s_path].
  unfold CatBoostEffortModel.load_model. rewrite lookup_insert_eq.
  cbn [fst snd]. split; [reflexivity|]. split; [reflexivity|].
  intros df. unfold DataProcessor.predict_effort_expenses.
  cbn [DataProcessor.is_model_trained DataProcessor.with_ml_model
       DataProcessor.ml_model]. rewrite Ht. cbn [negb].
  match goal with
  | |- context [CatBoostEffortModel.predict ?m df] =>
      pose proof (predict_same_result m (DataProcessor.ml_model self) df
                    eq_refl (eq_sym Hreg) eq_refl) as Hdep
  end.
  destruct (CatBoostEffortModel.predict _ df) as [[o1|e1] m1];
    destruct (CatBoostEffortModel.predict (DataProcessor.ml_model self) df)
      as [[o2|e2] m2]; cbn [fst] in *; congruence.
Qed.


(** X17. Once a registry entry is deleted its artifact can no longer be
    loaded: with pairwise different ids in the registry, after
    [delete_model] of an entry, [load_model] with that entry's file path
    raises the file-not-found error and leaves the orchestrator as it was;
    and if the entry was the only active one, [load_model()] over the new
    registry raises the no-active-model error. *)
Theorem load_after_delete (self : DataProcessor.t)
  (fs : gmap string CatBoostEffortModel.Artifact) (e : ModelStorage.Entry) :
  e ∈ ModelStorage.models (DataProcessor.model_storage self) ->
  NoDup (ModelStorage.id <$> ModelStorage.models (DataProcessor.model_storage self)) ->
  let outcome :=
    ModelStorage.delete_model (DataProcessor.model_storage self) (ModelStorage.id e) fs in
  outcome.1.1 = true /\
  DataProcessor.load_model self (Some (ModelStorage.file_path e)) outcome.2
  = (Raise (FileNotFoundError ("Model file not found: " +:+ ModelStorage.file_path e)),
     self) /\
  ((forall e', e' ∈ ModelStorage.models (DataProcessor.model_storage self) ->
               ModelStorage.is_active e' = true -> e' = e) ->
   DataProcessor.load_model (with_storage self outcome.1.2) None outcome.2
   = (Raise (ValueError DataProcessor.no_active_model),
      with_storage self outcome.1.2)).
Proof.
  intros He Hnd outcome.
  assert (Hfind : List.find (fun x => (ModelStorage.id x =? ModelStorage.id e)%Z)
                    (ModelStorage.models (DataProcessor.model_storage self)) = Some e).
  { clear outcome. induction (ModelStorage.models _) as [|x l IH]; [inversion He|].
    rewrite fmap_cons in Hnd. apply NoDup_cons in Hnd as [Hx Hnd].
    simpl. destruct (ModelStorage.id x =? ModelStorage.id e)%Z eqn:E.
    - apply Z.eqb_eq in E. apply elem_of_cons in He as [->|He]; [reflexivity|].
      exfalso. apply Hx. rewrite E. now apply list_elem_of_fmap_2.
    - apply elem_of_cons in He as [->|He];
        [rewrite Z.eqb_refl in E; discriminate | now apply IH]. }
  subst outcome. unfold ModelStorage.delete_model. rewrite Hfind. cbn [fst snd].
  split; [reflexivity|]. split.
  - unfold DataProcessor.load_model, CatBoostEffortModel.load_model.
    rewrite lookup_delete_eq. now rewrite with_ml_model_same.
  - intros Honly. unfold DataProcessor.load_model, with_storage.
    cbn [DataProcessor.model_storage].
    pose proof (get_active_model_spec
      (ModelStorage.mk
         (List.filter (fun x => negb (ModelStorage.id x =? ModelStorage.id e)%Z)
            (ModelStorage.models (DataProcessor.model_storage self)))
         (ModelStorage.sqlite_sequence (DataProcessor.model_storage self)))) as Hspec.
    destruct (ModelStorage.get_active_model _) as [a|]; [|reflexivity].
    exfalso. destruct Hspec as (Hin & Hact & _). cbn [ModelStorage.models] in Hin.
    apply elem_of_List_filter in Hin as [Hin Hne].
    rewrite (Honly a Hin Hact), Z.eqb_refl in Hne. discriminate.
Qed.

End OrchestratorMore.

(** ** The corrected table, the issue manifest, the summary, the
    notification rows *)

Section ReportsMore.
Context {backend : Backend}.
Import CatBoostEffortModel Reports.

Lemma policy_classify_flags limit p r :
  let pr := policy limit p (classify limit r) in
  row pr = r /\
  is_missing_effort pr = isna (effortExpense r) /\
  is_over_limit pr = gt (effortExpense r) limit /\
  needs_prediction pr = isna (effortExpense r) || gt (effortExpense r) limit /\
  within_limit limit (effortExpense_final pr) /\
  (isna (effortExpense r) || gt (effortExpense r) limit = false ->
   effortExpense_final pr = effortExpense r).
Proof.
  cbv zeta. pose proof (policy_classify_bounded limit p r) as (_ & _ & Hw).
  revert Hw. rewrite policy_classify.
  destruct (effortExpense r) as [v|]; [destruct (Qltb limit v) eqn:E|];
    cbn [row is_missing_effort is_over_limit needs_prediction effortExpense_final
         isna gt orb]; rewrite ?E; intros Hw; repeat split; try exact Hw;
    try reflexivity; discriminate.
Qed.

Lemma corrected_rows (self self' : DataProcessor.t)
  (df : DataFrame) (out : list DataProcessor.CorrectedRow) :
  DataProcessor.predict_effort_expenses self df = (Ok out, self') ->
  Forall2 (corrected_from (effort_limit (DataProcessor.ml_model self)))
          (rows df) out /\
  DataProcessor.is_model_trained self = true /\
  DataProcessor.is_model_trained self' = true /\
  DataProcessor.model_storage self' = DataProcessor.model_storage self.
Proof.
  unfold DataProcessor.predict_effort_expenses.
  destruct (DataProcessor.is_model_trained self) eqn:Ht; cbn [negb]; [|discriminate].
  destruct (predict (DataProcessor.ml_model self) df) as [[preds|e] ml] eqn:Hp;
    [|discriminate].
  intros H. injection H as <- <-.
  split; [|cbn; auto].
  pose proof (predict_reading _ _ _ _ Hp) as (_ & f & _ & Hout).
  pose proof (prepare_features_target (DataProcessor.ml_model self) df) as Htar.
  set (limit := effort_limit (DataProcessor.ml_model self)) in *.
  set (processed := rows (prepare_features (DataProcessor.ml_model self) df).2) in *.
  assert (Hlen : length processed = length (rows df)).
  { rewrite <- (length_fmap effortExpense processed), Htar. apply length_fmap. }
  apply Forall2_same_length_lookup_2.
  - assert (Hpl : length preds = length (rows df))
      by (subst preds; now rewrite length_fmap).
    rewrite length_zip_with_l_eq; [now symmetry|].
    now rewrite length_fmap.
  - intros i r c Hr Hc.
    apply lookup_zip_with_Some in Hc as (pr & t & -> & Hpr & Ht').
    rewrite list_lookup_fmap, Hr in Ht'. injection Ht' as <-.
    rewrite Hout, list_lookup_fmap in Hpr.
    destruct (processed !! i) as [r'|] eqn:Hr'; [|discriminate].
    injection Hpr as <-.
    assert (Heq : effortExpense r' = effortExpense r).
    { apply (f_equal (fun l => l !! i)) in Htar.
      rewrite !list_lookup_fmap, Hr, Hr' in Htar. now injection Htar. }
    destruct (policy_classify_flags limit (f (classify limit r')) r')
      as (_ & H1 & H2 & H3 & H4 & H5).
    unfold corrected_from. cbn [DataProcessor.predicted_row
                                DataProcessor.effortExpense_original].
    rewrite <- Heq. auto 10.
Qed.

(** X18. [predict_effort_expenses], when it returns, returns one corrected
    row per input row, in order: its original column is the input target,
    its flags are computed from that target and the ceiling of the model in
    use, its final value is a number within that ceiling, and equals the
    target when the row needed no prediction. The flag stays set and the
    registry is not touched. *)
Theorem predict_effort_expenses_rows (self self' : DataProcessor.t)
  (df : DataFrame) (out : list DataProcessor.CorrectedRow) :
  DataProcessor.predict_effort_expenses self df = (Ok out, self') ->
  Forall2 (corrected_from (effort_limit (DataProcessor.ml_model self)))
          (rows df) out /\
  DataProcessor.is_model_trained self = true /\
  DataProcessor.is_model_trained self' = true /\
  DataProcessor.model_storage self' = DataProcessor.model_storage self.
Proof. apply corrected_rows. Qed.

(** *** The loop of [identify_issues] as filters *)

Lemma note_row_reading (acc : Issues) (it : nat * DataProcessor.CorrectedRow) :
  note_row acc it
  = mkIssues
      (missing_effort acc ++
         (if is_missing_effort (DataProcessor.predicted_row it.2) then [it.1] else []))
      (over_limit acc ++
         (if is_over_limit (DataProcessor.predicted_row it.2) then [it.1] else []))
      (predicted_values acc ++
         (if needs_prediction (DataProcessor.predicted_row it.2)
          then [predicted_value it] else []))
      (needs_notification acc ++ noted it).
Proof.
  destruct it as [idx c], acc as [m o p n].
  unfold note_row, noted, predicted_value. cbn [fst snd].
  destruct (is_missing_effort (DataProcessor.predicted_row c));
    destruct (is_over_limit (DataProcessor.predicted_row c));
    destruct (needs_prediction (DataProcessor.predicted_row c));
    cbn [missing_effort over_limit predicted_values needs_notification];
    rewrite ?app_nil_r, <- ?app_assoc; reflexivity.
Qed.

Lemma fold_note_row (items : list (nat * DataProcessor.CorrectedRow)) (acc : Issues) :
  fold_left note_row items acc
  = mkIssues
      (missing_effort acc ++
         (fst <$> List.filter
            (fun it => is_missing_effort (DataProcessor.predicted_row it.2)) items))
      (over_limit acc ++
         (fst <$> List.filter
            (fun it => is_over_limit (DataProcessor.predicted_row it.2)) items))
      (predicted_values acc ++
         (predicted_value <$> List.filter
            (fun it => needs_prediction (DataProcessor.predicted_row it.2)) items))
      (needs_notification acc ++ concat (noted <$> items)).
Proof.
  revert acc. induction items as [|it items IH]; intros acc.
  - cbn. rewrite !app_nil_r. now destruct acc.
  - cbn [fold_left]. rewrite IH, note_row_reading.
    cbn [missing_effort over_limit predicted_values needs_notification].
    rewrite fmap_cons. cbn [concat List.filter]. rewrite <- !app_assoc.
    f_equal; f_equal.
    + now destruct (is_missing_effort _).
    + now destruct (is_over_limit _).
    + now destruct (needs_prediction _).
Qed.

Lemma identify_issues_reading (df : list DataProcessor.CorrectedRow) :
  identify_issues df
  = mkIssues
      (fst <$> List.filter
         (fun it => is_missing_effort (DataProcessor.predicted_row it.2)) (imap pair df))
      (fst <$> List.filter
         (fun it => is_over_limit (DataProcessor.predicted_row it.2)) (imap pair df))
      (predicted_value <$> List.filter
         (fun it => needs_prediction (DataProcessor.predicted_row it.2)) (imap pair df))
      (concat (noted <$> imap pair df)).
Proof. unfold identify_issues. now rewrite fold_note_row. Qed.

Lemma concat_noted (items : list (nat * DataProcessor.CorrectedRow)) :
  (forall it, it ∈ items ->
     noted it = if needs_prediction (DataProcessor.predicted_row it.2)
                then [it.1] else []) ->
  concat (noted <$> items)
  = fst <$> List.filter
      (fun it => needs_prediction (DataProcessor.predicted_row it.2)) items.
Proof.
  induction items as [|it items IH]; intros H; [reflexivity|].
  rewrite fmap_cons. cbn [concat List.filter].
  rewrite (H it) by apply list_elem_of_here.
  rewrite IH by (intros; apply H; now apply list_elem_of_further).
  now destruct (needs_prediction _).
Qed.

Lemma elem_of_indices {A} (P : A -> bool) (l : list A) (i : nat) :
  i ∈ fst <$> List.filter (fun it : nat * A => P it.2) (imap pair l)
  <-> exists x, l !! i = Some x /\ P x = true.
Proof.
  rewrite list_elem_of_fmap. split.
  - intros ([j x] & -> & Hin). apply elem_of_filter_imap in Hin. eauto.
  - intros (x & Hl & HP). exists (i, x). split; [reflexivity|].
    apply elem_of_filter_imap. auto.
Qed.

Lemma corrected_noted limit (df : list Row) (out : list DataProcessor.CorrectedRow) :
  Forall2 (corrected_from limit) df out ->
  forall it, it ∈ imap pair out ->
    noted it = if needs_prediction (DataProcessor.predicted_row it.2)
               then [it.1] else [].
Proof.
  intros Hall [i c] Hin.
  apply elem_of_lookup_imap in Hin as (j & c' & Heq & Hc). injection Heq as -> ->.
  destruct (Forall2_lookup_r _ _ _ _ _ Hall Hc) as (r & _ & Hcf).
  destruct Hcf as (_ & Hm & Ho & Hn & _). unfold noted. cbn [fst snd].
  rewrite Hm, Ho, Hn.
  destruct (effortExpense r) as [v|]; cbn; [destruct (Qltb limit v)|]; reflexivity.
Qed.

(** X19. The issue manifest of a corrected table: an index is listed as
    missing exactly when the input target of that row is null, as over limit
    exactly when the target exceeds the ceiling, and never as both; the
    notification list has no repetition and holds exactly the indices listed
    under either heading; the predicted values carry those same indices in
    the same order, each with a final value within the ceiling and with the
    reason "missing" exactly when its original value is null. *)
Theorem identify_issues_of_prediction (self self' : DataProcessor.t)
  (df : DataFrame) (out : list DataProcessor.CorrectedRow) :
  DataProcessor.predict_effort_expenses self df = (Ok out, self') ->
  let limit := effort_limit (DataProcessor.ml_model self) in
  let issues := identify_issues out in
  (forall i, i ∈ missing_effort issues <->
             exists r, rows df !! i = Some r /\ effortExpense r = None) /\
  (forall i, i ∈ over_limit issues <->
             exists r, rows df !! i = Some r /\ gt (effortExpense r) limit = true) /\
  (forall i, i ∈ missing_effort issues -> i ∉ over_limit issues) /\
  NoDup (needs_notification issues) /\
  (forall i, i ∈ needs_notification issues <->
             i ∈ missing_effort issues \/ i ∈ over_limit issues) /\
  index <$> predicted_values issues = needs_notification issues /\
  Forall (fun pv => within_limit limit (final pv) /\
                    (reason pv = "missing"%string <-> original pv = None))
         (predicted_values issues).
Proof.
  intros Hp limit issues. subst issues.
  destruct (corrected_rows _ _ _ _ Hp) as (Hall & _). fold limit in Hall.
  rewrite identify_issues_reading.
  cbn [missing_effort over_limit predicted_values needs_notification].
  rewrite (concat_noted _ (corrected_noted limit _ _ Hall)).
  assert (Hrow : forall i c, out !! i = Some c ->
            exists r, rows df !! i = Some r /\ corrected_from limit r c).
  { intros i c Hc. exact (Forall2_lookup_r _ _ _ _ _ Hall Hc). }
  assert (Hcol : forall i r, rows df !! i = Some r ->
            exists c, out !! i = Some c /\ corrected_from limit r c).
  { intros i r Hr. exact (Forall2_lookup_l _ _ _ _ _ Hall Hr). }
  assert (Hmiss : forall i,
     i ∈ fst <$> List.filter
           (fun it : nat * DataProcessor.CorrectedRow =>
              is_missing_effort (DataProcessor.predicted_row it.2)) (imap pair out)
     <-> exists r, rows df !! i = Some r /\ effortExpense r = None).
  { intros i. rewrite (elem_of_indices
        (fun c => is_missing_effort (DataProcessor.predicted_row c))). split.
    - intros (c & Hc & Hm). destruct (Hrow i c Hc) as (r & Hr & _ & Hm' & _).
      exists r. split; [exact Hr|]. rewrite Hm' in Hm.
      now destruct (effortExpense r).
    - intros (r & Hr & Hn). destruct (Hcol i r Hr) as (c & Hc & _ & Hm' & _).
      exists c. split; [exact Hc|]. now rewrite Hm', Hn. }
  assert (Hover : forall i,
     i ∈ fst <$> List.filter
           (fun it : nat * DataProcessor.CorrectedRow =>
              is_over_limit (DataProcessor.predicted_row it.2)) (imap pair out)
     <-> exists r, rows df !! i = Some r /\ gt (effortExpense r) limit = true).
  { intros i. rewrite (elem_of_indices
        (fun c => is_over_limit (DataProcessor.predicted_row c))). split.
    - intros (c & Hc & Hm). destruct (Hrow i c Hc) as (r & Hr & _ & _ & Ho & _).
      exists r. split; [exact Hr|]. now rewrite <- Ho.
    - intros (r & Hr & Hn). destruct (Hcol i r Hr) as (c & Hc & _ & _ & Ho & _).
      exists c. split; [exact Hc|]. now rewrite Ho. }
  split; [exact Hmiss|]. split; [exact Hover|]. split; [|split; [|split; [|split]]].
  - intros i Hi Ho. apply Hmiss in Hi as (r & Hr & Hn).
    apply Hover in Ho as (r' & Hr' & Hg). rewrite Hr in Hr'. injection Hr' as <-.
    rewrite Hn in Hg. discriminate.
  - apply (NoDup_filter_imap_fst
             (fun it => needs_prediction (DataProcessor.predicted_row it.2)) out).
  - intros i. rewrite Hmiss, Hover.
    rewrite (elem_of_indices
        (fun c => needs_prediction (DataProcessor.predicted_row c))). split.
    + intros (c & Hc & Hn). destruct (Hrow i c Hc) as (r & Hr & _ & _ & _ & Hn' & _).
      rewrite Hn' in Hn. apply orb_true_iff in Hn as [Hn|Hn].
      * left. exists r. split; [exact Hr|]. now destruct (effortExpense r).
      * right. eauto.
    + intros [(r & Hr & Hn)|(r & Hr & Hn)];
        destruct (Hcol i r Hr) as (c & Hc & _ & _ & _ & Hn' & _);
        exists c; (split; [exact Hc|]); rewrite Hn', Hn; [reflexivity|].
      apply orb_true_r.
  - rewrite <- list_fmap_compose. now apply list_fmap_ext.
  - apply Forall_fmap, Forall_forall. intros [i c] Hin.
    apply elem_of_filter_imap in Hin as [Hc _].
    destruct (Hrow i c Hc) as (r & Hr & Ho & Hm & _ & _ & Hw & _).
    unfold predicted_value. simpl. split; [exact Hw|].
    rewrite Hm, Ho. destruct (effortExpense r); simpl; split; congruence.
Qed.

(** *** The summary *)

Lemma length_concat_noted (items : list (nat * DataProcessor.CorrectedRow)) :
  length (concat (noted <$> items))
  = length (List.filter
              (fun it => is_missing_effort (DataProcessor.predicted_row it.2)) items)
    + length (List.filter
                (fun it => is_over_limit (DataProcessor.predicted_row it.2)) items).
Proof.
  induction items as [|it items IH]; [reflexivity|].
  rewrite fmap_cons. cbn [concat List.filter]. rewrite length_app, IH.
  unfold noted.
  destruct (is_missing_effort _); destruct (is_over_limit _); simpl; lia.
Qed.

Lemma percentage_bounds (c1 c2 total : nat) :
  c1 + c2 <= total ->
  (0 <= percentage c1 total)%Q /\ (0 <= percentage c2 total)%Q /\
  (percentage c1 total + percentage c2 total <= 100)%Q.
Proof.
  intros Hle. unfold percentage.
  destruct (Nat.ltb_spec 0 total) as [Hpos|Hz]; [|repeat split; lra].
  set (t := inject_Z (Z.of_nat total)).
  set (a := inject_Z (Z.of_nat c1)). set (b := inject_Z (Z.of_nat c2)).
  assert (Ht : (0 < t)%Q)
    by (subst t; change 0%Q with (inject_Z 0); rewrite <- Zlt_Qlt; lia).
  assert (Ha : (0 <= a)%Q)
    by (subst a; change 0%Q with (inject_Z 0); rewrite <- Zle_Qle; lia).
  assert (Hb : (0 <= b)%Q)
    by (subst b; change 0%Q with (inject_Z 0); rewrite <- Zle_Qle; lia).
  assert (Hab : (a + b <= t)%Q).
  { subst a b t. rewrite <- inject_Z_plus, <- Zle_Qle. lia. }
  assert (Hit : (0 < / t)%Q) by now apply Qinv_lt_0_compat.
  assert (H1 : (0 <= a * / t)%Q) by (apply Qmult_le_0_compat; lra).
  assert (H2 : (0 <= b * / t)%Q) by (apply Qmult_le_0_compat; lra).
  assert (H3 : ((a + b) * / t <= t * / t)%Q)
    by (apply Qmult_le_compat_r; [exact Hab | lra]).
  assert (H4 : (t * / t == 1)%Q) by (apply Qmult_inv_r; lra).
  unfold Qdiv. repeat split; lra.
Qed.


(** *** The notification rows *)

Lemma fold_notify_error cols df idxs msg :
  fold_left (notify cols df) idxs (IndexError msg) = IndexError msg.
Proof. induction idxs as [|i idxs IH]; [reflexivity|]. exact IH. Qed.

Lemma fold_notify_done cols (df : list DataProcessor.CorrectedRow) idxs acc :
  (forall i, i ∈ idxs -> i < length df) ->
  exists l,
    fold_left (notify cols df) idxs (Done acc) = Done (acc ++ l) /\
    Forall2 (fun i n => exists c, df !! i = Some c /\ n = notification cols c) idxs l.
Proof.
  revert acc. induction idxs as [|i idxs IH]; intros acc Hin.
  - exists []. rewrite app_nil_r. split; [reflexivity | constructor].
  - destruct (lookup_lt_is_Some_2 df i) as [c Hc];
      [apply Hin, list_elem_of_here|].
    destruct (IH (acc ++ [notification cols c])) as (l & Hl & Hall).
    { intros j Hj. apply Hin. now apply list_elem_of_further. }
    exists (notification cols c :: l). split.
    + cbn [fold_left notify]. rewrite Hc, Hl, <- app_assoc. reflexivity.
    + constructor; [eauto | exact Hall].
Qed.

Lemma fold_notify_out_of_bounds cols (df : list DataProcessor.CorrectedRow) idxs acc :
  (exists i, i ∈ idxs /\ length df <= i) ->
  fold_left (notify cols df) idxs (Done acc) = IndexError out_of_bounds.
Proof.
  revert acc. induction idxs as [|i idxs IH]; intros acc (j & Hj & Hlen).
  - inversion Hj.
  - cbn [fold_left notify]. destruct (df !! i) as [c|] eqn:Hc.
    + apply IH. exists j. split; [|exact Hlen].
      apply elem_of_cons in Hj as [->|Hj]; [|exact Hj].
      apply lookup_lt_Some in Hc. lia.
    + apply fold_notify_error.
Qed.

(** X21. The notification rows of a corrected table and its own manifest:
    [prepare_notification_data] never raises, and returns one row per entry
    of the notification list, in order, each carrying the input target of
    its row as the original value, a final value within the ceiling, and the
    issue type "missing" exactly when the target is null.  Against a table
    too short for an index of the manifest it raises the [IndexError] of
    [iloc]. *)
Theorem notifications_of_prediction (self self' : DataProcessor.t)
  (df : DataFrame) (out : list DataProcessor.CorrectedRow) (cols : list string) :
  DataProcessor.predict_effort_expenses self df = (Ok out, self') ->
  let limit := effort_limit (DataProcessor.ml_model self) in
  let issues := identify_issues out in
  (exists notification_data,
     prepare_notification_data cols out issues = Done notification_data /\
     Forall2 (fun i n =>
                exists r, rows df !! i = Some r /\
                  original_effort n = effortExpense r /\
                  within_limit limit (final_effort n) /\
                  (issue_type n = "missing"%string <-> effortExpense r = None) /\
                  (issue_type n = "missing"%string \/
                   issue_type n = "over_limit"%string))
             (needs_notification issues) notification_data) /\
  (forall other : list DataProcessor.CorrectedRow,
     (exists i, i ∈ needs_notification issues /\ length other <= i) ->
     prepare_notification_data cols other issues = IndexError out_of_bounds).
Proof.
  intros Hp limit issues.
  destruct (corrected_rows _ _ _ _ Hp) as (Hall & _). fold limit in Hall.
  split; [|intros other Hex; now apply fold_notify_out_of_bounds].
  unfold prepare_notification_data.
  destruct (fold_notify_done cols out (needs_notification issues) [])
    as (l & Hl & Hrows).
  { subst issues. rewrite identify_issues_reading. cbn [needs_notification].
    rewrite (concat_noted _ (corrected_noted limit _ _ Hall)).
    intros i Hi.
    apply (elem_of_indices
             (fun c => needs_prediction (DataProcessor.predicted_row c))) in Hi
      as (c & Hc & _).
    now apply lookup_lt_Some in Hc. }
  exists l. split; [exact Hl|].
  eapply Forall2_impl; [exact Hrows|].
  intros i n (c & Hc & ->).
  destruct (Forall2_lookup_r _ _ _ _ _ Hall Hc) as (r & Hr & Ho & Hm & _ & _ & Hw & _).
  exists r. split; [exact Hr|].
  unfold notification.
  cbn [original_effort final_effort issue_type].
  split; [exact Ho|]. split; [exact Hw|]. rewrite Hm.
  destruct (effortExpense r); simpl; split; try (split; congruence); auto.
Qed.

Lemma fit_model_fields (self1 : t) samples test_size ht fm :
  let fitted := fit_model self1 samples test_size ht fm in
  is_trained fitted.2 = true /\
  effort_limit fitted.2 = effort_limit self1 /\
  feature_columns fitted.2 = feature_columns self1 /\
  categorical_columns fitted.2 = categorical_columns self1 /\
  model_metrics fitted.2 = Some fitted.1.
Proof.
  unfold fit_model. destruct (train_test_split test_size samples) as [train test].
  cbn. auto.
Qed.

Lemma prepare_features_columns (self : t) df :
  feature_columns (prepare_features self df).1
  = List.filter (has_column (extract_date_features df))
                (numerical_columns ++ CATEGORICAL) /\
  categorical_columns (prepare_features self df).1 = CATEGORICAL.
Proof. now rewrite prepare_features_self. Qed.

Lemma train_model_success (m : t) df test_size ht fm metrics m' :
  train_model m df test_size ht fm = (Ok metrics, m') ->
  is_trained m' = true /\
  effort_limit m' = effort_limit m /\
  feature_columns m'
  = List.filter (has_column (extract_date_features df))
                (numerical_columns ++ CATEGORICAL) /\
  categorical_columns m' = CATEGORICAL /\
  model_metrics m' = Some metrics.
Proof.
  intros H. rewrite train_model_unfold in H.
  destruct (_ <? 10)%nat; [discriminate|].
  pose proof (prepare_features_columns m df) as [Hfc Hcc].
  pose proof (prepare_features_effort_limit m df) as Hlim.
  revert H.
  generalize (fit_model_fields (prepare_features m df).1
                (training_set (prepare_features m df).1
                   (dropna_target (rows (prepare_features m df).2)))
                test_size ht fm).
  cbv zeta.
  generalize (fit_model (prepare_features m df).1
                (training_set (prepare_features m df).1
                   (dropna_target (rows (prepare_features m df).2)))
                test_size ht fm).
  intros [metrics0 ml] (F1 & F2 & F3 & F4 & F5) H.
  cbn [fst snd] in *. injection H as -> ->.
  rewrite F1, F2, F3, F4, F5, Hfc, Hcc, Hlim. auto.
Qed.

Lemma get_model_info_trained (self : DataProcessor.t) ml :
  get_model_info (DataProcessor.with_ml_model self ml true)
  = Some (mkModelInfo "CatBoost" (is_trained ml) (effort_limit ml)
                      (length (feature_columns ml))
                      (length (categorical_columns ml)) (model_metrics ml)).
Proof. reflexivity. Qed.

Lemma get_model_info_init effort_limit missing_threshold on_disk :
  get_model_info (DataProcessor.init effort_limit missing_threshold on_disk) = None.
Proof. reflexivity. Qed.

Lemma twelve_columns : length (numerical_columns ++ CATEGORICAL) = 12.
Proof. reflexivity. Qed.

Lemma orchestrator_train_model_success (self self' : DataProcessor.t) df ht fm metrics :
  DataProcessor.train_model self df ht fm = (Ok metrics, self') ->
  exists ml,
    self' = DataProcessor.with_ml_model self ml true /\
    train_model (DataProcessor.ml_model self) df (1 # 5) ht fm = (Ok metrics, ml).
Proof.
  unfold DataProcessor.train_model.
  generalize (train_model (DataProcessor.ml_model self) df (1 # 5) ht fm).
  intros [[m0|e] ml] H; [|discriminate].
  injection H as -> <-. now exists ml.
Qed.

(** X22. After a successful training, [get_model_info] describes a trained
    CatBoost model with the ceiling of the orchestrator's model and the
    metrics the training returned; the feature count is the number of the
    twelve numerical and categorical columns present in the training table,
    and the categorical count is always 5, whether those columns are in the
    table or not.  A new orchestrator reports that it is not trained. *)
Theorem get_model_info_after_training (self self' : DataProcessor.t)
  (df : DataFrame) (hyperparameter_tuning fast_mode : bool) (metrics : Metrics) :
  DataProcessor.train_model self df hyperparameter_tuning fast_mode
    = (Ok metrics, self') ->
  (exists info,
     get_model_info self' = Some info /\
     model_type info = "CatBoost"%string /\
     info_is_trained info = true /\
     info_effort_limit info = effort_limit (DataProcessor.ml_model self) /\
     info_feature_count info
     = length (List.filter (has_column (extract_date_features df))
                           (numerical_columns ++ CATEGORICAL)) /\
     info_feature_count info <= 12 /\
     info_categorical_features info = 5 /\
     info_metrics info = Some metrics) /\
  forall effort_limit missing_threshold on_disk,
    get_model_info (DataProcessor.init effort_limit missing_threshold on_disk) = None.
Proof.
  intros Ht. split; [|apply get_model_info_init].
  destruct (orchestrator_train_model_success _ _ _ _ _ _ Ht) as (ml & -> & Htrain).
  destruct (train_model_success _ _ _ _ _ _ _ Htrain) as (F1 & F2 & F3 & F4 & F5).
  rewrite get_model_info_trained. eexists. split; [reflexivity|].
  cbn [model_type info_is_trained info_effort_limit info_feature_count
       info_categorical_features info_metrics].
  rewrite F1, F2, F3, F4, F5.
  split; [reflexivity|]. split; [reflexivity|]. split; [reflexivity|].
  split; [reflexivity|]. split; [|split; reflexivity].
  rewrite <- twelve_columns. apply filter_length_le.
Qed.

End ReportsMore.

Section CeilingsMore.
Context {backend : Backend}.
Import CatBoostEffortModel.

Lemma train_model_effort_limit (m : t) df test_size ht fm :
  effort_limit (train_model m df test_size ht fm).2 = effort_limit m.
Proof.
  pose proof (train_model_state m df test_size ht fm) as Hs.
  destruct (train_model m df test_size ht fm) as [[metrics|e] m'] eqn:E;
    cbn [fst snd] in Hs |- *.
  - now destruct (train_model_success _ _ _ _ _ _ _ E) as (_ & H & _).
  - destruct Hs as [_ ->]. apply prepare_features_effort_limit.
Qed.

Lemma predict_effort_limit (m : t) df :
  effort_limit (predict m df).2 = effort_limit m.
Proof. rewrite predict_state. apply prepare_features_effort_limit. Qed.

(** X23. The orchestrator keeps two ceilings, its own and its model's.  A
    new orchestrator gives both the same value; training, predicting and
    saving change neither, whether they succeed or raise, and a save that
    succeeds records the orchestrator's own ceiling in the active registry
    entry.  Loading an artifact leaves the orchestrator's ceiling and takes
    the model's from the artifact, and it is the artifact's ceiling that the
    tables corrected afterwards are held to. *)
Theorem orchestrator_ceilings (self : DataProcessor.t) (filepath : string)
  (fs : gmap string Artifact) (artifact : Artifact) :
  fs !! filepath = Some artifact ->
  let loaded := (DataProcessor.load_model self (Some filepath) fs).2 in
  (DataProcessor.effort_limit loaded = DataProcessor.effort_limit self /\
   effort_limit (DataProcessor.ml_model loaded) = a_effort_limit artifact /\
   forall df out self',
     DataProcessor.predict_effort_expenses loaded df = (Ok out, self') ->
     Forall2 (corrected_from (a_effort_limit artifact)) (rows df) out) /\
  (forall limit missing_threshold on_disk,
     let new := DataProcessor.init limit missing_threshold on_disk in
     DataProcessor.effort_limit new = limit /\
     effort_limit (DataProcessor.ml_model new) = limit) /\
  (forall df ht fm,
     let after := (DataProcessor.train_model self df ht fm).2 in
     DataProcessor.effort_limit after = DataProcessor.effort_limit self /\
     effort_limit (DataProcessor.ml_model after)
     = effort_limit (DataProcessor.ml_model self)) /\
  (forall df,
     let after := (DataProcessor.predict_effort_expenses self df).2 in
     DataProcessor.effort_limit after = DataProcessor.effort_limit self /\
     effort_limit (DataProcessor.ml_model after)
     = effort_limit (DataProcessor.ml_model self)) /\
  (forall path ts nts now fs',
     let saved := DataProcessor.save_model self path ts nts now fs' in
     DataProcessor.effort_limit saved.1.2 = DataProcessor.effort_limit self /\
     effort_limit (DataProcessor.ml_model saved.1.2)
     = effort_limit (DataProcessor.ml_model self) /\
     forall written, saved.1.1 = Ok written ->
       exists active,
         ModelStorage.get_active_model (DataProcessor.model_storage saved.1.2)
         = Some active /\
         ModelStorage.effort_limit active = DataProcessor.effort_limit self).
Proof.
  intros Hfile. cbv zeta. split; [|split; [|split; [|split]]].
  - unfold DataProcessor.load_model, load_model. rewrite Hfile.
    cbn [snd DataProcessor.with_ml_model DataProcessor.effort_limit
         DataProcessor.ml_model effort_limit].
    split; [reflexivity|]. split; [reflexivity|].
    intros df out self' Hp. apply corrected_rows in Hp.
    destruct Hp as (Hp & _). exact Hp.
  - intros. split; reflexivity.
  - intros df ht fm. unfold DataProcessor.train_model.
    pose proof (train_model_effort_limit (DataProcessor.ml_model self) df
                  (1 # 5) ht fm) as Hl.
    destruct (train_model _ _ _ _ _) as [[metrics|e] ml];
      cbn [fst snd] in Hl |- *; split; [reflexivity|exact Hl|reflexivity|exact Hl].
  - intros df. unfold DataProcessor.predict_effort_expenses.
    destruct (negb _); [split; reflexivity|].
    pose proof (predict_effort_limit (DataProcessor.ml_model self) df) as Hl.
    destruct (predict _ _) as [[out|e] ml];
      cbn [fst snd] in Hl |- *; split; [reflexivity|exact Hl|reflexivity|exact Hl].
  - intros path ts nts now fs'. unfold DataProcessor.save_model.
    destruct (negb _); [split; [reflexivity|]; split; [reflexivity|]; discriminate|].
    destruct (save_model _ _ _) as [[u|e] fs''];
      [|split; [reflexivity|]; split; [reflexivity|]; discriminate].
    rewrite (surjective_pairing (ModelStorage.save_model _ _ _ _ _ _ _ _ _)).
    rewrite save_model_as_call.
    cbn [fst snd DataProcessor.effort_limit DataProcessor.ml_model
         DataProcessor.model_storage].
    split; [reflexivity|]. split; [reflexivity|].
    intros written _. rewrite get_active_model_after_save.
    eexists. split; [reflexivity|]. reflexivity.
Qed.

End CeilingsMore.

(** ** The further properties on the scenario *)

Section ScenarioRegistry.
Import ModelStorage Registry History Example.

Lemma save_model_fresh_id_witness :
  (id (inserted_by 1 first_save)
   < (save_model (run (init_database None) ([Save first_save] ++ [Delete 1]))
        (s_now second_save) (s_name second_save) (s_type second_save)
        (s_path second_save) (s_metrics second_save) (s_features second_save)
        (s_samples second_save) (s_limit second_save)).1)%Z.
Proof.
  apply (save_model_fresh_id [Save first_save] [Delete 1] second_save
           (inserted_by 1 first_save)).
  vm_compute. apply list_elem_of_here.
Defined.

Lemma load_after_delete_witness :
  let outcome := delete_model two_saves 2 disk in
  outcome.1.1 = true /\
  DataProcessor.load_model fresh_processor (Some "b.pkl"%string) outcome.2
  = (Raise (FileNotFoundError ("Model file not found: " +:+ "b.pkl")),
     fresh_processor) /\
  DataProcessor.load_model (with_storage fresh_processor outcome.1.2) None outcome.2
  = (Raise (ValueError DataProcessor.no_active_model),
     with_storage fresh_processor outcome.1.2).
Proof.
  cbv zeta.
  destruct (load_after_delete fresh_processor disk (inserted_by 2 second_save))
    as (H1 & H2 & H3).
  - vm_compute. apply list_elem_of_further, list_elem_of_here.
  - apply (bool_decide_unpack _). vm_compute. exact I.
  - split; [exact H1|]. split; [exact H2|]. apply H3.
    intros e' He' Ha. vm_compute in He'.
    apply list_elem_of_In in He'. destruct He' as [<-|[<-|[]]].
    + vm_compute in Ha. discriminate.
    + reflexivity.
Defined.

End ScenarioRegistry.

Section ScenarioMore.
Import CatBoostEffortModel Reports Example.
Local Open Scope Q_scope.


Lemma predict_clamped_from_below_witness :
  Forall (fun pr =>
            needs_prediction pr = true ->
            exists v, effortExpense_predicted pr = Some v /\
                      0 <= v /\ v <= effort_limit loaded_model /\
                      (is_missing_effort pr = true ->
                       effortExpense_final pr = Some v)) scenario_out.
Proof.
  apply (predict_clamped_from_below loaded_model scenario scenario_out
           scenario_result.2).
  - vm_compute; discriminate.
  - vm_compute; reflexivity.
Defined.

Lemma predict_final_is_fixed_point_witness :
  exists again,
    (predict (backend := toy_backend) (init 30)
       (with_targets (effortExpense_final <$> scenario_out) scenario)).1
    = Ok again /\
    effortExpense_final <$> again = effortExpense_final <$> scenario_out /\
    Forall (fun pr => needs_prediction pr = false) again.
Proof.
  apply (predict_final_is_fixed_point loaded_model scenario scenario_out
           scenario_result.2 (init 30)).
  - vm_compute; reflexivity.
  - reflexivity.
Defined.

Lemma artifact_round_trip_witness :
  let saved := save_model loaded_model "m.pkl" disk in
  let loaded := load_model (backend := toy_backend) (init 30) "m.pkl" saved.2 in
  saved.1 = Ok tt /\
  (forall path, path <> "m.pkl"%string -> saved.2 !! path = disk !! path) /\
  loaded.1 = Ok tt /\
  effort_limit loaded.2 = effort_limit loaded_model /\
  model loaded.2 = model loaded_model /\
  scaler loaded.2 = scaler loaded_model /\
  feature_columns loaded.2 = feature_columns loaded_model /\
  categorical_columns loaded.2 = categorical_columns loaded_model /\
  is_trained loaded.2 = is_trained loaded_model /\
  model_metrics loaded.2 = model_metrics loaded_model /\
  catboost_params loaded.2 = catboost_params (backend := toy_backend) (init 30) /\
  forall df, (predict loaded.2 df).1 = (predict loaded_model df).1.
Proof.
  apply (artifact_round_trip loaded_model (init 30) "m.pkl" disk (10 : Q)).
  reflexivity.
Defined.

Lemma prepare_features_missing_cells_witness :
  exists r',
    rows (prepare_features loaded_model scenario).2 !! 6%nat = Some r' /\
    (num r' "effortTimeCosts" = None <->
     forall r, r ∈ rows (extract_date_features scenario) ->
               num r "effortTimeCosts" = None).
Proof.
  assert (Hrow : is_Some (rows (prepare_features loaded_model scenario).2 !! 6%nat))
    by (vm_compute; eauto).
  destruct Hrow as [r' Hr']. exists r'. split; [exact Hr'|].
  apply (prepare_features_missing_cells loaded_model scenario 6
           (observation (Some 7) None) r' "effortTimeCosts").
  - vm_compute; reflexivity.
  - exact Hr'.
  - reflexivity.
  - apply list_elem_of_here.
Defined.


Lemma orchestrator_flag_backed_witness :
  DataProcessor.is_model_trained trained_processor = true /\
  (forall df ht fm,
     consistent (DataProcessor.train_model trained_processor df ht fm).2) /\
  (forall filepath fs,
     consistent (DataProcessor.load_model trained_processor filepath fs).2) /\
  (forall filepath ts nts now fs,
     consistent (DataProcessor.save_model trained_processor filepath ts nts now fs).1.2) /\
  (forall df,
     consistent (DataProcessor.predict_effort_expenses trained_processor df).2) /\
  (forall effort_limit missing_threshold on_disk,
     consistent (DataProcessor.init (backend := toy_backend)
                   effort_limit missing_threshold on_disk)).
Proof.
  split; [reflexivity|].
  apply (orchestrator_flag_backed trained_processor).
  intros _. vm_compute. eauto.
Defined.

Lemma save_then_load_active_model_witness :
  let saved :=
    DataProcessor.save_model trained_processor None
      "20240101_120000" "20240101_120000" 1704110400 ∅ in
  let path :=
    default ("effort_expense_model_catboost_" +:+ "20240101_120000" +:+ ".pkl")
            None in
  saved.1.1 = Ok path /\
  DataProcessor.ml_model saved.1.2 = DataProcessor.ml_model trained_processor /\
  DataProcessor.is_model_trained saved.1.2 = true /\
  (exists active,
     ModelStorage.get_active_model (DataProcessor.model_storage saved.1.2)
     = Some active /\
     ModelStorage.file_path active = path /\
     ModelStorage.model_name active
     = ("CatBoost_Model_" +:+ "20240101_120000")%string /\
     ModelStorage.is_active active = true) /\
  let loaded :=
    DataProcessor.load_model
      (with_storage fresh_processor (DataProcessor.model_storage saved.1.2))
      None saved.2 in
  loaded.1 = Ok tt /\
  DataProcessor.is_model_trained loaded.2 = true /\
  forall df,
    (DataProcessor.predict_effort_expenses loaded.2 df).1
    = (DataProcessor.predict_effort_expenses trained_processor df).1.
Proof.
  apply (save_then_load_active_model trained_processor fresh_processor None
           "20240101_120000" "20240101_120000" 1704110400 ∅).
  - intros _. vm_compute. eauto.
  - reflexivity.
Defined.


Lemma predict_effort_expenses_rows_witness :
  Forall2 (corrected_from (backend := toy_backend)
             (effort_limit (DataProcessor.ml_model loaded_processor)))
          (rows scenario) corrected_out /\
  DataProcessor.is_model_trained loaded_processor = true /\
  DataProcessor.is_model_trained corrected_result.2 = true /\
  DataProcessor.model_storage corrected_result.2
  = DataProcessor.model_storage loaded_processor.
Proof.
  apply (predict_effort_expenses_rows loaded_processor corrected_result.2
           scenario corrected_out).
  vm_compute; reflexivity.
Defined.

Lemma identify_issues_of_prediction_witness :
  let limit := effort_limit (DataProcessor.ml_model loaded_processor) in
  let issues := identify_issues corrected_out in
  (forall i, i ∈ missing_effort issues <->
             exists r, rows scenario !! i = Some r /\ effortExpense r = None) /\
  (forall i, i ∈ over_limit issues <->
             exists r, rows scenario !! i = Some r /\
                       gt (effortExpense r) limit = true) /\
  (forall i, i ∈ missing_effort issues -> i ∉ over_limit issues) /\
  NoDup (needs_notification issues) /\
  (forall i, i ∈ needs_notification issues <->
             i ∈ missing_effort issues \/ i ∈ over_limit issues) /\
  index <$> predicted_values issues = needs_notification issues /\
  Forall (fun pv => within_limit limit (final pv) /\
                    (reason pv = "missing"%string <-> original pv = None))
         (predicted_values issues).
Proof.
  apply (identify_issues_of_prediction loaded_processor corrected_result.2
           scenario corrected_out).
  vm_compute; reflexivity.
Defined.

Example scenario_issues :
  missing_effort (identify_issues corrected_out) = [1; 5]%nat /\
  over_limit (identify_issues corrected_out) = [3]%nat /\
  needs_notification (identify_issues corrected_out) = [1; 3; 5]%nat.
Proof. vm_compute. auto. Qed.


Lemma notifications_of_prediction_witness :
  let limit := effort_limit (DataProcessor.ml_model loaded_processor) in
  let issues := identify_issues corrected_out in
  (exists notification_data,
     prepare_notification_data (columns scenario) corrected_out issues
     = Done notification_data /\
     Forall2 (fun i n =>
                exists r, rows scenario !! i = Some r /\
                  original_effort n = effortExpense r /\
                  within_limit limit (final_effort n) /\
                  (issue_type n = "missing"%string <-> effortExpense r = None) /\
                  (issue_type n = "missing"%string \/
                   issue_type n = "over_limit"%string))
             (needs_notification issues) notification_data) /\
  (forall other : list DataProcessor.CorrectedRow,
     (exists i, i ∈ needs_notification issues /\ (length other <= i)%nat) ->
     prepare_notification_data (columns scenario) other issues
     = IndexError out_of_bounds).
Proof.
  apply (notifications_of_prediction loaded_processor corrected_result.2
           scenario corrected_out (columns scenario)).
  vm_compute; reflexivity.
Defined.

Lemma get_model_info_after_training_witness :
  (exists info,
     get_model_info trained_processor = Some info /\
     model_type info = "CatBoost"%string /\
     info_is_trained info = true /\
     info_effort_limit info
     = effort_limit (DataProcessor.ml_model
                       (DataProcessor.init (backend := toy_backend) 30 (1 # 10) None)) /\
     info_feature_count info
     = length (List.filter (has_column (extract_date_features training_table))
                           (numerical_columns ++ CATEGORICAL)) /\
     (info_feature_count info <= 12)%nat /\
     info_categorical_features info = 5%nat /\
     info_metrics info = Some training_metrics) /\
  forall effort_limit missing_threshold on_disk,
    get_model_info (DataProcessor.init (backend := toy_backend)
                      effort_limit missing_threshold on_disk) = None.
Proof.
  apply (get_model_info_after_training
           (DataProcessor.init (backend := toy_backend) 30 (1 # 10) None)
           trained_processor training_table false true training_metrics).
  vm_compute; reflexivity.
Defined.

Lemma orchestrator_ceilings_witness :
  let self :=
    DataProcessor.init (backend := toy_backend) 40 (1 # 10) (Some two_saves) in
  let loaded := (DataProcessor.load_model self (Some "b.pkl"%string) disk).2 in
  DataProcessor.effort_limit loaded = 40 /\
  effort_limit (DataProcessor.ml_model loaded) = 30 /\
  forall df out self',
    DataProcessor.predict_effort_expenses loaded df = (Ok out, self') ->
    Forall2 (corrected_from (backend := toy_backend) 30) (rows df) out.
Proof.
  cbv zeta.
  destruct (orchestrator_ceilings
              (DataProcessor.init (backend := toy_backend) 40 (1 # 10)
                 (Some two_saves))
              "b.pkl" disk artifact_b) as [H _].
  - vm_compute; reflexivity.
  - exact H.
Defined.

End ScenarioMore.
